(** * Usage cost tracking for Open WebUI manifolds

    A shallow embedding of [src/functions/cost_tracking_util.py]:
    - [PyStr]: the [str] operations the module uses;
    - [Dec]: [decimal.Decimal] under the default context (28 digits,
      ROUND_HALF_EVEN, trapped InvalidOperation and Overflow);
    - [ModelCostManager]: the pricing table and the resolution of a model
      name to a pricing record;
    - [CostCalculationManager]: cost computation and encoder selection;
    - [UsagePersistenceManager]: the usage summary query;
    - [CostTrackingManager]: the status message and the per-request call.

    A [str] is modelled by the [string] of its UTF-8 bytes.  [str.lower] and
    [str.strip] follow the Unicode database and are an interface,
    [StrMethods], over which the program is modelled; tiktoken and the SQL
    database are interfaces in the same way.  A [dict] whose iteration
    order matters is an association list in insertion order. *)

From Stdlib Require Import String Ascii List ZArith QArith Qround Lia Bool Arith.
From Stdlib Require Import Permutation Sorted OrdersEx SetoidList RelationClasses.
Import ListNotations.

(** ** Results of fallible code *)

Inductive result (E A : Type) : Type :=
| Ok (a : A)
| Raise (e : E).
Arguments Ok {E A} a.
Arguments Raise {E A} e.

Definition bind {E A B : Type} (r : result E A) (k : A -> result E B) : result E B :=
  match r with
  | Ok a => k a
  | Raise e => Raise e
  end.

Notation "x <- r ;; k" := (bind r (fun x => k))
  (at level 61, r at next level, right associativity).

(** ** Python [str] operations *)

Module PyStr.
Local Open Scope string_scope.

(** [s.lower()] and [s.strip()].  Both depend on the Unicode database of
    the interpreter (case mappings, some of them by context, and the
    white-space property), so the program is modelled over any pair of
    them. *)
Class StrMethods : Type := {
  lower : string -> string;
  strip : string -> string
}.

(** [s.startswith(p)]; on UTF-8 text a prefix in bytes is a prefix in
    characters. *)
Definition startswith (s p : string) : bool := String.prefix p s.

(** [needle in haystack], for an ASCII needle. *)
Fixpoint contains (needle haystack : string) : bool :=
  String.prefix needle haystack ||
  match haystack with
  | EmptyString => false
  | String _ r => contains needle r
  end.

(** [s.split(sep, 1)] for a separator of one character. *)
Fixpoint split1 (sep : ascii) (s : string) : list string :=
  match s with
  | EmptyString => [EmptyString]
  | String c r =>
      if Ascii.eqb c sep then [EmptyString; r]
      else match split1 sep r with
           | h :: t => String c h :: t
           | [] => []
           end
  end.

(** [sep.join(parts)] *)
Definition join (sep : string) (parts : list string) : string :=
  String.concat sep parts.

(** Truth value of a [str]: non-empty. *)
Definition truthy (s : string) : bool :=
  match s with
  | EmptyString => false
  | _ => true
  end.

End PyStr.

(** ** [decimal.Decimal] under the default context

    A finite decimal is a sign, a non-negative coefficient and an exponent,
    as in [Decimal.as_tuple()]; its value is
    [(-1) ^ sign * coefficient * 10 ^ exponent].  The module never changes
    the context, so every operation runs with [prec = 28],
    [ROUND_HALF_EVEN], [Emax = 999999], [Emin = -999999], and
    InvalidOperation and Overflow raise. *)

Module Dec.
Local Open Scope Z_scope.

Record Decimal : Type :=
  mkDecimal { sign : bool; coefficient : Z; exponent : Z }.

Inductive DecimalException : Type := InvalidOperation | Overflow.

Inductive Rounding : Type := ROUND_HALF_UP | ROUND_HALF_EVEN.

Definition prec : Z := 28.
Definition Emax : Z := 999999.
Definition Emin : Z := -999999.
Definition Etiny : Z := Emin - prec + 1.
Definition Etop : Z := Emax - prec + 1.

Fixpoint ndigits_fuel (fuel : nat) (n : Z) : Z :=
  match fuel with
  | O => 1
  | S f => if n <? 10 then 1 else 1 + ndigits_fuel f (n / 10)
  end.

(** Number of digits of a coefficient, [len(self._int)]; 1 for zero. *)
Definition ndigits (n : Z) : Z := ndigits_fuel (Z.to_nat (Z.log2 n)) n.

(** [self.adjusted()] *)
Definition adjusted (d : Decimal) : Z := exponent d + ndigits (coefficient d) - 1.

(** Drop the [k] low digits of the coefficient [c], rounding. *)
Definition round_shift (rounding : Rounding) (c k : Z) : Z :=
  let p := 10 ^ k in
  let q := c / p in
  let r := c mod p in
  let up := match rounding with
            | ROUND_HALF_UP => p <=? 2 * r
            | ROUND_HALF_EVEN => (p <? 2 * r) || ((p =? 2 * r) && Z.odd q)
            end in
  if up then q + 1 else q.

(** [self._rescale(exp, rounding)] *)
Definition _rescale (d : Decimal) (exp : Z) (rounding : Rounding) : Decimal :=
  if coefficient d =? 0 then mkDecimal (sign d) 0 exp
  else if exp <=? exponent d
       then mkDecimal (sign d) (coefficient d * 10 ^ (exponent d - exp)) exp
       else mkDecimal (sign d)
              (round_shift rounding (coefficient d) (exp - exponent d)) exp.

(** [self._fix(context)]: round to the context's precision. *)
Definition _fix (d : Decimal) : result DecimalException Decimal :=
  if coefficient d =? 0 then
    Ok (mkDecimal (sign d) 0 (Z.min (Z.max (exponent d) Etiny) Emax))
  else
    let exp_min0 := ndigits (coefficient d) + exponent d - prec in
    if Etop <? exp_min0 then Raise Overflow
    else
      let exp_min := Z.max exp_min0 Etiny in
      if exponent d <? exp_min then
        let coeff := round_shift ROUND_HALF_EVEN (coefficient d) (exp_min - exponent d) in
        let '(coeff, exp_min) :=
          if prec <? ndigits coeff then (coeff / 10, exp_min + 1) else (coeff, exp_min) in
        if Etop <? exp_min then Raise Overflow
        else Ok (mkDecimal (sign d) coeff exp_min)
      else Ok d.

(** [Decimal(n)] for an [int]: exact. *)
Definition of_int (n : Z) : Decimal := mkDecimal (n <? 0) (Z.abs n) 0.

(** [a * b] *)
Definition mul (a b : Decimal) : result DecimalException Decimal :=
  _fix (mkDecimal (xorb (sign a) (sign b))
          (coefficient a * coefficient b) (exponent a + exponent b)).

Definition signed (s : bool) (c : Z) : Z := if s then - c else c.

(** [a + b]: the exact sum at the smaller exponent, then [_fix]; a zero
    sum is negative only when both operands are negative zeros. *)
Definition add (a b : Decimal) : result DecimalException Decimal :=
  let m := Z.min (exponent a) (exponent b) in
  let s := signed (sign a) (coefficient a * 10 ^ (exponent a - m))
           + signed (sign b) (coefficient b * 10 ^ (exponent b - m)) in
  let sg := if s =? 0
            then (coefficient a =? 0) && (coefficient b =? 0) && sign a && sign b
            else s <? 0 in
  _fix (mkDecimal sg (Z.abs s) m).

(** [self.quantize(Decimal(1E<exp>), rounding=rounding)] *)
Definition quantize (d : Decimal) (exp : Z) (rounding : Rounding)
  : result DecimalException Decimal :=
  if negb ((Etiny <=? exp) && (exp <=? Emax)) then Raise InvalidOperation
  else if coefficient d =? 0 then _fix (mkDecimal (sign d) 0 exp)
  else if Emax <? adjusted d then Raise InvalidOperation
  else if prec <? adjusted d - exp + 1 then Raise InvalidOperation
  else
    let ans := _rescale d exp rounding in
    if Emax <? adjusted ans then Raise InvalidOperation
    else if prec <? ndigits (coefficient ans) then Raise InvalidOperation
    else _fix ans.

(** The rational a decimal denotes. *)
Definition to_Q (d : Decimal) : Q :=
  let c := signed (sign d) (coefficient d) in
  if 0 <=? exponent d
  then inject_Z (c * 10 ^ exponent d)
  else Qmake c (Z.to_pos (10 ^ (- exponent d))).

(** *** Text of a decimal *)

Definition digit_char (d : Z) : ascii := ascii_of_nat (48 + Z.to_nat d).

Fixpoint digits_fuel (fuel : nat) (n : Z) (acc : string) : string :=
  match fuel with
  | O => acc
  | S f =>
      let acc' := String (digit_char (n mod 10)) acc in
      if n <? 10 then acc' else digits_fuel f (n / 10) acc'
  end.

(** [str(n)] for [n >= 0]. *)
Definition digits (n : Z) : string :=
  digits_fuel (S (Z.to_nat (Z.log2 n))) n EmptyString.

(** The last [w] digits of [n], zero padded. *)
Fixpoint pad_digits (w : nat) (n : Z) : string :=
  match w with
  | O => EmptyString
  | S w' => (pad_digits w' (n / 10) ++ String (digit_char (n mod 10)) EmptyString)%string
  end.

(** Group the digits of [n >= 0] by three, [','] between groups. *)
Fixpoint group_thousands (fuel : nat) (n : Z) : string :=
  match fuel with
  | O => digits n
  | S f =>
      if n <? 1000 then digits n
      else (group_thousands f (n / 1000) ++ "," ++ pad_digits 3 (n mod 1000))%string
  end.

(** [format(d, ',.2f')]: two fractional digits, rounded with the context's
    rounding, thousands separated by commas. *)
Definition format_2f (d : Decimal) : string :=
  let c := coefficient (_rescale d (-2) ROUND_HALF_EVEN) in
  let minus := if sign d then "-"%string else EmptyString in
  (minus
   ++ group_thousands (Z.to_nat (Z.log2 c)) (c / 100)
   ++ "." ++ pad_digits 2 (c mod 100))%string.

End Dec.

(** ** Configuration constants *)

Module Config.

(** [Decimal(Config.DECIMALS)], the literal ["0.00000001"]. *)
Definition DECIMALS : Dec.Decimal := Dec.mkDecimal false 1 (-8).

End Config.

(** ** ModelCostManager: pricing table and model resolution *)

Module ModelCostManager.
Import PyStr.
Local Open Scope string_scope.

(** One entry of the pricing table.  The two costs are Python floats that
    the program only ever reads through [Decimal(str(x))]; a field holds
    that decimal, the shortest literal that prints the float. *)
Record PricingRecord : Type := mkPricing {
  input_cost_per_token : Dec.Decimal;
  output_cost_per_token : Dec.Decimal;
  cost_currency : string
}.

(** A pricing table in insertion order, the order [dict.keys()] iterates. *)
Definition PricingTable : Type := list (string * PricingRecord).

Definition price (c e : Z) : Dec.Decimal := Dec.mkDecimal false c e.

Definition pricing_data : PricingTable :=
  [ ("openai.o1-preview", mkPricing (price 15 (-3)) (price 6 (-2)) "USD");
    ("openai.o1-mini", mkPricing (price 3 (-3)) (price 12 (-3)) "USD");
    ("chatgpt-4o-latest", mkPricing (price 5 (-3)) (price 15 (-3)) "USD");
    ("openai.gpt-4o", mkPricing (price 25 (-4)) (price 1 (-2)) "USD");
    ("openai.gpt-4o-2024-05-13", mkPricing (price 5 (-3)) (price 15 (-3)) "USD");
    ("openai.gpt-4o-mini", mkPricing (price 15 (-5)) (price 6 (-4)) "USD");
    ("openai.gpt-4-turbo", mkPricing (price 1 (-2)) (price 3 (-2)) "USD");
    ("openai.gpt-4", mkPricing (price 3 (-2)) (price 6 (-2)) "USD");
    ("anthropic.claude-3-opus", mkPricing (price 15 (-3)) (price 75 (-3)) "USD");
    ("anthropic.claude-3-sonnet", mkPricing (price 3 (-3)) (price 15 (-3)) "USD");
    ("anthropic.claude-3-5-sonnet", mkPricing (price 3 (-3)) (price 15 (-3)) "USD");
    ("anthropic.claude-3-haiku", mkPricing (price 25 (-5)) (price 125 (-5)) "USD");
    ("anthropic.claude-3-5-haiku", mkPricing (price 25 (-5)) (price 125 (-5)) "USD");
    ("yandexgpt.yandexgpt", mkPricing (price 12 (-4)) (price 12 (-4)) "RUB");
    ("yandexgpt.yandexgpt-lite", mkPricing (price 2 (-4)) (price 2 (-4)) "RUB") ].

Definition _normalize_model_name {str : StrMethods} (name : string)
    (strip_prefix : bool) : string :=
  let name := lower name in
  if strip_prefix && contains "." name
  then nth 1 (split1 "." name) EmptyString
  else name.

(** The lines [get_model_data] prints, by their arguments. *)
Inductive LogLine : Type :=
| UsingExactMatch (model : string)
| SearchingBestMatch (model : string)
| TryingWithoutPrefix (stripped : string)
| NotFound (model : string)
| UsingBestMatch (best_match : string).

Section Resolver.

Context {str : StrMethods}.
Variable table : PricingTable.

Definition keys : list string := map fst table.

(** [table.get(key)]; [None] stands for the empty record [{}]. *)
Definition get (key : string) : option PricingRecord :=
  option_map snd (find (fun kv => String.eqb (fst kv) key) table).

(** One iteration of the loop of [_find_best_match] on the state
    [(best_match, longest_match_length)].  The lengths compared are those
    of prefixes of one text, the normalized query, which compare in bytes
    as they do in characters. *)
Definition best_match_step (normalized_query : string) (strip_prefix : bool)
    (state : option string * nat) (key : string) : option string * nat :=
  let normalized_key := _normalize_model_name key strip_prefix in
  if startswith normalized_query normalized_key then
    let match_length := String.length normalized_key in
    if (snd state <? match_length)%nat then (Some key, match_length) else state
  else state.

Definition _find_best_match (query : string) (strip_prefix : bool) : option string :=
  let normalized_query := _normalize_model_name query strip_prefix in
  fst (fold_left (best_match_step normalized_query strip_prefix) keys (None, O)).

(** [get_model_data] with the lines it prints. *)
Definition get_model_data_log (model : string)
  : (string * option PricingRecord) * list LogLine :=
  let model := strip (lower model) in
  match get model with
  | Some record => ((model, Some record), [UsingExactMatch model])
  | None =>
      let '(best_match, retry_log) :=
        match _find_best_match model false with
        | Some key => (Some key, [])
        | None =>
            (_find_best_match model true,
             [TryingWithoutPrefix (_normalize_model_name model true)])
        end in
      match best_match with
      | None =>
          (("unknown", None),
           SearchingBestMatch model :: retry_log ++ [NotFound model])
      | Some key =>
          ((key, get key),
           SearchingBestMatch model :: retry_log ++ [UsingBestMatch key])
      end
  end.

Definition get_model_data (model : string) : string * option PricingRecord :=
  fst (get_model_data_log model).

End Resolver.

End ModelCostManager.

(** ** CostCalculationManager: cost computation and encoder selection *)

Module CostCalculationManager.
Import PyStr Dec ModelCostManager.
Local Open Scope Z_scope.

(** The numbers [calculate_costs] computes with: an [int] or a [Decimal]. *)
Inductive PyNum : Type :=
| PyInt (n : Z)
| PyDecimal (d : Decimal).

(** [Decimal.__mul__(d, x)], also reached from [int * Decimal]. *)
Definition decimal_mul (d : Decimal) (x : PyNum) : result DecimalException Decimal :=
  match x with
  | PyInt n => Dec.mul d (of_int n)
  | PyDecimal e => Dec.mul d e
  end.

(** [x + y] *)
Definition py_add (x y : PyNum) : result DecimalException PyNum :=
  match x, y with
  | PyInt m, PyInt n => Ok (PyInt (m + n))
  | PyInt m, PyDecimal e => s <- Dec.add e (of_int m) ;; Ok (PyDecimal s)
  | PyDecimal d, PyInt n => s <- Dec.add d (of_int n) ;; Ok (PyDecimal s)
  | PyDecimal d, PyDecimal e => s <- Dec.add d e ;; Ok (PyDecimal s)
  end.

(** The attributes [__init__] sets, the encoder apart. *)
Record CostCalculationManager : Type := mkManager {
  model : string;
  model_used_by_cost_calculation : string;
  model_pricing_data : option PricingRecord
}.

(** [Decimal(str(data.get(field, 0)))] *)
Definition cost_field (field : PricingRecord -> Decimal)
    (data : option PricingRecord) : Decimal :=
  match data with
  | Some record => field record
  | None => of_int 0
  end.

Definition calculate_costs (self : CostCalculationManager)
    (input_tokens output_tokens : Z)
  : result DecimalException (Decimal * string * string) :=
  let compensation := of_int 1 in
  let input_cost_per_token :=
    cost_field input_cost_per_token (model_pricing_data self) in
  let output_cost_per_token :=
    cost_field output_cost_per_token (model_pricing_data self) in
  input_cost <-
    (if input_tokens =? 0 then Ok (PyInt 0)
     else d <- decimal_mul input_cost_per_token (PyInt input_tokens) ;;
          Ok (PyDecimal d)) ;;
  output_cost <-
    (if output_tokens =? 0 then Ok (PyInt 0)
     else d <- decimal_mul output_cost_per_token (PyInt output_tokens) ;;
          Ok (PyDecimal d)) ;;
  costs <- py_add input_cost output_cost ;;
  total_cost <- decimal_mul compensation costs ;;
  total_cost <- quantize total_cost (exponent Config.DECIMALS) ROUND_HALF_UP ;;
  Ok (total_cost,
      match model_pricing_data self with
      | Some record => cost_currency record
      | None => EmptyString
      end,
      model_used_by_cost_calculation self).

(** The part of [__init__] that resolves the pricing data. *)
Definition init {str : StrMethods} (table : PricingTable) (model : string)
  : CostCalculationManager :=
  let '(used, data) := get_model_data table model in
  mkManager model used data.

(** *** Encoder selection, over the tiktoken interface *)

Inductive TiktokenError : Type :=
| KeyError
| OtherError (name : string).

Section Tiktoken.

Variable Encoding : Type.
(** [tiktoken.encoding_for_model] and [tiktoken.get_encoding] *)
Variable encoding_for_model : string -> result TiktokenError Encoding.
Variable tiktoken_get_encoding : string -> result TiktokenError Encoding.

(** The model name [get_encoding] looks up: the text after the first dot. *)
Definition strip_provider (model : string) : string :=
  if contains "." model then nth 1 (split1 "." model) EmptyString else model.

Definition get_encoding (model : string) : result TiktokenError Encoding :=
  let model := strip_provider model in
  match encoding_for_model model with
  | Ok enc => Ok enc
  | Raise KeyError => tiktoken_get_encoding "cl100k_base"
  | Raise e => Raise e
  end.

End Tiktoken.

Arguments get_encoding {Encoding}.

End CostCalculationManager.

(** ** Exceptions that reach the caller of the usage summary *)

Inductive Exception : Type :=
| OverflowError  (* of [datetime + timedelta] *)
| QueryError.    (* what [db.execute], or reading its rows, raises *)

(** ** [datetime.datetime], naive *)

Module Datetime.
Local Open Scope Z_scope.

Record datetime : Type := mkDatetime {
  year : Z; month : Z; day : Z;
  hour : Z; minute : Z; second : Z; microsecond : Z
}.

Definition MAXYEAR : Z := 9999.

Definition is_leap (y : Z) : bool :=
  (y mod 4 =? 0) && (negb (y mod 100 =? 0) || (y mod 400 =? 0)).

Definition days_in_month (y m : Z) : Z :=
  if m =? 2 then (if is_leap y then 29 else 28)
  else if (m =? 4) || (m =? 6) || (m =? 9) || (m =? 11) then 30
  else 31.

(** [d + timedelta(days=1)]: the same time on the next calendar day;
    OverflowError past 9999-12-31. *)
Definition add_one_day (d : datetime) : result Exception datetime :=
  let at_date y m dd :=
    mkDatetime y m dd (hour d) (minute d) (second d) (microsecond d) in
  if day d <? days_in_month (year d) (month d)
  then Ok (at_date (year d) (month d) (day d + 1))
  else if month d <? 12 then Ok (at_date (year d) (month d + 1) 1)
  else if year d <? MAXYEAR then Ok (at_date (year d + 1) 1 1)
  else Raise OverflowError.

Definition fields (d : datetime) : list Z :=
  [year d; month d; day d; hour d; minute d; second d; microsecond d].

Fixpoint fields_ltb (a b : list Z) : bool :=
  match a, b with
  | x :: a', y :: b' => (x <? y) || ((x =? y) && fields_ltb a' b')
  | _, _ => false
  end.

(** [a < b] *)
Definition ltb (a b : datetime) : bool := fields_ltb (fields a) (fields b).

(** [a >= b] *)
Definition geb (a b : datetime) : bool := negb (ltb a b).

(** The calendar date as text, [YYYY-MM-DD]: what [strftime('%Y-%m-%d', t)]
    and [to_char(t, 'YYYY-MM-DD')] give. *)
Definition format_date (d : datetime) : string :=
  (Dec.pad_digits 4 (year d) ++ "-" ++ Dec.pad_digits 2 (month d)
   ++ "-" ++ Dec.pad_digits 2 (day d))%string.

(** What the constructor of [datetime] accepts. *)
Definition valid (d : datetime) : Prop :=
  1 <= year d <= MAXYEAR /\ 1 <= month d <= 12 /\
  1 <= day d <= days_in_month (year d) (month d) /\
  0 <= hour d < 24 /\ 0 <= minute d < 60 /\ 0 <= second d < 60 /\
  0 <= microsecond d < 1000000.

End Datetime.

(** ** UsagePersistenceManager: the usage table and its summary query *)

Module UsagePersistenceManager.
Import PyStr Datetime.
Local Open Scope string_scope.
Local Open Scope list_scope.

(** A row of [usage_costs], by the values that were bound when it was
    inserted; the table is the list of its rows, in insertion order. *)
Record UsageFact : Type := mkUsageFact {
  user_email : string;
  model : string;
  task : string;
  timestamp : datetime;
  input_tokens : Z;
  output_tokens : Z;
  total_cost : Dec.Decimal;
  cost_currency : string;
  model_used_by_cost_calculation : string
}.

(** The SQL database behind [get_db()], SQLite or PostgreSQL, as far as the
    summary query uses it.
    - [sum_total_cost] is [float(SUM(total_cost))] over the rows of one
      group, given in table order: SQLite holds the column as floats and
      adds them in that order, PostgreSQL adds exactly and the result is
      converted.  [sum_integer] is [SUM] over an INTEGER column.  Either is
      [None] when the statement, or the conversion, raises (integer
      overflow among others).
    - [text_compare] is the order of the collation ORDER BY compares texts
      with: a total order that tells different texts apart, as SQLite's
      BINARY and the deterministic collations of PostgreSQL are, and in
      which the digits are in numeric order, so that texts [YYYY-MM-DD]
      compare as their bytes do. *)
Class Database : Type := {
  PyFloat : Type;
  sum_total_cost : list Dec.Decimal -> option PyFloat;
  sum_integer : list Z -> option Z;
  text_compare : string -> string -> comparison;
  text_compare_eq : forall a b, text_compare a b = Eq <-> a = b;
  text_compare_antisym : forall a b, text_compare b a = CompOpp (text_compare a b);
  text_compare_trans :
    forall a b c, text_compare a b = Lt -> text_compare b c = Lt -> text_compare a c = Lt;
  text_compare_dates :
    forall d d' : datetime,
      text_compare (format_date d) (format_date d')
      = String.compare (format_date d) (format_date d')
}.

(** The conditions [get_usage_stats] may put in the WHERE clause. *)
Inductive Condition : Type :=
| UserEmailEq   (* user_email = :user_email *)
| TimestampGe   (* timestamp >= :start_date *)
| TimestampLt.  (* timestamp < :end_date *)

(** The bound parameters, [params]. *)
Record Params : Type := mkParams {
  param_user_email : option string;
  param_start_date : option datetime;
  param_end_date : option datetime
}.

(** The columns the query groups and orders by; [DateColumn] is the
    [date_function] expression over [timestamp]. *)
Inductive Column : Type := UserEmail | Model | CostCurrency | DateColumn.

Record Query : Type := mkQuery {
  where_conditions : list Condition;
  params : Params
}.

(** GROUP BY user_email, model, cost_currency, date *)
Definition group_by : list Column := [UserEmail; Model; CostCurrency; DateColumn].

(** ORDER BY user_email, date, model, cost_currency *)
Definition order_by : list Column := [UserEmail; DateColumn; Model; CostCurrency].

(** The query [get_usage_stats] builds for its arguments. *)
Definition build_query (user_email : option string)
    (start_date end_date : option datetime) : result Exception Query :=
  let where_conditions := [] in
  let params := mkParams None None None in
  let '(where_conditions, params) :=
    match user_email with
    | Some u =>
        if truthy u
        then (where_conditions ++ [UserEmailEq],
              mkParams (Some u) (param_start_date params) (param_end_date params))
        else (where_conditions, params)
    | None => (where_conditions, params)
    end in
  let '(where_conditions, params) :=
    match start_date with
    | Some s =>
        (where_conditions ++ [TimestampGe],
         mkParams (param_user_email params) (Some s) (param_end_date params))
    | None => (where_conditions, params)
    end in
  match end_date with
  | Some e =>
      next_day <- add_one_day e ;;
      Ok (mkQuery (where_conditions ++ [TimestampLt])
            (mkParams (param_user_email params) (param_start_date params)
               (Some next_day)))
  | None => Ok (mkQuery where_conditions params)
  end.

(** *** What the database computes for the query *)

Definition eval_condition (p : Params) (row : UsageFact) (c : Condition) : bool :=
  match c with
  | UserEmailEq =>
      match param_user_email p with
      | Some u => String.eqb (user_email row) u
      | None => false
      end
  | TimestampGe =>
      match param_start_date p with
      | Some s => geb (timestamp row) s
      | None => false
      end
  | TimestampLt =>
      match param_end_date p with
      | Some e => ltb (timestamp row) e
      | None => false
      end
  end.

(** WHERE: the conditions joined by AND. *)
Definition admits (q : Query) (row : UsageFact) : bool :=
  forallb (eval_condition (params q) row) (where_conditions q).

Definition column_value (c : Column) (row : UsageFact) : string :=
  match c with
  | UserEmail => user_email row
  | Model => model row
  | CostCurrency => cost_currency row
  | DateColumn => format_date (timestamp row)
  end.

Definition group_key (row : UsageFact) : list string :=
  map (fun c => column_value c row) group_by.

Definition same_group (a b : UsageFact) : bool :=
  if list_eq_dec string_dec (group_key a) (group_key b) then true else false.

(** The first row of every group, in table order. *)
Fixpoint group_heads (rows : list UsageFact) : list UsageFact :=
  match rows with
  | [] => []
  | r :: rest => r :: filter (fun x => negb (same_group r x)) (group_heads rest)
  end.

Section Query.

Context {db : Database}.

(** A row of the result, the dictionary built for each fetched row. *)
Record SummaryRow : Type := mkSummaryRow {
  summary_user_email : string;
  summary_model : string;
  summary_currency : string;
  summary_date : string;
  summary_total_cost : PyFloat;
  total_input_tokens : Z;
  total_output_tokens : Z
}.

(** An aggregate of the query; the query raises where it has no value. *)
Definition aggregate {A : Type} (value : option A) : result Exception A :=
  match value with
  | Some a => Ok a
  | None => Raise QueryError
  end.

(** The row fetched for the group of [head] among [rows], as the dictionary
    built from it. *)
Definition summarize (rows : list UsageFact) (head : UsageFact)
  : result Exception SummaryRow :=
  let members := filter (same_group head) rows in
  cost <- aggregate (sum_total_cost (map total_cost members)) ;;
  tokens_in <- aggregate (sum_integer (map input_tokens members)) ;;
  tokens_out <- aggregate (sum_integer (map output_tokens members)) ;;
  Ok (mkSummaryRow (user_email head) (model head) (cost_currency head)
        (format_date (timestamp head)) cost tokens_in tokens_out).

Definition summary_column (c : Column) (s : SummaryRow) : string :=
  match c with
  | UserEmail => summary_user_email s
  | Model => summary_model s
  | CostCurrency => summary_currency s
  | DateColumn => summary_date s
  end.

Definition order_key (s : SummaryRow) : list string :=
  map (fun c => summary_column c s) order_by.

(** Lexicographic order of keys, texts compared as the collation does. *)
Fixpoint key_leb (a b : list string) : bool :=
  match a, b with
  | [], _ => true
  | _ :: _, [] => false
  | x :: a', y :: b' =>
      match text_compare x y with
      | Lt => true
      | Eq => key_leb a' b'
      | Gt => false
      end
  end.

Definition summary_leb (a b : SummaryRow) : bool :=
  key_leb (order_key a) (order_key b).

Fixpoint insert_sorted (s : SummaryRow) (l : list SummaryRow) : list SummaryRow :=
  match l with
  | [] => [s]
  | h :: t => if summary_leb s h then s :: l else h :: insert_sorted s t
  end.

(** ORDER BY *)
Definition sort_summaries (l : list SummaryRow) : list SummaryRow :=
  fold_right insert_sorted [] l.

(** All the results, or the first exception. *)
Fixpoint collect {A : Type} (l : list (result Exception A))
  : result Exception (list A) :=
  match l with
  | [] => Ok []
  | r :: rest => a <- r ;; others <- collect rest ;; Ok (a :: others)
  end.

Definition run_query (q : Query) (usage_costs : list UsageFact)
  : result Exception (list SummaryRow) :=
  let rows := filter (admits q) usage_costs in
  summaries <- collect (map (summarize rows) (group_heads rows)) ;;
  Ok (sort_summaries summaries).

Definition get_usage_stats (usage_costs : list UsageFact)
    (user_email : option string) (start_date end_date : option datetime)
  : result Exception (list SummaryRow) :=
  q <- build_query user_email start_date end_date ;;
  run_query q usage_costs.

End Query.

End UsagePersistenceManager.

(** ** CostTrackingManager: status message and per-request flow *)

Module CostTrackingManager.
Import PyStr Dec ModelCostManager CostCalculationManager.
Import Datetime UsagePersistenceManager.
Local Open Scope string_scope.

(** The rouble sign U+20BD, in UTF-8. *)
Definition rouble_sign : string :=
  String (ascii_of_nat 226) (String (ascii_of_nat 130)
    (String (ascii_of_nat 189) EmptyString)).

(** [str(n)] for an [int]. *)
Definition str_of_int (n : Z) : string :=
  (if (n <? 0)%Z then "-" else "") ++ digits (Z.abs n).

(** The event handed to [__event_emitter__]. *)
Record StatusEvent : Type := mkStatusEvent {
  event_type : string;
  description : string;
  done : bool
}.

Section StatusMessage.

(** The clock: the floats of [time.time()], when one is falsy, and the text
    [f"{current_time - start_time:.2f}"]. *)
Variable Time : Type.
Variable time_truthy : Time -> bool.
Variable format_elapsed : Time -> Time -> string.

Definition cost_str (current_cost : option Decimal)
    (cost_currency : option string) : string :=
  match current_cost, cost_currency with
  | Some cost, Some currency =>
      if String.eqb currency "RUB"
      then format_2f cost ++ rouble_sign
      else "$" ++ format_2f cost
  | _, _ => ""
  end.

Definition status_parts (current_time : Time)
    (input_tokens generated_tokens reasoning_tokens : option Z)
    (start_time : Time) (current_cost : option Decimal)
    (cost_currency : option string) (status : string) : list string :=
  let cost_str := cost_str current_cost cost_currency in
  [ if time_truthy start_time
    then format_elapsed current_time start_time ++ "s" else "";
    match input_tokens with
    | Some n => str_of_int n ++ " Input Tokens"
    | None => ""
    end;
    match generated_tokens with
    | Some n => str_of_int n ++ " Generated Tokens"
    | None => ""
    end;
    match reasoning_tokens with
    | Some n =>
        if (n =? 0)%Z then ""
        else "including " ++ str_of_int n ++ " Reasoning Tokens"
    | None => ""
    end;
    if truthy cost_str && negb (contains "Requested" status)
    then "Cost " ++ cost_str else "";
    if truthy status then status else "" ].

(** The event [update_status_message] emits; [None] when there is no
    emitter. *)
Definition update_status_message (current_time : Time)
    (input_tokens generated_tokens reasoning_tokens : option Z)
    (start_time : Time) (has_event_emitter : bool)
    (current_cost : option Decimal) (cost_currency : option string)
    (status : string) : option StatusEvent :=
  if negb has_event_emitter then None
  else
    let status_message :=
      join " | "
        (filter truthy
           (status_parts current_time input_tokens generated_tokens
              reasoning_tokens start_time current_cost cost_currency status)) in
    Some (mkStatusEvent "status" status_message
            (if existsb (String.eqb status) ["Completed"; "Stopped"; ""]
             then true else false)).

(** The attributes of a [CostTrackingManager]; [user] is
    [__user__["email"]]. *)
Record CostTrackingManager : Type := mkTracking {
  tracked_model : string;
  user : string;
  tracked_task : string;
  cost_calculation_manager : CostCalculationManager.CostCalculationManager
}.

(** A coroutine handed to [asyncio.create_task], by its arguments: a call
    of [update_status_message] or of [log_usage_fact].  The event loop runs
    it after the caller has returned. *)
Inductive ScheduledTask : Type :=
| UpdateStatusMessageTask
    (input_tokens generated_tokens : Z) (reasoning_tokens : option Z)
    (start_time : Time) (has_event_emitter : bool)
    (current_cost : Decimal) (cost_currency : string) (status : string)
| LogUsageFactTask
    (user_email model task : string) (input_tokens output_tokens : Z)
    (total_cost : Decimal) (cost_currency : string)
    (model_used_by_cost_calculation : string).

(** What a scheduled status update emits when it runs at [current_time]. *)
Definition run_status_update (current_time : Time) (t : ScheduledTask)
  : option StatusEvent :=
  match t with
  | UpdateStatusMessageTask input_tokens generated_tokens reasoning_tokens
      start_time has_event_emitter current_cost cost_currency status =>
      update_status_message current_time (Some input_tokens)
        (Some generated_tokens) reasoning_tokens start_time has_event_emitter
        (Some current_cost) (Some cost_currency) status
  | LogUsageFactTask _ _ _ _ _ _ _ _ => None
  end.

(** [calculate_costs_update_status_and_persist]: the cost is computed at
    once; the status update and, with [persist_usage], the insert are only
    scheduled, in this order, and the call returns. *)
Definition calculate_costs_update_status_and_persist
    (self : CostTrackingManager)
    (input_tokens generated_tokens : Z) (reasoning_tokens : option Z)
    (start_time : Time) (has_event_emitter : bool) (status : string)
    (persist_usage : bool)
  : result DecimalException (list ScheduledTask) :=
  costs <- calculate_costs (cost_calculation_manager self)
             input_tokens generated_tokens ;;
  let '(total_cost, cost_currency, used) := costs in
  Ok (UpdateStatusMessageTask input_tokens generated_tokens reasoning_tokens
        start_time has_event_emitter total_cost cost_currency status
      :: if persist_usage
         then [LogUsageFactTask (user self) (tracked_model self)
                 (tracked_task self) input_tokens generated_tokens total_cost
                 cost_currency used]
         else []).

End StatusMessage.

Arguments status_parts {Time}.
Arguments update_status_message {Time}.
Arguments UpdateStatusMessageTask {Time}.
Arguments LogUsageFactTask {Time}.
Arguments run_status_update {Time}.
Arguments calculate_costs_update_status_and_persist {Time}.

End CostTrackingManager.

(** * Vocabulary of the statements *)

Module ResolverSpec.
Import PyStr ModelCostManager.

(** [key] competes for [query]: its normalized form is a prefix of the
    normalized query. *)
Definition candidate {str : StrMethods} (strip_prefix : bool)
    (query key : string) : Prop :=
  startswith (_normalize_model_name query strip_prefix)
             (_normalize_model_name key strip_prefix) = true.

(** The length the search compares: that of the normalized key. *)
Definition key_length {str : StrMethods} (strip_prefix : bool) (key : string)
  : nat :=
  String.length (_normalize_model_name key strip_prefix).

End ResolverSpec.

Module CostSpec.
Import Dec ModelCostManager CostCalculationManager.
Local Open Scope Z_scope.

(** [tokens * price], summed over input and output, as a rational. *)
Definition exact_total (r : PricingRecord) (input_tokens output_tokens : Z) : Q :=
  (inject_Z input_tokens * to_Q (input_cost_per_token r)
   + inject_Z output_tokens * to_Q (output_cost_per_token r))%Q.

(** Rounding half up of [x >= 0] to [places] fractional digits. *)
Definition round_half_up (x : Q) (places : Z) : Decimal :=
  mkDecimal false (Qfloor (x * inject_Z (10 ^ places) + (1 # 2))%Q) (- places).

(** A price as [Decimal(str(x))] gives it for a float [0 <= x < 1e16]:
    non-negative, with fractional digits only. *)
Definition plain_price (d : Decimal) : Prop :=
  sign d = false /\ 0 <= coefficient d /\ Etiny <= exponent d <= 0.

(** The number of fractional digits of the finer of the two prices. *)
Definition finest_scale (r : PricingRecord) : Z :=
  - Z.min (exponent (input_cost_per_token r)) (exponent (output_cost_per_token r)).

End CostSpec.


Module SummarySpec.
Import Datetime UsagePersistenceManager.
Local Open Scope Z_scope.

(** [a] sorts strictly before [b] in the collation of the database. *)
Definition text_lt {db : Database} (a b : string) : Prop := text_compare a b = Lt.

(** [a] sorts strictly before [b] bytewise. *)
Definition str_lt (a b : string) : Prop := String.compare a b = Lt.

(** The strict lexicographic order of keys. *)
Definition key_lt {db : Database} (a b : list string) : Prop := key_leb b a = false.

(** The strict order of summary rows by their ORDER BY key. *)
Definition summary_lt {db : Database} (a b : SummaryRow) : Prop :=
  summary_leb b a = false.

(** [a] comes before [b] in the order "user email, then date, then model,
    then currency". *)
Definition summary_before {db : Database} (a b : SummaryRow) : Prop :=
  text_lt (summary_user_email a) (summary_user_email b) \/
  (summary_user_email a = summary_user_email b /\
   (text_lt (summary_date a) (summary_date b) \/
    (summary_date a = summary_date b /\
     (text_lt (summary_model a) (summary_model b) \/
      (summary_model a = summary_model b /\
       text_lt (summary_currency a) (summary_currency b)))))).

(** The calendar date of [a] is before that of [b]. *)
Definition date_before (a b : datetime) : Prop :=
  year a < year b \/
  (year a = year b /\
   (month a < month b \/ (month a = month b /\ day a < day b))).

(** The columns a summary row is grouped and ordered by, read from a stored
    row: user email, date, model, currency. *)
Definition fact_key (row : UsageFact) : list string :=
  [user_email row; format_date (timestamp row); model row; cost_currency row].

End SummarySpec.

(** * Sample data for the examples *)

Module Samples.
Import PyStr CostCalculationManager Datetime UsagePersistenceManager.
Local Open Scope string_scope.

(** *** [str.lower] and [str.strip] on ASCII text

    On a text of ASCII characters [lower] changes the letters [A]-[Z] and
    [strip] removes TAB, LF, VT, FF, CR, FS, GS, RS, US and the space; the
    names of the examples are such texts. *)

Definition is_upper (c : ascii) : bool :=
  let n := nat_of_ascii c in (65 <=? n)%nat && (n <=? 90)%nat.

Definition lower_char (c : ascii) : ascii :=
  if is_upper c then ascii_of_nat (nat_of_ascii c + 32) else c.

Fixpoint ascii_lower (s : string) : string :=
  match s with
  | EmptyString => EmptyString
  | String c r => String (lower_char c) (ascii_lower r)
  end.

Definition is_space (c : ascii) : bool :=
  let n := nat_of_ascii c in
  ((9 <=? n)%nat && (n <=? 13)%nat) || ((28 <=? n)%nat && (n <=? 32)%nat).

Fixpoint lstrip (s : string) : string :=
  match s with
  | EmptyString => EmptyString
  | String c r => if is_space c then lstrip r else s
  end.

Fixpoint rstrip (s : string) : string :=
  match s with
  | EmptyString => EmptyString
  | String c r =>
      match rstrip r with
      | EmptyString => if is_space c then EmptyString else String c EmptyString
      | r' => String c r'
      end
  end.

Definition ascii_strip (s : string) : string := rstrip (lstrip s).

#[export] Instance ascii_text : StrMethods :=
  {| lower := ascii_lower; strip := ascii_strip |}.

(** *** A small tiktoken *)

(** A registry of two models. *)
Definition sample_encoding_for_model (name : string) : result TiktokenError string :=
  if String.eqb name "gpt-4" then Ok "cl100k_base"
  else if String.eqb name "gpt-4o" then Ok "o200k_base"
  else Raise KeyError.

Definition sample_get_encoding (name : string) : result TiktokenError string :=
  if String.eqb name "cl100k_base" || String.eqb name "o200k_base"
  then Ok name else Raise (OtherError "ValueError").

(** Loading an encoding where its file is neither cached nor reachable. *)
Definition offline_get_encoding (name : string) : result TiktokenError string :=
  Raise (OtherError "ConnectionError").

(** *** A database *)

Definition sumZ (l : list Z) : Z := fold_right Z.add 0%Z l.

(** A decimal of at most eight fractional digits as a count of 1e-8. *)
Definition cost_units (d : Dec.Decimal) : Z :=
  let r := Dec._rescale d (-8) Dec.ROUND_HALF_UP in
  Dec.signed (Dec.sign r) (Dec.coefficient r).

(** A database that adds exactly and never fails, a total cost being held
    as its count of 1e-8; texts are ordered by their bytes, as under the
    BINARY collation of SQLite. *)
#[export] Instance exact_database : Database.
Proof.
  refine {| PyFloat := Z;
            sum_total_cost := fun costs => Some (sumZ (map cost_units costs));
            sum_integer := fun numbers => Some (sumZ numbers);
            text_compare := String.compare;
            text_compare_eq := _;
            text_compare_antisym := fun a b => String.compare_antisym b a;
            text_compare_trans := _;
            text_compare_dates := fun _ _ => eq_refl |}.
  - intros a b. split; [apply String.compare_eq_iff|intros <-].
    pose proof (String.compare_antisym a a) as H.
    destruct (String.compare a a); simpl in H; congruence.
  - assert (E : forall x y, String_as_OT.compare x y = String.compare x y).
    { induction x as [|c x IH]; destruct y as [|c' y]; reflexivity. }
    intros a b c. rewrite <- !E.
    apply (@StrictOrder_Transitive _ _ String_as_OT.lt_strorder).
Defined.

(** A stored usage fact. *)
Definition sample_fact (user : string) (t : datetime) (cost : Z) : UsageFact :=
  mkUsageFact user "openai.gpt-4o" "chat" t 1000 500
    (Dec.mkDecimal false cost (-8)) "USD" "openai.gpt-4o".

End Samples.

(** * Vocabulary of the further properties *)

Module MoreSpec.
Import PyStr Datetime UsagePersistenceManager.
Local Open Scope Z_scope.

(** No ['.'] in the text. *)
Fixpoint dotless (s : string) : bool :=
  match s with
  | EmptyString => true
  | String c r => negb (Ascii.eqb c ".") && dotless r
  end.

(** The parameter a condition of the WHERE clause refers to is bound. *)
Definition param_bound (p : Params) (c : Condition) : bool :=
  match c with
  | UserEmailEq => match param_user_email p with Some _ => true | None => false end
  | TimestampGe => match param_start_date p with Some _ => true | None => false end
  | TimestampLt => match param_end_date p with Some _ => true | None => false end
  end.

(** The first instant of a calendar day. *)
Definition midnight (d : datetime) : Prop :=
  hour d = 0 /\ minute d = 0 /\ second d = 0 /\ microsecond d = 0.

(** The same calendar day. *)
Definition same_date (a b : datetime) : Prop :=
  year a = year b /\ month a = month b /\ day a = day b.

(** The exact total for the record a model name resolves to; zero when it
    resolves to no record. *)
Definition resolved_total {str : StrMethods}
    (table : ModelCostManager.PricingTable) (model : string)
    (input_tokens output_tokens : Z) : Q :=
  match snd (ModelCostManager.get_model_data table model) with
  | Some r => CostSpec.exact_total r input_tokens output_tokens
  | None => 0%Q
  end.

(** A plain price with at most eight fractional digits. *)
Definition price_of_eight_digits (d : Dec.Decimal) : Prop :=
  CostSpec.plain_price d /\ -8 <= Dec.exponent d.

End MoreSpec.

(** * Properties of the pricing resolver *)

Module ResolverFacts.
Import PyStr ModelCostManager ResolverSpec Samples.
Local Open Scope string_scope.
Local Open Scope list_scope.

Section Table.

Variable table : PricingTable.

Lemma get_some_in (key : string) (record : PricingRecord) :
  get table key = Some record -> In (key, record) table.
Proof.
  unfold get. destruct (find _ table) as [[k r]|] eqn:F; simpl; [|discriminate].
  intros [= <-]. apply find_some in F. destruct F as [Hin Heq].
  simpl in Heq. apply String.eqb_eq in Heq. now subst.
Qed.

Lemma get_none_iff (key : string) :
  get table key = None <-> ~ In key (keys table).
Proof.
  unfold get, keys. split.
  - destruct (find _ table) eqn:F; simpl; [discriminate|]. intros _ Hin.
    apply in_map_iff in Hin. destruct Hin as [[k r] [Hk Hin]]. simpl in Hk. subst k.
    apply (find_none _ _ F) in Hin. simpl in Hin.
    rewrite String.eqb_refl in Hin. discriminate.
  - intros Hn. destruct (find _ table) as [[k r]|] eqn:F; simpl; [|reflexivity].
    exfalso. apply Hn. apply find_some in F. destruct F as [Hin Heq].
    simpl in Heq. apply String.eqb_eq in Heq. subst k.
    apply in_map_iff. now exists (key, r).
Qed.

Lemma get_in_keys (key : string) :
  In key (keys table) -> exists record, get table key = Some record.
Proof.
  intros Hin. destruct (get table key) eqn:G; [eauto|].
  apply get_none_iff in G. contradiction.
Qed.

End Table.

(** The loop of [_find_best_match], from any state. *)
Lemma best_match_loop {str : StrMethods} (strip_prefix : bool) (query : string)
    (ks : list string) (best : option string) (longest : nat) :
  (fold_left (best_match_step (_normalize_model_name query strip_prefix) strip_prefix)
     ks (best, longest) = (best, longest) /\
   forall k, In k ks -> candidate strip_prefix query k ->
             (key_length strip_prefix k <= longest)%nat)
  \/
  (exists l1 k l2,
      ks = l1 ++ k :: l2 /\
      fold_left (best_match_step (_normalize_model_name query strip_prefix) strip_prefix)
        ks (best, longest) = (Some k, key_length strip_prefix k) /\
      candidate strip_prefix query k /\
      (longest < key_length strip_prefix k)%nat /\
      (forall k', In k' l1 -> candidate strip_prefix query k' ->
                  (key_length strip_prefix k' < key_length strip_prefix k)%nat) /\
      (forall k', In k' l2 -> candidate strip_prefix query k' ->
                  (key_length strip_prefix k' <= key_length strip_prefix k)%nat)).
Proof.
  revert best longest. induction ks as [|k ks IH]; intros best longest; simpl.
  - left. split; [reflexivity|]. intros k [].
  - unfold best_match_step at 2 4. simpl.
    destruct (startswith _ (_normalize_model_name k strip_prefix)) eqn:Hsw.
    + destruct (Nat.ltb_spec longest (String.length (_normalize_model_name k strip_prefix)))
        as [Hlt|Hge].
      * destruct (IH (Some k) (String.length (_normalize_model_name k strip_prefix)))
          as [[Hfin Hall]|(l1 & k1 & l2 & Hks & Hfin & Hc & Hl & H1 & H2)].
        -- right. exists [], k, ks. repeat split; auto.
           intros k' [].
        -- right. exists (k :: l1), k1, l2. subst ks. repeat split; auto.
           ++ unfold key_length in *. lia.
           ++ intros k' [<-|Hin] Hc'; [exact Hl|]. now apply H1.
      * destruct (IH best longest)
          as [[Hfin Hall]|(l1 & k1 & l2 & Hks & Hfin & Hc & Hl & H1 & H2)].
        -- left. split; [exact Hfin|]. intros k' [<-|Hin] Hc'; [exact Hge|]. now apply Hall.
        -- right. exists (k :: l1), k1, l2. subst ks. repeat split; auto.
           intros k' [<-|Hin] Hc'; [|now apply H1].
           unfold key_length in *. lia.
    + destruct (IH best longest)
        as [[Hfin Hall]|(l1 & k1 & l2 & Hks & Hfin & Hc & Hl & H1 & H2)].
      * left. split; [exact Hfin|]. intros k' [<-|Hin] Hc'; [|now apply Hall].
        unfold candidate in Hc'. congruence.
      * right. exists (k :: l1), k1, l2. subst ks. repeat split; auto.
        intros k' [<-|Hin] Hc'; [|now apply H1].
        unfold candidate in Hc'. congruence.
Qed.

(** [_find_best_match] returns nothing exactly when every competing key
    has an empty normalized form. *)
Lemma find_best_match_none {str : StrMethods} (table : PricingTable) (strip_prefix : bool) (query : string) :
  (forall k, In k (keys table) -> candidate strip_prefix query k ->
             key_length strip_prefix k = O) ->
  _find_best_match table query strip_prefix = None.
Proof.
  intros Hno. unfold _find_best_match.
  destruct (best_match_loop strip_prefix query (keys table) None O)
    as [[Hfin _]|(l1 & k & l2 & Hks & _ & Hc & Hl & _)].
  - now rewrite Hfin.
  - exfalso. assert (Hin : In k (keys table)) by (rewrite Hks; apply in_elt).
    specialize (Hno k Hin Hc). lia.
Qed.

(** When some competing key has a non-empty normalized form,
    [_find_best_match] returns the first of the longest competing keys. *)
Lemma find_best_match_some {str : StrMethods} (table : PricingTable) (strip_prefix : bool)
    (query k : string) :
  In k (keys table) -> candidate strip_prefix query k ->
  (0 < key_length strip_prefix k)%nat ->
  exists l1 best l2,
    _find_best_match table query strip_prefix = Some best /\
    keys table = l1 ++ best :: l2 /\
    candidate strip_prefix query best /\
    (forall k', In k' l1 -> candidate strip_prefix query k' ->
                (key_length strip_prefix k' < key_length strip_prefix best)%nat) /\
    (forall k', In k' l2 -> candidate strip_prefix query k' ->
                (key_length strip_prefix k' <= key_length strip_prefix best)%nat).
Proof.
  intros Hin Hc Hpos. unfold _find_best_match.
  destruct (best_match_loop strip_prefix query (keys table) None O)
    as [[_ Hall]|(l1 & best & l2 & Hks & Hfin & Hcb & _ & H1 & H2)].
  - specialize (Hall k Hin Hc). lia.
  - exists l1, best, l2. rewrite Hfin. auto.
Qed.


Lemma not_in_by_eqb (x : string) (l : list string) :
  forallb (fun k => negb (String.eqb k x)) l = true -> ~ In x l.
Proof.
  intros H Hin. rewrite forallb_forall in H. specialize (H x Hin).
  rewrite String.eqb_refl in H. discriminate.
Qed.

Lemma no_candidate_by_startswith {str : StrMethods} (strip_prefix : bool) (query : string) (l : list string) :
  forallb (fun k => negb (startswith (_normalize_model_name query strip_prefix)
                            (_normalize_model_name k strip_prefix))) l = true ->
  forall k, In k l -> ~ candidate strip_prefix query k.
Proof.
  intros H k Hin Hc. rewrite forallb_forall in H. specialize (H k Hin).
  unfold candidate in Hc. rewrite Hc in H. discriminate.
Qed.

(** Every key of the program's table, which is ASCII text, has a non-empty
    normalized form, with or without its provider prefix. *)
Lemma pricing_data_keys_nonempty (strip_prefix : bool) (k : string) :
  In k (keys pricing_data) -> (0 < key_length strip_prefix k)%nat.
Proof.
  intros Hin.
  assert (H : forallb (fun key => (0 <? key_length strip_prefix key)%nat)
                (keys pricing_data) = true)
    by (destruct strip_prefix; vm_compute; reflexivity).
  rewrite forallb_forall in H. apply Nat.ltb_lt. now apply H.
Qed.

Lemma prefix_refl (s : string) : String.prefix s s = true.
Proof.
  induction s as [|c s IH]; simpl; [reflexivity|].
  destruct (ascii_dec c c); [exact IH|contradiction].
Qed.

(** A key of the table competes for itself in the full-name search. *)
Lemma no_candidate_not_key {str : StrMethods} (table : PricingTable) (query : string) :
  (forall k, In k (keys table) -> ~ candidate false query k) ->
  ~ In query (keys table).
Proof.
  intros Hno Hin. apply (Hno query Hin). unfold candidate, startswith.
  apply prefix_refl.
Qed.

(** The three paths of [get_model_data], by what the two searches return. *)
Lemma get_model_data_log_search {str : StrMethods} (table : PricingTable) (model : string) :
  get table (strip (lower model)) = None ->
  get_model_data_log table model =
  match _find_best_match table (strip (lower model)) false with
  | Some key =>
      ((key, get table key),
       [SearchingBestMatch (strip (lower model)); UsingBestMatch key])
  | None =>
      match _find_best_match table (strip (lower model)) true with
      | Some key =>
          ((key, get table key),
           [SearchingBestMatch (strip (lower model));
            TryingWithoutPrefix (_normalize_model_name (strip (lower model)) true);
            UsingBestMatch key])
      | None =>
          (("unknown", None),
           [SearchingBestMatch (strip (lower model));
            TryingWithoutPrefix (_normalize_model_name (strip (lower model)) true);
            NotFound (strip (lower model))])
      end
  end.
Proof.
  intros G. unfold get_model_data_log. rewrite G.
  destruct (_find_best_match table (strip (lower model)) false); [reflexivity|].
  destruct (_find_best_match table (strip (lower model)) true); reflexivity.
Qed.

Lemma find_best_match_in_keys {str : StrMethods} (table : PricingTable) (strip_prefix : bool)
    (query best : string) :
  _find_best_match table query strip_prefix = Some best -> In best (keys table).
Proof.
  unfold _find_best_match. intros H.
  destruct (best_match_loop strip_prefix query (keys table) None O)
    as [[Hfin _]|(l1 & k & l2 & Hks & Hfin & _)]; rewrite Hfin in H; simpl in H.
  - discriminate.
  - injection H as <-. rewrite Hks. apply in_elt.
Qed.

End ResolverFacts.

Module ResolverClaims.
Import PyStr ModelCostManager ResolverSpec Samples ResolverFacts.
Local Open Scope string_scope.
Local Open Scope list_scope.

(** C1. A model name that is not an exact key of the table resolves by
    longest-prefix matching: when some key's normalized form is a prefix of
    the normalized query, the returned key is such a key of greatest
    length, together with its record, and among keys of that length it is
    the first in the table's iteration order (every competing key before it
    is strictly shorter).  Competing keys are non-empty, as all keys of the
    program's table are. *)
Theorem longest_prefix_resolution {str : StrMethods} (table : PricingTable) (model k : string) :
  ~ In (strip (lower model)) (keys table) ->
  In k (keys table) ->
  candidate false (strip (lower model)) k ->
  (0 < key_length false k)%nat ->
  exists l1 best l2 record,
    get_model_data table model = (best, Some record) /\
    In (best, record) table /\
    keys table = l1 ++ best :: l2 /\
    candidate false (strip (lower model)) best /\
    (forall k', In k' (keys table) -> candidate false (strip (lower model)) k' ->
                (key_length false k' <= key_length false best)%nat) /\
    (forall k', In k' l1 -> candidate false (strip (lower model)) k' ->
                (key_length false k' < key_length false best)%nat).
Proof.
  intros Hnk Hin Hc Hpos.
  destruct (find_best_match_some table false (strip (lower model)) k Hin Hc Hpos)
    as (l1 & best & l2 & Hf & Hks & Hcb & H1 & H2).
  assert (Hbin : In best (keys table)) by (rewrite Hks; apply in_elt).
  destruct (get_in_keys table best Hbin) as [record Hg].
  exists l1, best, l2, record. repeat split; auto.
  - unfold get_model_data. rewrite get_model_data_log_search.
    + rewrite Hf. simpl. now rewrite Hg.
    + now apply get_none_iff.
  - now apply get_some_in.
  - intros k' Hk' Hc'. rewrite Hks in Hk'. apply in_app_or in Hk'.
    destruct Hk' as [Hk'|[<-|Hk']].
    + specialize (H1 k' Hk' Hc'). lia.
    + lia.
    + now apply H2.
Qed.

Lemma longest_prefix_resolution_witness :
  ~ In (strip (lower "openai.gpt-4o-2024-05-13-extra")) (keys pricing_data) /\
  In "openai.gpt-4o" (keys pricing_data) /\
  candidate false (strip (lower "openai.gpt-4o-2024-05-13-extra")) "openai.gpt-4o" /\
  (0 < key_length false "openai.gpt-4o")%nat /\
  exists l1 best l2 record,
    get_model_data pricing_data "openai.gpt-4o-2024-05-13-extra" = (best, Some record) /\
    In (best, record) pricing_data /\
    keys pricing_data = l1 ++ best :: l2 /\
    candidate false (strip (lower "openai.gpt-4o-2024-05-13-extra")) best /\
    (forall k', In k' (keys pricing_data) ->
                candidate false (strip (lower "openai.gpt-4o-2024-05-13-extra")) k' ->
                (key_length false k' <= key_length false best)%nat) /\
    (forall k', In k' l1 ->
                candidate false (strip (lower "openai.gpt-4o-2024-05-13-extra")) k' ->
                (key_length false k' < key_length false best)%nat).
Proof.
  assert (H1 : ~ In (strip (lower "openai.gpt-4o-2024-05-13-extra")) (keys pricing_data))
    by (apply not_in_by_eqb; vm_compute; reflexivity).
  assert (H2 : In "openai.gpt-4o" (keys pricing_data))
    by (vm_compute; tauto).
  assert (H3 : candidate false (strip (lower "openai.gpt-4o-2024-05-13-extra")) "openai.gpt-4o")
    by (vm_compute; reflexivity).
  assert (H4 : (0 < key_length false "openai.gpt-4o")%nat)
    by (vm_compute; lia).
  split; [exact H1|]. split; [exact H2|]. split; [exact H3|]. split; [exact H4|].
  exact (longest_prefix_resolution pricing_data "openai.gpt-4o-2024-05-13-extra"
           "openai.gpt-4o" H1 H2 H3 H4).
Defined.

(** The example of C1: the dated key wins over the shorter ["openai.gpt-4o"]. *)
Example resolve_dated_gpt4o :
  fst (get_model_data pricing_data "openai.gpt-4o-2024-05-13-extra")
  = "openai.gpt-4o-2024-05-13".
Proof. vm_compute. reflexivity. Qed.

(** Equal lengths: the key met first wins. *)
Example resolve_tie_first_wins :
  let record := mkPricing (price 1 0) (price 1 0) "USD" in
  fst (get_model_data [("GPT", record); ("gpt", record)] "gpt-4") = "GPT".
Proof. vm_compute. reflexivity. Qed.


(** C5. A model name that, lowercased and trimmed, is a key of the table
    resolves to that key and the record the table holds for it; the only
    line printed is the exact-match line, so no best-match search is run. *)
Theorem exact_match_resolution {str : StrMethods} (table : PricingTable) (model : string) :
  In (strip (lower model)) (keys table) ->
  exists record,
    get table (strip (lower model)) = Some record /\
    In (strip (lower model), record) table /\
    get_model_data_log table model =
      ((strip (lower model), Some record), [UsingExactMatch (strip (lower model))]) /\
    get_model_data table model = (strip (lower model), Some record).
Proof.
  intros Hin. destruct (get_in_keys table _ Hin) as [record Hg].
  exists record. split; [exact Hg|]. split; [now apply get_some_in|].
  unfold get_model_data, get_model_data_log. rewrite Hg. split; reflexivity.
Qed.

Lemma exact_match_resolution_witness :
  In (strip (lower "  OpenAI.GPT-4 ")) (keys pricing_data) /\
  exists record,
    get pricing_data (strip (lower "  OpenAI.GPT-4 ")) = Some record /\
    In (strip (lower "  OpenAI.GPT-4 "), record) pricing_data /\
    get_model_data_log pricing_data "  OpenAI.GPT-4 " =
      ((strip (lower "  OpenAI.GPT-4 "), Some record),
       [UsingExactMatch (strip (lower "  OpenAI.GPT-4 "))]) /\
    get_model_data pricing_data "  OpenAI.GPT-4 "
    = (strip (lower "  OpenAI.GPT-4 "), Some record).
Proof.
  assert (H : In (strip (lower "  OpenAI.GPT-4 ")) (keys pricing_data))
    by (vm_compute; tauto).
  split; [exact H|].
  exact (exact_match_resolution pricing_data "  OpenAI.GPT-4 " H).
Defined.

(** The example of C5. *)
Example resolve_gpt4_exact :
  get_model_data pricing_data "openai.gpt-4"
  = ("openai.gpt-4", Some (mkPricing (price 3 (-2)) (price 6 (-2)) "USD")).
Proof. vm_compute. reflexivity. Qed.

(** The exact match is taken even where the best-match search would return
    another key. *)
Example exact_match_skips_search :
  let record := mkPricing (price 1 0) (price 1 0) "USD" in
  let table := [("GPT", record); ("gpt", record)] in
  _find_best_match table "gpt" false = Some "GPT" /\
  fst (get_model_data table "gpt") = "gpt".
Proof. vm_compute. split; reflexivity. Qed.

(** C3. When no key's normalized form is a prefix of the normalized query
    (so the name is not a key either), the search is run again with the text
    up to the first ['.'] removed from the query and from every key: if
    some key's stripped form is a non-empty prefix of the stripped query,
    the result is the first of the longest such keys, with its record. *)
Theorem prefix_stripped_fallback {str : StrMethods} (table : PricingTable) (model k : string) :
  (forall k', In k' (keys table) -> ~ candidate false (strip (lower model)) k') ->
  In k (keys table) ->
  candidate true (strip (lower model)) k ->
  (0 < key_length true k)%nat ->
  exists l1 best l2 record,
    get_model_data_log table model =
      ((best, Some record),
       [SearchingBestMatch (strip (lower model));
        TryingWithoutPrefix (_normalize_model_name (strip (lower model)) true);
        UsingBestMatch best]) /\
    In (best, record) table /\
    keys table = l1 ++ best :: l2 /\
    candidate true (strip (lower model)) best /\
    (forall k', In k' (keys table) -> candidate true (strip (lower model)) k' ->
                (key_length true k' <= key_length true best)%nat) /\
    (forall k', In k' l1 -> candidate true (strip (lower model)) k' ->
                (key_length true k' < key_length true best)%nat).
Proof.
  intros Hnc Hin Hc Hpos.
  pose proof (no_candidate_not_key table _ Hnc) as Hnk.
  destruct (find_best_match_some table true (strip (lower model)) k Hin Hc Hpos)
    as (l1 & best & l2 & Hf & Hks & Hcb & H1 & H2).
  assert (Hbin : In best (keys table)) by (rewrite Hks; apply in_elt).
  destruct (get_in_keys table best Hbin) as [record Hg].
  exists l1, best, l2, record. repeat split; auto.
  - rewrite get_model_data_log_search by now apply get_none_iff.
    rewrite find_best_match_none.
    + rewrite Hf, Hg. reflexivity.
    + intros k' Hk' Hc'. exfalso. exact (Hnc k' Hk' Hc').
  - now apply get_some_in.
  - intros k' Hk' Hc'. rewrite Hks in Hk'. apply in_app_or in Hk'.
    destruct Hk' as [Hk'|[<-|Hk']].
    + specialize (H1 k' Hk' Hc'). lia.
    + lia.
    + now apply H2.
Qed.

Lemma prefix_stripped_fallback_witness :
  (forall k', In k' (keys pricing_data) ->
              ~ candidate false (strip (lower "customprovider.claude-3-opus")) k') /\
  In "anthropic.claude-3-opus" (keys pricing_data) /\
  candidate true (strip (lower "customprovider.claude-3-opus")) "anthropic.claude-3-opus" /\
  (0 < key_length true "anthropic.claude-3-opus")%nat /\
  exists l1 best l2 record,
    get_model_data_log pricing_data "customprovider.claude-3-opus" =
      ((best, Some record),
       [SearchingBestMatch (strip (lower "customprovider.claude-3-opus"));
        TryingWithoutPrefix
          (_normalize_model_name (strip (lower "customprovider.claude-3-opus")) true);
        UsingBestMatch best]) /\
    In (best, record) pricing_data /\
    keys pricing_data = l1 ++ best :: l2 /\
    candidate true (strip (lower "customprovider.claude-3-opus")) best /\
    (forall k', In k' (keys pricing_data) ->
                candidate true (strip (lower "customprovider.claude-3-opus")) k' ->
                (key_length true k' <= key_length true best)%nat) /\
    (forall k', In k' l1 ->
                candidate true (strip (lower "customprovider.claude-3-opus")) k' ->
                (key_length true k' < key_length true best)%nat).
Proof.
  assert (H2 : forall k', In k' (keys pricing_data) ->
                 ~ candidate false (strip (lower "customprovider.claude-3-opus")) k')
    by (apply no_candidate_by_startswith; vm_compute; reflexivity).
  assert (H3 : In "anthropic.claude-3-opus" (keys pricing_data))
    by (vm_compute; tauto).
  assert (H4 : candidate true (strip (lower "customprovider.claude-3-opus"))
                 "anthropic.claude-3-opus")
    by (vm_compute; reflexivity).
  assert (H5 : (0 < key_length true "anthropic.claude-3-opus")%nat)
    by (vm_compute; lia).
  split; [exact H2|]. split; [exact H3|]. split; [exact H4|]. split; [exact H5|].
  exact (prefix_stripped_fallback pricing_data "customprovider.claude-3-opus"
           "anthropic.claude-3-opus" H2 H3 H4 H5).
Defined.

(** The example of C3. *)
Example resolve_custom_provider_claude :
  get_model_data pricing_data "customprovider.claude-3-opus"
  = ("anthropic.claude-3-opus",
     Some (mkPricing (price 15 (-3)) (price 75 (-3)) "USD")).
Proof. vm_compute. reflexivity. Qed.

End ResolverClaims.

Module UnknownModelClaims.
Import PyStr Dec ModelCostManager CostCalculationManager ResolverSpec Samples.
Import ResolverFacts.
Local Open Scope string_scope.
Local Open Scope list_scope.

(** Without a pricing record every cost is a zero with eight fractional
    digits, whatever the token counts. *)
Lemma calculate_costs_no_record (model used : string) (input_tokens output_tokens : Z) :
  exists zero,
    calculate_costs (mkManager model used None) input_tokens output_tokens
    = Ok (zero, EmptyString, used) /\
    coefficient zero = 0%Z /\ exponent zero = (-8)%Z /\
    ((0 <= input_tokens)%Z -> (0 <= output_tokens)%Z ->
     zero = mkDecimal false 0 (-8)).
Proof.
  unfold calculate_costs, decimal_mul, Dec.mul, of_int. simpl.
  destruct (Z.eqb_spec input_tokens 0) as [->|Hi];
    destruct (Z.eqb_spec output_tokens 0) as [->|Ho]; simpl.
  - eexists. split; [reflexivity|]. simpl. auto.
  - destruct (Z.ltb_spec output_tokens 0); simpl;
      (eexists; split; [reflexivity|]); simpl; repeat split; auto; lia.
  - destruct (Z.ltb_spec input_tokens 0); simpl;
      (eexists; split; [reflexivity|]); simpl; repeat split; auto; lia.
  - destruct (Z.ltb_spec input_tokens 0); destruct (Z.ltb_spec output_tokens 0); simpl;
      (eexists; split; [reflexivity|]); simpl; repeat split; auto; lia.
Qed.

Lemma get_model_data_key_or_unknown {str : StrMethods} (table : PricingTable) (model : string) :
  In (fst (get_model_data table model)) (keys table) \/
  fst (get_model_data table model) = "unknown".
Proof.
  unfold get_model_data.
  destruct (get table (strip (lower model))) eqn:G.
  - left. unfold get_model_data_log. rewrite G. simpl.
    apply get_some_in in G. unfold keys. apply in_map_iff.
    now exists (strip (lower model), p).
  - rewrite get_model_data_log_search by exact G.
    destruct (_find_best_match table (strip (lower model)) false) eqn:F1.
    + left. simpl. eapply find_best_match_in_keys; eauto.
    + destruct (_find_best_match table (strip (lower model)) true) eqn:F2.
      * left. simpl. eapply find_best_match_in_keys; eauto.
      * right. reflexivity.
Qed.

(** C4. A model name that is not a key, and for which neither the
    full-name search nor the prefix-stripped search has a competing key,
    resolves to ["unknown"] with the empty record; the cost computed for it
    is a zero with eight fractional digits and the empty currency, for any
    token counts.  For every model name the key handed on as
    [model_used_by_cost_calculation] is a key of the table or ["unknown"]. *)
Theorem unknown_model_fallback {str : StrMethods} (table : PricingTable) (model : string) :
  ~ In (strip (lower model)) (keys table) ->
  (forall k, In k (keys table) -> ~ candidate false (strip (lower model)) k) ->
  (forall k, In k (keys table) -> ~ candidate true (strip (lower model)) k) ->
  get_model_data table model = ("unknown", None) /\
  (forall input_tokens output_tokens : Z,
      exists zero,
        calculate_costs (init table model) input_tokens output_tokens
        = Ok (zero, EmptyString, "unknown") /\
        coefficient zero = 0%Z /\ exponent zero = (-8)%Z /\
        ((0 <= input_tokens)%Z -> (0 <= output_tokens)%Z ->
         zero = mkDecimal false 0 (-8))) /\
  (forall (any_model : string) (input_tokens output_tokens : Z) cost currency used,
      calculate_costs (init table any_model) input_tokens output_tokens
      = Ok (cost, currency, used) ->
      In used (keys table) \/ used = "unknown").
Proof.
  intros Hnk Hf Hs.
  assert (Hres : get_model_data table model = ("unknown", None)).
  { unfold get_model_data.
    rewrite get_model_data_log_search by now apply get_none_iff.
    rewrite !find_best_match_none; [reflexivity| |].
    - intros k Hk Hc. exfalso. exact (Hs k Hk Hc).
    - intros k Hk Hc. exfalso. exact (Hf k Hk Hc). }
  split; [exact Hres|]. split.
  - intros input_tokens output_tokens. unfold init. rewrite Hres.
    apply calculate_costs_no_record.
  - intros any_model input_tokens output_tokens cost currency used Hcalc.
    pose proof (get_model_data_key_or_unknown table any_model) as Hk.
    unfold init in Hcalc. destruct (get_model_data table any_model) as [u d].
    simpl in Hk. unfold calculate_costs in Hcalc. simpl in Hcalc.
    repeat match type of Hcalc with
           | bind ?r _ = _ => destruct r; simpl in Hcalc; [|discriminate]
           end.
    injection Hcalc as _ _ <-. exact Hk.
Qed.

Lemma unknown_model_fallback_witness :
  ~ In (strip (lower "totally-unknown-model")) (keys pricing_data) /\
  (forall k, In k (keys pricing_data) ->
             ~ candidate false (strip (lower "totally-unknown-model")) k) /\
  (forall k, In k (keys pricing_data) ->
             ~ candidate true (strip (lower "totally-unknown-model")) k) /\
  get_model_data pricing_data "totally-unknown-model" = ("unknown", None) /\
  calculate_costs (init pricing_data "totally-unknown-model") 1000 500
  = Ok (mkDecimal false 0 (-8), EmptyString, "unknown").
Proof.
  assert (H1 : ~ In (strip (lower "totally-unknown-model")) (keys pricing_data))
    by (apply not_in_by_eqb; vm_compute; reflexivity).
  assert (H2 : forall k, In k (keys pricing_data) ->
                 ~ candidate false (strip (lower "totally-unknown-model")) k)
    by (apply no_candidate_by_startswith; vm_compute; reflexivity).
  assert (H3 : forall k, In k (keys pricing_data) ->
                 ~ candidate true (strip (lower "totally-unknown-model")) k)
    by (apply no_candidate_by_startswith; vm_compute; reflexivity).
  destruct (unknown_model_fallback pricing_data "totally-unknown-model" H1 H2 H3)
    as [Hres [Hcost _]].
  split; [exact H1|]. split; [exact H2|]. split; [exact H3|].
  split; [exact Hres|].
  destruct (Hcost 1000%Z 500%Z) as [zero [Hc [_ [_ Hz]]]].
  rewrite Hc, Hz by lia. reflexivity.
Defined.

End UnknownModelClaims.

(** * Properties of the decimal arithmetic *)

Module DecFacts.
Import Dec.
Local Open Scope Z_scope.

Lemma ndigits_fuel_bounds (fuel : nat) (n : Z) :
  0 < n -> n < 2 ^ (Z.of_nat fuel + 1) ->
  1 <= ndigits_fuel fuel n /\
  10 ^ (ndigits_fuel fuel n - 1) <= n < 10 ^ ndigits_fuel fuel n.
Proof.
  revert n. induction fuel as [|fuel IH]; intros n Hpos Hlt.
  - simpl in *. assert (n = 1) by lia. subst. simpl. lia.
  - cbn [ndigits_fuel]. destruct (Z.ltb_spec n 10) as [Hs|Hb].
    + simpl. lia.
    + assert (Hq : 0 < n / 10) by (apply Z.div_str_pos; lia).
      assert (Hq2 : n / 10 < 2 ^ (Z.of_nat fuel + 1)).
      { replace (Z.of_nat (S fuel) + 1) with (Z.of_nat fuel + 1 + 1) in Hlt by lia.
        rewrite Z.pow_add_r in Hlt by lia. change (2 ^ 1) with 2 in Hlt.
        apply Z.div_lt_upper_bound; lia. }
      destruct (IH (n / 10) Hq Hq2) as [H1 [Hlo Hhi]].
      set (r := ndigits_fuel fuel (n / 10)) in *.
      replace (1 + r - 1) with ((r - 1) + 1) by lia.
      replace (1 + r) with (r + 1) by lia.
      rewrite !Z.pow_add_r by lia. change (10 ^ 1) with 10.
      pose proof (Z.div_mod n 10 ltac:(lia)) as Hdm.
      pose proof (Z.mod_pos_bound n 10 ltac:(lia)) as Hmb.
      lia.
Qed.

Lemma ndigits_bounds (n : Z) :
  0 < n -> 1 <= ndigits n /\ 10 ^ (ndigits n - 1) <= n < 10 ^ ndigits n.
Proof.
  intros Hpos. unfold ndigits. apply ndigits_fuel_bounds; [exact Hpos|].
  rewrite Z2Nat.id by apply Z.log2_nonneg.
  pose proof (Z.log2_spec n Hpos) as [_ H].
  replace (Z.log2 n + 1) with (Z.succ (Z.log2 n)) by lia. exact H.
Qed.

(** A positive coefficient has at most [k] digits exactly when it is below
    [10 ^ k]. *)
Lemma ndigits_le_iff (n k : Z) :
  0 < n -> 0 <= k -> (ndigits n <= k <-> n < 10 ^ k).
Proof.
  intros Hpos Hk. destruct (ndigits_bounds n Hpos) as [H1 [Hlo Hhi]]. split.
  - intros Hle. eapply Z.lt_le_trans; [exact Hhi|].
    apply Z.pow_le_mono_r; lia.
  - intros Hlt. destruct (Z.le_gt_cases (ndigits n) k) as [|Hgt]; [assumption|].
    exfalso. assert (10 ^ k <= 10 ^ (ndigits n - 1)) by (apply Z.pow_le_mono_r; lia).
    lia.
Qed.

(** [_fix] leaves alone a decimal that fits the context. *)
Lemma fix_exact (s : bool) (c e : Z) :
  0 <= c < 10 ^ prec -> Etiny <= e <= 0 ->
  _fix (mkDecimal s c e) = Ok (mkDecimal s c e).
Proof.
  intros [Hc0 Hc] He. unfold _fix. cbn [coefficient exponent sign].
  destruct (Z.eqb_spec c 0) as [->|Hnz].
  - f_equal. f_equal. unfold Etiny, Emin, Emax, prec in *. lia.
  - assert (Hpos : 0 < c) by lia.
    assert (Hn : ndigits c <= prec) by (apply ndigits_le_iff; unfold prec in *; lia).
    destruct (ndigits_bounds c Hpos) as [H1 _].
    destruct (Z.ltb_spec Etop (ndigits c + e - prec)) as [Ho|_].
    { unfold Etop, Emax, prec in *. lia. }
    destruct (Z.ltb_spec e (Z.max (ndigits c + e - prec) Etiny)) as [Hr|_].
    { exfalso. lia. }
    reflexivity.
Qed.

Lemma pow10_pos (k : Z) : 0 <= k -> 0 < 10 ^ k.
Proof. intros. apply Z.pow_pos_nonneg; lia. Qed.

(** Rounding half up, on integers: dropping [k] digits of [c] gives the
    floor of [c / 10 ^ k + 1 / 2]. *)
Lemma round_shift_half_up (c k : Z) :
  0 <= c -> 0 <= k ->
  round_shift ROUND_HALF_UP c k = (2 * c + 10 ^ k) / (2 * 10 ^ k).
Proof.
  intros Hc Hk. unfold round_shift.
  pose proof (pow10_pos k Hk) as Hp. set (p := 10 ^ k) in *.
  pose proof (Z.div_mod c p ltac:(lia)) as Hdm.
  pose proof (Z.mod_pos_bound c p Hp) as Hmb.
  set (q := c / p) in *. set (r := c mod p) in *.
  destruct (Z.leb_spec p (2 * r)) as [Hup|Hdown].
  - apply Z.div_unique with (r := 2 * r - p); lia.
  - apply Z.div_unique with (r := 2 * r + p); lia.
Qed.

End DecFacts.

Module CostFacts.
Import Dec ModelCostManager CostCalculationManager DecFacts CostSpec.
Local Open Scope Z_scope.

Lemma to_Q_fraction (c e : Z) :
  e <= 0 -> (to_Q (mkDecimal false c e) == c # Z.to_pos (10 ^ (- e)))%Q.
Proof.
  intros He. unfold to_Q. cbn [sign coefficient exponent signed].
  destruct (Z.leb_spec 0 e) as [H0|Hn]; [|reflexivity].
  assert (e = 0) by lia. subst e. simpl. unfold Qeq. simpl. lia.
Qed.

Lemma round_half_up_fraction (x : Q) (c e : Z) :
  0 <= c -> e <= 0 -> (x == to_Q (mkDecimal false c e))%Q ->
  round_half_up x 8
  = mkDecimal false ((2 * c * 10 ^ 8 + 10 ^ (- e)) / (2 * 10 ^ (- e))) (-8).
Proof.
  intros Hc He Hx. unfold round_half_up. f_equal.
  rewrite Hx, (to_Q_fraction c e He).
  pose proof (pow10_pos (- e) ltac:(lia)) as Hp.
  unfold Qfloor, Qplus, Qmult, inject_Z. cbn [Qnum Qden].
  rewrite !Pos2Z.inj_mul, Z2Pos.id by exact Hp.
  f_equal; lia.
Qed.

(** [quantize] to eight fractional digits, rounding half up, of a decimal
    that fits the context. *)
Lemma quantize_exact (c e : Z) :
  0 <= c < 10 ^ 28 -> Etiny <= e <= 0 ->
  c * 10 ^ 8 < 10 ^ 28 * 10 ^ (- e) ->
  quantize (mkDecimal false c e) (-8) ROUND_HALF_UP
  = Ok (mkDecimal false ((2 * c * 10 ^ 8 + 10 ^ (- e)) / (2 * 10 ^ (- e))) (-8)).
Proof.
  intros [Hc0 Hc] He Hfit.
  pose proof (pow10_pos (- e) ltac:(lia)) as Hp. set (D := 10 ^ (- e)) in *.
  unfold quantize. cbn [coefficient exponent sign].
  change (negb ((Etiny <=? -8) && (-8 <=? Emax))) with false. cbn iota.
  destruct (Z.eqb_spec c 0) as [->|Hnz].
  - rewrite fix_exact by (unfold Etiny, Emin, prec; lia).
    f_equal. f_equal. symmetry. apply Z.div_small. lia.
  - assert (Hpos : 0 < c) by lia.
    destruct (ndigits_bounds c Hpos) as [Hn1 _].
    assert (Hn28 : ndigits c <= 28) by (apply ndigits_le_iff; lia).
    assert (Hn20 : ndigits c <= 20 - e).
    { apply ndigits_le_iff; [lia|lia|].
      replace (20 - e) with (20 + - e) by lia. rewrite Z.pow_add_r by lia.
      fold D. change (10 ^ 28) with (10 ^ 20 * 10 ^ 8) in Hfit. nia. }
    unfold adjusted. cbn [coefficient exponent].
    destruct (Z.ltb_spec Emax (e + ndigits c - 1)) as [Hbad|_];
      [unfold Emax in Hbad; lia|].
    destruct (Z.ltb_spec prec (e + ndigits c - 1 - -8 + 1)) as [Hbad|_];
      [unfold prec in Hbad; lia|].
    unfold _rescale. cbn [coefficient exponent sign].
    destruct (Z.eqb_spec c 0) as [|_]; [contradiction|].
    set (R := (2 * c * 10 ^ 8 + D) / (2 * D)).
    assert (HR : (if -8 <=? e
                  then mkDecimal false (c * 10 ^ (e - -8)) (-8)
                  else mkDecimal false (round_shift ROUND_HALF_UP c (-8 - e)) (-8))
                 = mkDecimal false R (-8)).
    { destruct (Z.leb_spec (-8) e) as [Hge|Hlt]; f_equal.
      - unfold R. apply Z.div_unique with (r := D); [lia|].
        assert (H8 : 10 ^ 8 = 10 ^ (e - -8) * D).
        { unfold D. rewrite <- Z.pow_add_r by lia. f_equal. lia. }
        rewrite H8. ring.
      - rewrite round_shift_half_up by lia. unfold R.
        assert (HD : D = 10 ^ 8 * 10 ^ (-8 - e)).
        { unfold D. rewrite <- Z.pow_add_r by lia. f_equal. lia. }
        rewrite HD.
        replace (2 * c * 10 ^ 8 + 10 ^ 8 * 10 ^ (-8 - e))
          with (10 ^ 8 * (2 * c + 10 ^ (-8 - e))) by ring.
        replace (2 * (10 ^ 8 * 10 ^ (-8 - e)))
          with (10 ^ 8 * (2 * 10 ^ (-8 - e))) by ring.
        rewrite Z.div_mul_cancel_l; [reflexivity| |lia].
        pose proof (pow10_pos (-8 - e) ltac:(lia)). lia. }
    rewrite HR. cbn [coefficient exponent].
    assert (HR0 : 0 <= R) by (apply Z.div_pos; lia).
    assert (HR28 : R < 10 ^ 28).
    { unfold R. apply Z.div_lt_upper_bound; [lia|].
      destruct (Z.le_gt_cases (-8) e) as [Hge|Hlt].
      - nia.
      - assert (HD : D = 10 ^ 8 * 10 ^ (-8 - e)).
        { unfold D. rewrite <- Z.pow_add_r by lia. f_equal. lia. }
        assert (10 <= 10 ^ (-8 - e)).
        { change 10 with (10 ^ 1) at 1. apply Z.pow_le_mono_r; lia. }
        nia. }
    assert (HnR : ndigits R <= 28).
    { destruct (Z.eq_dec R 0) as [->|HRnz]; [vm_compute; discriminate|].
      apply ndigits_le_iff; lia. }
    assert (HnR1 : 1 <= ndigits R).
    { destruct (Z.eq_dec R 0) as [->|HRnz]; [vm_compute; discriminate|].
      apply ndigits_bounds. lia. }
    destruct (Z.ltb_spec Emax (-8 + ndigits R - 1)) as [Hbad|_];
      [unfold Emax in Hbad; lia|].
    destruct (Z.ltb_spec prec (ndigits R)) as [Hbad|_];
      [unfold prec in Hbad; lia|].
    apply fix_exact; unfold Etiny, Emin, prec; lia.
Qed.


Lemma pos_pow10 (k : Z) : 0 <= k -> Z.pos (Z.to_pos (10 ^ k)) = 10 ^ k.
Proof. intros. apply Z2Pos.id. now apply pow10_pos. Qed.

Lemma pow10_ge_1 (k : Z) : 0 <= k -> 1 <= 10 ^ k.
Proof. intros. pose proof (pow10_pos k H). lia. Qed.

Lemma pow10_split (a b : Z) : a <= b -> b <= 0 -> 10 ^ (- a) = 10 ^ (b - a) * 10 ^ (- b).
Proof. intros. rewrite <- Z.pow_add_r by lia. f_equal. lia. Qed.

(** The value of an exact product with an [int]. *)
Lemma to_Q_scale (c e t : Z) :
  e <= 0 ->
  (to_Q (mkDecimal false (c * t) e) == inject_Z t * to_Q (mkDecimal false c e))%Q.
Proof.
  intros He. rewrite !to_Q_fraction by exact He.
  unfold Qeq, Qmult, inject_Z. cbn [Qnum Qden]. rewrite Pos2Z.inj_mul. simpl (Z.pos 1).
  ring.
Qed.

(** The value of an exact sum at the smaller exponent. *)
Lemma to_Q_sum (a ea b eb : Z) :
  ea <= 0 -> eb <= 0 ->
  (to_Q (mkDecimal false
           (a * 10 ^ (ea - Z.min ea eb) + b * 10 ^ (eb - Z.min ea eb)) (Z.min ea eb))
   == to_Q (mkDecimal false a ea) + to_Q (mkDecimal false b eb))%Q.
Proof.
  intros Ha Hb. set (m := Z.min ea eb).
  assert (Hm : m <= ea /\ m <= eb /\ m <= 0) by (unfold m; lia).
  rewrite !to_Q_fraction by lia.
  unfold Qeq, Qplus. cbn [Qnum Qden].
  rewrite !Pos2Z.inj_mul, !pos_pow10 by lia.
  pose proof (pow10_split m ea ltac:(lia) ltac:(lia)) as H1.
  pose proof (pow10_split m eb ltac:(lia) ltac:(lia)) as H2.
  set (Dm := 10 ^ (- m)) in *.
  replace ((a * 10 ^ (- eb) + b * 10 ^ (- ea)) * Dm)
    with (a * 10 ^ (- eb) * Dm + b * 10 ^ (- ea) * Dm) by ring.
  rewrite H1 at 1. rewrite H2. ring.
Qed.

(** [d * n] for a price and a positive token count, when the product fits. *)
Lemma mul_tokens_exact (c e t : Z) :
  0 <= c -> 0 <= t -> c * t < 10 ^ 28 -> Etiny <= e <= 0 ->
  Dec.mul (mkDecimal false c e) (of_int t) = Ok (mkDecimal false (c * t) e).
Proof.
  intros Hc Ht Hfit He. unfold Dec.mul, of_int. cbn [sign coefficient exponent].
  destruct (Z.ltb_spec t 0) as [|_]; [lia|]. cbn [xorb].
  rewrite Z.abs_eq, Z.add_0_r by lia.
  apply fix_exact; [unfold prec; nia|lia].
Qed.

(** [a + b] for non-negative decimals, when the sum fits. *)
Lemma add_exact (a ea b eb : Z) :
  0 <= a -> 0 <= b -> Etiny <= ea <= 0 -> Etiny <= eb <= 0 ->
  a * 10 ^ (ea - Z.min ea eb) + b * 10 ^ (eb - Z.min ea eb) < 10 ^ 28 ->
  Dec.add (mkDecimal false a ea) (mkDecimal false b eb)
  = Ok (mkDecimal false
          (a * 10 ^ (ea - Z.min ea eb) + b * 10 ^ (eb - Z.min ea eb)) (Z.min ea eb)).
Proof.
  intros Ha Hb Hea Heb Hfit. unfold Dec.add. cbn [sign coefficient exponent signed].
  set (m := Z.min ea eb) in *.
  pose proof (pow10_pos (ea - m) ltac:(unfold m; lia)).
  pose proof (pow10_pos (eb - m) ltac:(unfold m; lia)).
  set (s := a * 10 ^ (ea - m) + b * 10 ^ (eb - m)) in *.
  assert (Hs : 0 <= s) by (unfold s; nia).
  rewrite Z.abs_eq by exact Hs.
  assert (Hsg : (if s =? 0 then (a =? 0) && (b =? 0) && false && false else s <? 0) = false).
  { destruct (Z.eqb_spec s 0).
    - now rewrite !andb_false_r.
    - apply Z.ltb_ge. exact Hs. }
  rewrite Hsg. apply fix_exact; [unfold prec; lia|unfold m; lia].
Qed.

(** A decimal worth [x], below [1e20], quantizes to [x] rounded half up. *)
Lemma quantize_value (x : Q) (c e : Z) :
  0 <= c < 10 ^ 28 -> Etiny <= e <= 0 ->
  (x == to_Q (mkDecimal false c e))%Q ->
  (x * inject_Z (10 ^ 8) < inject_Z (10 ^ 28))%Q ->
  quantize (mkDecimal false c e) (-8) ROUND_HALF_UP = Ok (round_half_up x 8).
Proof.
  intros Hc He Hx Hlt.
  rewrite (round_half_up_fraction x c e) by (try lia; exact Hx).
  apply quantize_exact; [exact Hc|exact He|].
  rewrite Hx, to_Q_fraction in Hlt by lia.
  unfold Qlt, Qmult, inject_Z in Hlt. cbn [Qnum Qden] in Hlt.
  rewrite Pos2Z.inj_mul, pos_pow10 in Hlt by lia. simpl (Z.pos 1) in Hlt. lia.
Qed.

(** The coefficient of a decimal worth [x] at a scale no finer than [f]. *)
Lemma coefficient_bound (x : Q) (c e f : Z) :
  0 <= c -> e <= 0 -> - e <= f ->
  (x == to_Q (mkDecimal false c e))%Q ->
  (x * inject_Z (10 ^ f) < inject_Z (10 ^ 28))%Q ->
  c < 10 ^ 28.
Proof.
  intros Hc He Hf Hx Hlt.
  rewrite Hx, to_Q_fraction in Hlt by lia.
  unfold Qlt, Qmult, inject_Z in Hlt. cbn [Qnum Qden] in Hlt.
  rewrite Pos2Z.inj_mul, pos_pow10 in Hlt by lia. simpl (Z.pos 1) in Hlt.
  assert (Hsplit : 10 ^ f = 10 ^ (f + e) * 10 ^ (- e)).
  { rewrite <- Z.pow_add_r by lia. f_equal. lia. }
  rewrite Hsplit in Hlt.
  pose proof (pow10_pos (- e) ltac:(lia)). pose proof (pow10_ge_1 (f + e) ltac:(lia)).
  nia.
Qed.

(** What [quantize] returns has the exponent asked for and fits the
    context. *)
Lemma quantize_result (d q : Decimal) (exp : Z) (rounding : Rounding) :
  quantize d exp rounding = Ok q ->
  exponent q = exp /\ coefficient q < 10 ^ prec.
Proof.
  unfold quantize.
  destruct ((Etiny <=? exp) && (exp <=? Emax)) eqn:Hrange; cbn [negb]; [|discriminate].
  apply andb_true_iff in Hrange. destruct Hrange as [Hlo Hhi].
  apply Z.leb_le in Hlo, Hhi.
  assert (Hfix : forall s c, (c <= 0 \/ ndigits c <= prec) ->
             _fix (mkDecimal s c exp) = Ok q ->
             exponent q = exp /\ coefficient q < 10 ^ prec).
  { intros s c Hc. unfold _fix. cbn [coefficient exponent sign].
    destruct (Z.eqb_spec c 0) as [->|Hnz].
    - intros [= <-]. cbn [coefficient exponent]. split; [lia|reflexivity].
    - destruct (Z.ltb_spec Etop (ndigits c + exp - prec)); [discriminate|].
      assert (Hn : ndigits c <= prec).
      { destruct Hc as [Hneg|Hn]; [|exact Hn].
        unfold ndigits. destruct c; try lia. simpl. unfold prec. lia. }
      destruct (Z.ltb_spec exp (Z.max (ndigits c + exp - prec) Etiny)); [lia|].
      intros [= <-]. cbn [coefficient exponent]. split; [reflexivity|].
      destruct (Z.le_gt_cases c 0) as [Hle|Hpos].
      + pose proof (pow10_pos prec ltac:(unfold prec; lia)). lia.
      + apply ndigits_le_iff; [lia|unfold prec; lia|exact Hn]. }
  destruct (coefficient d =? 0).
  - apply Hfix. left. lia.
  - destruct (Emax <? adjusted d); [discriminate|].
    destruct (prec <? adjusted d - exp + 1); [discriminate|].
    destruct (Emax <? adjusted (_rescale d exp rounding)); [discriminate|].
    destruct (Z.ltb_spec prec (ndigits (coefficient (_rescale d exp rounding))))
      as [|Hn]; [discriminate|].
    assert (He : exponent (_rescale d exp rounding) = exp).
    { unfold _rescale. destruct (coefficient d =? 0); [reflexivity|].
      destruct (exp <=? exponent d); reflexivity. }
    destruct (_rescale d exp rounding) as [s c e]. cbn [coefficient exponent] in *.
    subst e. apply Hfix. now right.
Qed.

(** What [calculate_costs] returns went through [quantize]. *)
Lemma calculate_costs_quantized
    (self : CostCalculationManager) (input_tokens output_tokens : Z)
    (cost : Decimal) (currency used : string) :
  calculate_costs self input_tokens output_tokens = Ok (cost, currency, used) ->
  exponent cost = -8 /\ coefficient cost < 10 ^ 28.
Proof.
  unfold calculate_costs.
  repeat match goal with
         | |- bind ?r _ = _ -> _ => destruct r eqn:?; cbn [bind]; [|discriminate]
         end.
  intros [= <- <- <-].
  match goal with
  | Hq : quantize _ _ _ = Ok _ |- _ =>
      apply quantize_result in Hq;
      change (exponent Config.DECIMALS) with (-8) in Hq; unfold prec in Hq
  end.
  tauto.
Qed.

End CostFacts.

Module CostClaims.
Import Dec ModelCostManager CostCalculationManager DecFacts CostSpec CostFacts.
Import Samples.
Local Open Scope Z_scope.

Lemma mul_one_exact (c e : Z) :
  0 <= c < 10 ^ 28 -> Etiny <= e <= 0 ->
  Dec.mul (of_int 1) (mkDecimal false c e) = Ok (mkDecimal false c e).
Proof.
  intros Hc He. unfold Dec.mul, of_int. cbn [sign coefficient exponent].
  change (1 <? 0) with false. change (Z.abs 1) with 1. cbn [xorb].
  rewrite Z.mul_1_l, Z.add_0_l. apply fix_exact; [unfold prec; lia|lia].
Qed.

(** The last two steps of [calculate_costs] on an exact sum. *)
Lemma finish_exact (x : Q) (c e : Z) :
  0 <= c < 10 ^ 28 -> Etiny <= e <= 0 ->
  (x == to_Q (mkDecimal false c e))%Q ->
  (x * inject_Z (10 ^ 8) < inject_Z (10 ^ 28))%Q ->
  (total_cost <- decimal_mul (of_int 1) (PyDecimal (mkDecimal false c e)) ;;
   quantize total_cost (exponent Config.DECIMALS) ROUND_HALF_UP)
  = Ok (round_half_up x 8).
Proof.
  intros Hc He Hx Hlt. cbn [decimal_mul]. rewrite mul_one_exact by assumption.
  cbn [bind]. change (exponent Config.DECIMALS) with (-8).
  now apply quantize_value.
Qed.

(** The cost of a total that fits the context: for non-negative token
    counts and a record of plain prices, when the exact total fits the 28
    digits of the decimal context, both with eight fractional digits and
    with the fractional digits of the finer price, the cost is that total
    rounded half up to eight fractional digits, computed without loss. *)
Lemma calculate_costs_within_context
    (self : CostCalculationManager) (r : PricingRecord) (input_tokens output_tokens : Z) :
  model_pricing_data self = Some r ->
  0 <= input_tokens -> 0 <= output_tokens ->
  plain_price (input_cost_per_token r) ->
  plain_price (output_cost_per_token r) ->
  (exact_total r input_tokens output_tokens * inject_Z (10 ^ 8) < inject_Z (10 ^ 28))%Q ->
  (exact_total r input_tokens output_tokens * inject_Z (10 ^ finest_scale r)
   < inject_Z (10 ^ 28))%Q ->
  calculate_costs self input_tokens output_tokens
  = Ok (round_half_up (exact_total r input_tokens output_tokens) 8,
        cost_currency r, model_used_by_cost_calculation self).
Proof.
  intros Hdata Hti Hto Hpi Hpo H20 H28.
  destruct r as [[si ci ei] [so co eo] currency].
  unfold plain_price in Hpi, Hpo. cbn [input_cost_per_token output_cost_per_token
    sign coefficient exponent] in Hpi, Hpo.
  destruct Hpi as [-> [Hci Hei]]. destruct Hpo as [-> [Hco Heo]].
  unfold finest_scale in H28. cbn [input_cost_per_token output_cost_per_token exponent] in H28.
  set (T := exact_total _ input_tokens output_tokens) in *.
  assert (HT : (T == inject_Z input_tokens * to_Q (mkDecimal false ci ei)
                    + inject_Z output_tokens * to_Q (mkDecimal false co eo))%Q)
    by reflexivity.
  unfold calculate_costs. rewrite Hdata.
  cbn [cost_field input_cost_per_token output_cost_per_token cost_currency].
  assert (Hfin : forall c e, 0 <= c -> Etiny <= e <= 0 -> - e <= - Z.min ei eo ->
            (T == to_Q (mkDecimal false c e))%Q ->
            0 <= c < 10 ^ 28 /\
            (total_cost <- decimal_mul (of_int 1) (PyDecimal (mkDecimal false c e)) ;;
             total_cost <- quantize total_cost (exponent Config.DECIMALS) ROUND_HALF_UP ;;
             Ok (total_cost, currency, model_used_by_cost_calculation self))
            = Ok (round_half_up T 8, currency, model_used_by_cost_calculation self)).
  { intros c e Hc He Hf Hx.
    assert (Hc28 : c < 10 ^ 28)
      by (apply (coefficient_bound T c e (- Z.min ei eo)); auto; lia).
    split; [lia|].
    pose proof (finish_exact T c e (conj Hc Hc28) He Hx H20) as Hq.
    destruct (decimal_mul (of_int 1) (PyDecimal (mkDecimal false c e))) as [d|];
      cbn [bind] in *; [|discriminate].
    rewrite Hq. reflexivity. }
  destruct (Z.eqb_spec input_tokens 0) as [Ei|Ni];
    destruct (Z.eqb_spec output_tokens 0) as [Eo|No]; cbn [bind py_add].
  - (* no tokens at all *)
    cbn [decimal_mul]. change (Dec.mul (of_int 1) (of_int (0 + 0)))
      with (Dec.mul (of_int 1) (mkDecimal false 0 0)).
    destruct (Hfin 0 0) as [_ Hq]; try lia.
    { rewrite HT, Ei, Eo. change (to_Q (mkDecimal false 0 0)) with (inject_Z 0). ring. }
    exact Hq.
  - (* output tokens only *)
    set (c := co * output_tokens * 10 ^ (eo - Z.min eo 0) + 0 * 10 ^ (0 - Z.min eo 0)).
    assert (Hmin : Z.min eo 0 = eo) by lia.
    assert (Hc : c = co * output_tokens).
    { unfold c. rewrite Hmin, Z.sub_diag. simpl (10 ^ 0). lia. }
    assert (Hc0 : 0 <= c) by (rewrite Hc; nia).
    assert (Hx : (T == to_Q (mkDecimal false c (Z.min eo 0)))%Q).
    { unfold c. rewrite to_Q_sum, to_Q_scale, HT by lia. subst input_tokens.
      change (to_Q (mkDecimal false 0 0)) with (inject_Z 0). ring. }
    destruct (Hfin c (Z.min eo 0) Hc0 ltac:(lia) ltac:(lia) Hx) as [Hc28 Hq].
    cbn [decimal_mul]. rewrite mul_tokens_exact by lia.
    cbn [bind py_add]. change (of_int 0) with (mkDecimal false 0 0).
    rewrite add_exact by (try lia; fold c; lia).
    cbn [bind]. exact Hq.
  - (* input tokens only *)
    set (c := ci * input_tokens * 10 ^ (ei - Z.min ei 0) + 0 * 10 ^ (0 - Z.min ei 0)).
    assert (Hmin : Z.min ei 0 = ei) by lia.
    assert (Hc : c = ci * input_tokens).
    { unfold c. rewrite Hmin, Z.sub_diag. simpl (10 ^ 0). lia. }
    assert (Hc0 : 0 <= c) by (rewrite Hc; nia).
    assert (Hx : (T == to_Q (mkDecimal false c (Z.min ei 0)))%Q).
    { unfold c. rewrite to_Q_sum, to_Q_scale, HT by lia. subst output_tokens.
      change (to_Q (mkDecimal false 0 0)) with (inject_Z 0). ring. }
    destruct (Hfin c (Z.min ei 0) Hc0 ltac:(lia) ltac:(lia) Hx) as [Hc28 Hq].
    cbn [decimal_mul]. rewrite mul_tokens_exact by lia.
    cbn [bind py_add]. change (of_int 0) with (mkDecimal false 0 0).
    rewrite add_exact by (try lia; fold c; lia).
    cbn [bind]. exact Hq.
  - (* both *)
    set (m := Z.min ei eo) in *.
    set (c := ci * input_tokens * 10 ^ (ei - m) + co * output_tokens * 10 ^ (eo - m)).
    pose proof (pow10_ge_1 (ei - m) ltac:(unfold m; lia)) as Hu.
    pose proof (pow10_ge_1 (eo - m) ltac:(unfold m; lia)) as Hv.
    assert (HA0 : 0 <= ci * input_tokens) by nia.
    assert (HB0 : 0 <= co * output_tokens) by nia.
    assert (HA : ci * input_tokens <= c) by (unfold c; nia).
    assert (HB : co * output_tokens <= c) by (unfold c; nia).
    assert (Hx : (T == to_Q (mkDecimal false c m))%Q).
    { unfold c, m. rewrite to_Q_sum, !to_Q_scale, HT by lia. reflexivity. }
    destruct (Hfin c m ltac:(lia) ltac:(unfold m; lia) ltac:(unfold m; lia) Hx)
      as [Hc28 Hq].
    cbn [decimal_mul]. rewrite !mul_tokens_exact by lia.
    cbn [bind py_add]. rewrite add_exact by (try lia; fold m; fold c; lia).
    cbn [bind]. fold m. fold c. exact Hq.
Qed.

(** C2, amended.  For non-negative token counts and a resolved record
    whose prices are non-negative decimals without a positive exponent:
    when the exact total [input_tokens * input price + output_tokens *
    output price] is below [1e20] and has at most 28 digits when written
    with the fractional digits of the finer price, the cost is that total
    rounded half up to eight fractional digits, in exact decimal
    arithmetic, with the record's currency and the resolved key; and when
    the total is [1e20] or more, that rounding is never the cost: the call
    raises, or returns another value. *)
Theorem cost_rounded_half_up
    (self : CostCalculationManager) (r : PricingRecord) (input_tokens output_tokens : Z) :
  model_pricing_data self = Some r ->
  0 <= input_tokens -> 0 <= output_tokens ->
  plain_price (input_cost_per_token r) ->
  plain_price (output_cost_per_token r) ->
  ((exact_total r input_tokens output_tokens * inject_Z (10 ^ 8) < inject_Z (10 ^ 28))%Q ->
   (exact_total r input_tokens output_tokens * inject_Z (10 ^ finest_scale r)
    < inject_Z (10 ^ 28))%Q ->
   calculate_costs self input_tokens output_tokens
   = Ok (round_half_up (exact_total r input_tokens output_tokens) 8,
         cost_currency r, model_used_by_cost_calculation self)) /\
  ((inject_Z (10 ^ 28) <= exact_total r input_tokens output_tokens * inject_Z (10 ^ 8))%Q ->
   forall (cost : Decimal) (currency used : string),
     calculate_costs self input_tokens output_tokens = Ok (cost, currency, used) ->
     cost <> round_half_up (exact_total r input_tokens output_tokens) 8).
Proof.
  intros Hdata Hti Hto Hpi Hpo. split.
  - intros H20 H28. now apply calculate_costs_within_context.
  - intros Hlarge cost currency used Hcalc Heq.
    pose proof (calculate_costs_quantized self input_tokens output_tokens cost currency
                  used Hcalc) as [_ Hbound].
    rewrite Heq in Hbound. unfold round_half_up in Hbound.
    cbn [coefficient] in Hbound.
    assert (Hfloor : 10 ^ 28
                     <= Qfloor (exact_total r input_tokens output_tokens
                                * inject_Z (10 ^ 8) + (1 # 2))).
    { rewrite <- (Qfloor_Z (10 ^ 28)). apply Qfloor_resp_le.
      eapply Qle_trans; [exact Hlarge|].
      rewrite <- (Qplus_0_r (exact_total r input_tokens output_tokens
                             * inject_Z (10 ^ 8))) at 1.
      apply Qplus_le_compat; [apply Qle_refl|]. unfold Qle. simpl. lia. }
    lia.
Qed.

Lemma cost_rounded_half_up_witness :
  model_pricing_data (init pricing_data "anthropic.claude-3-sonnet")
  = Some (mkPricing (price 3 (-3)) (price 15 (-3)) "USD") /\
  calculate_costs (init pricing_data "anthropic.claude-3-sonnet") 1000 500
  = Ok (mkDecimal false 1050000000 (-8), "USD"%string,
        "anthropic.claude-3-sonnet"%string).
Proof.
  assert (Hdata : model_pricing_data (init pricing_data "anthropic.claude-3-sonnet")
                  = Some (mkPricing (price 3 (-3)) (price 15 (-3)) "USD"))
    by (vm_compute; reflexivity).
  split; [exact Hdata|].
  destruct (cost_rounded_half_up (init pricing_data "anthropic.claude-3-sonnet")
              (mkPricing (price 3 (-3)) (price 15 (-3)) "USD") 1000 500 Hdata)
    as [Hcost _].
  - lia.
  - lia.
  - unfold plain_price. vm_compute. intuition discriminate.
  - unfold plain_price. vm_compute. intuition discriminate.
  - rewrite Hcost.
    + vm_compute. reflexivity.
    + vm_compute. reflexivity.
    + vm_compute. reflexivity.
Defined.

(** C2 as stated fails for large token counts: with the price 0.03 of
    ["openai.gpt-4"] and [10 ^ 22] input tokens the total has 29 digits at
    eight fractional digits, and [quantize] raises InvalidOperation. *)
Lemma cost_beyond_context_counterexample :
  exists r,
    model_pricing_data (init pricing_data "openai.gpt-4") = Some r /\
    0 <= 10 ^ 22 /\
    calculate_costs (init pricing_data "openai.gpt-4") (10 ^ 22) 0
    = Raise InvalidOperation /\
    calculate_costs (init pricing_data "openai.gpt-4") (10 ^ 22) 0
    <> Ok (round_half_up (exact_total r (10 ^ 22) 0) 8, cost_currency r,
           "openai.gpt-4"%string).
Proof.
  exists (mkPricing (price 3 (-2)) (price 6 (-2)) "USD").
  split; [vm_compute; reflexivity|]. split; [lia|].
  assert (H : calculate_costs (init pricing_data "openai.gpt-4") (10 ^ 22) 0
              = Raise InvalidOperation) by (vm_compute; reflexivity).
  split; [exact H|]. rewrite H. discriminate.
Qed.

(** Half a unit of the eighth digit is rounded up. *)
Example cost_half_unit_rounds_up :
  calculate_costs (mkManager "m" "m" (Some (mkPricing (price 5 (-9)) (price 0 0) "USD"))) 1 0
  = Ok (mkDecimal false 1 (-8), "USD"%string, "m"%string).
Proof. vm_compute. reflexivity. Qed.

End CostClaims.

Module StatusClaims.
Import PyStr Dec ModelCostManager CostCalculationManager.
Import Datetime UsagePersistenceManager CostTrackingManager.
Import ResolverSpec Samples ResolverFacts UnknownModelClaims.
Local Open Scope string_scope.
Local Open Scope list_scope.

Section Clock.

Variable Time : Type.
Variable time_truthy : Time -> bool.
Variable format_elapsed : Time -> Time -> string.

(** C8. An emitted status event has [done] true exactly when the status
    label is ["Completed"], ["Stopped"] or the empty string; without an
    emitter nothing is emitted. *)
Theorem done_flag_marks_final_status
    (current_time : Time) (input_tokens generated_tokens reasoning_tokens : option Z)
    (start_time : Time) (current_cost : option Decimal)
    (cost_currency : option string) (status : string) :
  update_status_message time_truthy format_elapsed current_time input_tokens
    generated_tokens reasoning_tokens start_time false current_cost cost_currency status
  = None /\
  exists event,
    update_status_message time_truthy format_elapsed current_time input_tokens
      generated_tokens reasoning_tokens start_time true current_cost cost_currency status
    = Some event /\
    event_type event = "status" /\
    (done event = true <->
     status = "Completed" \/ status = "Stopped" \/ status = "") /\
    (done event = false <->
     status <> "Completed" /\ status <> "Stopped" /\ status <> "").
Proof.
  split; [reflexivity|]. unfold update_status_message. cbn [negb].
  eexists. split; [reflexivity|]. cbn [event_type done existsb].
  split; [reflexivity|].
  destruct (String.eqb_spec status "Completed") as [H1|H1];
    destruct (String.eqb_spec status "Stopped") as [H2|H2];
    destruct (String.eqb_spec status "") as [H3|H3]; cbn [orb];
    split; split; intros H; try reflexivity; try discriminate; try tauto;
    try (destruct H as [? [? ?]]; contradiction).
Qed.

(** A cost text is never empty. *)
Lemma cost_str_truthy (cost : Decimal) (currency : string) :
  truthy (cost_str (Some cost) (Some currency)) = true.
Proof.
  unfold cost_str. destruct (String.eqb currency "RUB"); [|reflexivity].
  unfold format_2f.
  destruct (sign cost); cbn [String.append]; [reflexivity|].
  destruct (group_thousands _ _); reflexivity.
Qed.

(** The segments of an emitted message with a cost, for a status label
    without ["Requested"]: the time and token segments, the cost segment,
    the status label. *)
Lemma status_message_segments
    (current_time : Time) (input_tokens generated_tokens reasoning_tokens : option Z)
    (start_time : Time) (cost : Decimal) (currency status : string) :
  contains "Requested" status = false ->
  exists event,
    update_status_message time_truthy format_elapsed current_time input_tokens
      generated_tokens reasoning_tokens start_time true (Some cost) (Some currency) status
    = Some event /\
    description event
    = join " | "
        (filter truthy
           (firstn 4 (status_parts time_truthy format_elapsed current_time input_tokens
                        generated_tokens reasoning_tokens start_time (Some cost)
                        (Some currency) status))
         ++ [("Cost " ++ (if String.eqb currency "RUB"
                          then format_2f cost ++ rouble_sign
                          else "$" ++ format_2f cost))%string]
         ++ filter truthy [status]).
Proof.
  intros Hreq. unfold update_status_message. cbn [negb].
  eexists. split; [reflexivity|]. cbn [description]. f_equal.
  unfold status_parts. cbn [firstn]. rewrite Hreq. cbn [negb].
  rewrite andb_true_r, cost_str_truthy.
  match goal with
  | |- filter truthy [?a; ?b; ?c; ?d; ?e; ?f] = _ =>
      change [a; b; c; d; e; f] with ([a; b; c; d] ++ [e] ++ [f])
  end.
  rewrite !filter_app.
  assert (Ecost : filter truthy [("Cost " ++ cost_str (Some cost) (Some currency))%string]
                  = [("Cost " ++ cost_str (Some cost) (Some currency))%string])
    by reflexivity.
  assert (Elabel : filter truthy [if truthy status then status else EmptyString]
                   = filter truthy [status])
    by (destruct status; reflexivity).
  rewrite Ecost, Elabel. reflexivity.
Qed.


End Clock.



(** The message of the example, in full. *)
Example status_message_unknown_model :
  option_map description
    (update_status_message (fun t : Z => negb (t =? 0)%Z) (fun _ _ : Z => "1.25")
       1700000001%Z (Some 1000%Z) (Some 500%Z) None 1700000000%Z true
       (Some (mkDecimal false 0 (-8))) (Some "") "Completed")
  = Some "1.25s | 1000 Input Tokens | 500 Generated Tokens | Cost $0.00 | Completed".
Proof. vm_compute. reflexivity. Qed.

(** A rouble amount, with thousands separators. *)
Example status_message_roubles :
  cost_str (Some (mkDecimal false 123456789000 (-8))) (Some "RUB")
  = ("1,234.57" ++ rouble_sign)%string.
Proof. vm_compute. reflexivity. Qed.

End StatusClaims.

Module EncodingClaims.
Import PyStr CostCalculationManager Samples MoreSpec.
Local Open Scope string_scope.

Lemma contains_dot (s : string) : contains "." s = negb (dotless s).
Proof.
  induction s as [|c s IH]; [reflexivity|].
  cbn [contains dotless]. rewrite IH.
  change (String.prefix "." (String c s))
    with (if ascii_dec "." c then String.prefix "" s else false).
  destruct (ascii_dec "." c) as [<-|Hne].
  - cbn [Ascii.eqb Bool.eqb negb andb]. destruct s; reflexivity.
  - assert (Hc : Ascii.eqb c "." = false).
    { apply Ascii.eqb_neq. congruence. }
    rewrite Hc. reflexivity.
Qed.

Lemma split1_prefixed (provider name : string) :
  dotless provider = true ->
  split1 "." (provider ++ "." ++ name) = [provider; name].
Proof.
  induction provider as [|c p IH]; cbn [dotless String.append split1].
  - intros _. reflexivity.
  - intros H. apply andb_true_iff in H. destruct H as [Hc Hp].
    apply negb_true_iff in Hc. rewrite Hc.
    change (p ++ String "." name) with (p ++ "." ++ name). now rewrite (IH Hp).
Qed.

Lemma dotless_app_dot (provider name : string) :
  dotless (provider ++ "." ++ name) = false.
Proof.
  induction provider as [|c p IH]; cbn [dotless String.append].
  - reflexivity.
  - change (p ++ String "." name) with (p ++ "." ++ name). rewrite IH.
    apply andb_false_r.
Qed.

(** The name looked up for ["provider.name"] is [name]. *)
Lemma strip_provider_prefixed (provider name : string) :
  dotless provider = true -> strip_provider (provider ++ "." ++ name) = name.
Proof.
  intros Hp. unfold strip_provider.
  rewrite contains_dot, dotless_app_dot, split1_prefixed by exact Hp. reflexivity.
Qed.

(** A name without a dot is looked up as it is. *)
Lemma strip_provider_dotless (name : string) :
  dotless name = true -> strip_provider name = name.
Proof. intros H. unfold strip_provider. now rewrite contains_dot, H. Qed.

(** C9, amended.  Encoder selection looks up the model name with the text up
    to its first ['.'] removed (a name without a dot as it is).  An encoder
    found by the lookup is returned.  When the lookup raises KeyError, no
    encoder being registered, selection falls back to the default encoding
    ["cl100k_base"] and returns what loading it gives.  It raises to its
    caller in two cases only: the lookup raises another error than
    KeyError, or the lookup raises KeyError and loading the default
    raises. *)
Theorem encoder_selection_falls_back
    (Encoding : Type)
    (encoding_for_model tiktoken_get_encoding : string -> result TiktokenError Encoding)
    (model : string) :
  (forall provider name,
      dotless provider = true ->
      get_encoding encoding_for_model tiktoken_get_encoding (provider ++ "." ++ name)
      = match encoding_for_model name with
        | Ok enc => Ok enc
        | Raise KeyError => tiktoken_get_encoding "cl100k_base"
        | Raise e => Raise e
        end) /\
  (dotless model = true ->
   get_encoding encoding_for_model tiktoken_get_encoding model
   = match encoding_for_model model with
     | Ok enc => Ok enc
     | Raise KeyError => tiktoken_get_encoding "cl100k_base"
     | Raise e => Raise e
     end) /\
  (forall enc,
      encoding_for_model (strip_provider model) = Ok enc ->
      get_encoding encoding_for_model tiktoken_get_encoding model = Ok enc) /\
  (encoding_for_model (strip_provider model) = Raise KeyError ->
   get_encoding encoding_for_model tiktoken_get_encoding model
   = tiktoken_get_encoding "cl100k_base") /\
  (forall e,
      get_encoding encoding_for_model tiktoken_get_encoding model = Raise e ->
      (encoding_for_model (strip_provider model) = Raise e /\ e <> KeyError) \/
      (encoding_for_model (strip_provider model) = Raise KeyError /\
       tiktoken_get_encoding "cl100k_base" = Raise e)).
Proof.
  split; [|split; [|split; [|split]]].
  - intros provider name Hp. unfold get_encoding.
    now rewrite strip_provider_prefixed.
  - intros Hm. unfold get_encoding. now rewrite strip_provider_dotless.
  - intros enc H. unfold get_encoding. now rewrite H.
  - intros H. unfold get_encoding. now rewrite H.
  - intros e. unfold get_encoding.
    destruct (encoding_for_model (strip_provider model)) as [enc|[|name]].
    + discriminate.
    + intros H. right. split; [reflexivity|exact H].
    + intros [= <-]. left. split; [reflexivity|discriminate].
Qed.

(** C9 as stated fails where the default encoding cannot be loaded: the
    lookup of an unregistered model raises KeyError, the fallback is
    outside the [try], and its error reaches the caller. *)
Lemma encoder_selection_raises_counterexample :
  sample_encoding_for_model (strip_provider "anthropic.claude-3-opus") = Raise KeyError /\
  get_encoding sample_encoding_for_model offline_get_encoding "anthropic.claude-3-opus"
  = Raise (OtherError "ConnectionError").
Proof. split; vm_compute; reflexivity. Qed.

(** The provider prefix is removed before the lookup. *)
Example encoder_for_prefixed_model :
  get_encoding sample_encoding_for_model sample_get_encoding "openai.gpt-4o"
  = Ok "o200k_base".
Proof. vm_compute. reflexivity. Qed.

Example encoder_for_unregistered_model :
  get_encoding sample_encoding_for_model sample_get_encoding "anthropic.claude-3-opus"
  = Ok "cl100k_base".
Proof. vm_compute. reflexivity. Qed.

End EncodingClaims.

(** * Properties of the usage summary query *)

Module OrderFacts.
Import UsagePersistenceManager SummarySpec.
Local Open Scope list_scope.

Section Collation.

Context {db : Database}.

Lemma text_compare_refl (a : string) : text_compare a a = Eq.
Proof. now apply text_compare_eq. Qed.

Lemma text_compare_gt_lt (a b : string) : text_compare a b = Gt <-> text_lt b a.
Proof.
  unfold text_lt. rewrite (text_compare_antisym a b).
  destruct (text_compare a b); simpl; split; congruence.
Qed.

Lemma key_leb_refl (a : list string) : key_leb a a = true.
Proof.
  induction a as [|x a IH]; simpl; [reflexivity|]. now rewrite text_compare_refl.
Qed.

Lemma key_leb_total (a b : list string) : key_leb a b = true \/ key_leb b a = true.
Proof.
  revert b. induction a as [|x a IH]; intros [|y b]; simpl; auto.
  rewrite (text_compare_antisym x y).
  destruct (text_compare x y); simpl; auto.
Qed.

Lemma key_leb_trans (a b c : list string) :
  key_leb a b = true -> key_leb b c = true -> key_leb a c = true.
Proof.
  revert b c. induction a as [|x a IH]; intros [|y b] [|z c]; simpl;
    try reflexivity; try discriminate.
  destruct (text_compare x y) eqn:Hxy; try discriminate;
    destruct (text_compare y z) eqn:Hyz; try discriminate; intros Hab Hbc.
  - apply text_compare_eq in Hxy, Hyz. subst. rewrite text_compare_refl. eauto.
  - apply text_compare_eq in Hxy. subst. now rewrite Hyz.
  - apply text_compare_eq in Hyz. subst. now rewrite Hxy.
  - now rewrite (text_compare_trans x y z Hxy Hyz).
Qed.

Lemma key_leb_antisym (a b : list string) :
  key_leb a b = true -> key_leb b a = true -> a = b.
Proof.
  revert b. induction a as [|x a IH]; intros [|y b]; simpl;
    try reflexivity; try discriminate.
  rewrite (text_compare_antisym x y).
  destruct (text_compare x y) eqn:Hxy; simpl; try discriminate.
  intros Hab Hba. apply text_compare_eq in Hxy. subst. f_equal. auto.
Qed.

Lemma key_lt_of_leb (a b : list string) :
  key_leb a b = true -> a <> b -> key_lt a b.
Proof.
  unfold key_lt. intros Hab Hne.
  destruct (key_leb b a) eqn:Hba; [|reflexivity].
  exfalso. apply Hne. now apply key_leb_antisym.
Qed.

Lemma key_lt_leb (a b : list string) : key_lt a b -> key_leb a b = true.
Proof.
  unfold key_lt. intros Hba. destruct (key_leb_total a b); congruence.
Qed.

#[export] Instance key_lt_strorder : StrictOrder key_lt.
Proof.
  split.
  - intros a Ha. unfold key_lt in Ha. rewrite key_leb_refl in Ha. discriminate.
  - intros a b c Hab Hbc. unfold key_lt in *.
    destruct (key_leb c a) eqn:Hca; [|reflexivity].
    exfalso. apply key_lt_leb in Hab.
    rewrite (key_leb_trans _ _ _ Hca Hab) in Hbc. discriminate.
Qed.

#[export] Instance summary_lt_strorder : StrictOrder summary_lt.
Proof.
  split.
  - intros a. exact (StrictOrder_Irreflexive (order_key a)).
  - intros a b c. exact (StrictOrder_Transitive (order_key a) (order_key b) (order_key c)).
Qed.

Lemma insert_sorted_in (s x : SummaryRow) (l : list SummaryRow) :
  In x (insert_sorted s l) <-> x = s \/ In x l.
Proof.
  induction l as [|h t IH]; simpl.
  - intuition.
  - destruct (summary_leb s h); simpl; [intuition|]. rewrite IH. intuition.
Qed.

Lemma sort_summaries_in (x : SummaryRow) (l : list SummaryRow) :
  In x (sort_summaries l) <-> In x l.
Proof.
  induction l as [|s l IH]; simpl; [reflexivity|].
  rewrite insert_sorted_in, IH. intuition.
Qed.

Lemma insert_sorted_strict (s : SummaryRow) (l : list SummaryRow) :
  Sorted summary_lt l ->
  (forall h, In h l -> order_key h <> order_key s) ->
  Sorted summary_lt (insert_sorted s l).
Proof.
  induction l as [|h t IH]; intros Hs Hne; simpl.
  - repeat constructor.
  - inversion Hs as [|? ? Ht Hhd]; subst.
    destruct (summary_leb s h) eqn:Hsh.
    + constructor; [exact Hs|]. constructor.
      apply key_lt_of_leb; [exact Hsh|].
      intros E. apply (Hne h (or_introl eq_refl)). now symmetry.
    + constructor.
      * apply IH; [exact Ht|]. intros x Hx. apply Hne. now right.
      * destruct t as [|h' t']; simpl.
        -- constructor. exact Hsh.
        -- inversion Hhd as [|? ? Hhh']; subst.
           destruct (summary_leb s h'); constructor; [exact Hsh|exact Hhh'].
Qed.

(** Distinct keys are put in strictly increasing order. *)
Lemma sort_summaries_strict (l : list SummaryRow) :
  NoDup (map order_key l) -> Sorted summary_lt (sort_summaries l).
Proof.
  induction l as [|s l IH]; simpl; intros Hnd.
  - constructor.
  - inversion Hnd as [|? ? Hnotin Hnd']; subst.
    apply insert_sorted_strict; [now apply IH|].
    intros h Hh E. apply Hnotin. rewrite <- E.
    apply in_map. now apply sort_summaries_in.
Qed.

(** The keys of a sorted result are in strictly increasing order. *)
Lemma sorted_keys (l : list SummaryRow) :
  Sorted summary_lt l -> Sorted key_lt (map order_key l).
Proof.
  induction 1 as [|s l Hs IH Hhd]; simpl; constructor; [exact IH|].
  destruct Hhd; simpl; constructor. assumption.
Qed.

(** A strictly increasing list of keys is determined by its elements. *)
Lemma sorted_keys_unique (l l' : list (list string)) :
  Sorted key_lt l -> Sorted key_lt l' ->
  (forall x, In x l <-> In x l') -> l = l'.
Proof.
  intros Hl Hl' Heq.
  assert (E : eqlistA eq l l').
  { apply (SortA_equivlistA_eqlistA eq_equivalence key_lt_strorder); auto.
    - intros a a' -> b b' ->. reflexivity.
    - intros x. rewrite !InA_alt. split; intros [y [-> Hy]]; exists y;
        (split; [reflexivity|]); now apply Heq. }
  clear Hl Hl' Heq. induction E; [reflexivity|]. f_equal; assumption.
Qed.

End Collation.

End OrderFacts.

Module SummaryFacts.
Import Datetime UsagePersistenceManager SummarySpec OrderFacts.
Local Open Scope list_scope.

Lemma same_group_iff (a b : UsageFact) :
  same_group a b = true <-> group_key a = group_key b.
Proof.
  unfold same_group. destruct (list_eq_dec string_dec (group_key a) (group_key b));
    split; congruence.
Qed.

Lemma group_heads_in (h : UsageFact) (rows : list UsageFact) :
  In h (group_heads rows) -> In h rows.
Proof.
  induction rows as [|r rest IH]; simpl; [tauto|].
  intros [->|Hin]; [now left|]. right. apply IH.
  apply filter_In in Hin. tauto.
Qed.

Lemma group_heads_cover (r : UsageFact) (rows : list UsageFact) :
  In r rows -> exists h, In h (group_heads rows) /\ group_key h = group_key r.
Proof.
  induction rows as [|r0 rest IH]; simpl; [tauto|].
  intros [->|Hin]; [exists r; auto|].
  destruct (IH Hin) as [h [Hh Hk]].
  destruct (same_group r0 h) eqn:Hs.
  - exists r0. split; [now left|]. apply same_group_iff in Hs. congruence.
  - exists h. split; [|exact Hk]. right. apply filter_In. split; [exact Hh|].
    now rewrite Hs.
Qed.

(** Dropping rows keeps the group keys distinct. *)
Lemma filter_keeps_distinct_keys (keep : UsageFact -> bool) (rows : list UsageFact)
    (Hdistinct : NoDup (map group_key rows)) :
  NoDup (map group_key (filter keep rows)).
Proof.
  induction rows as [|r rows IH]; simpl; [constructor|].
  simpl in Hdistinct. apply NoDup_cons_iff in Hdistinct.
  destruct Hdistinct as [Hfresh Hrest].
  destruct (keep r); simpl; [|now apply IH].
  apply NoDup_cons; [|now apply IH].
  intros Hin. apply Hfresh. apply in_map_iff in Hin.
  destruct Hin as [x [Hkey Hx]]. apply filter_In in Hx.
  apply in_map_iff. exists x. tauto.
Qed.

Lemma group_heads_distinct (rows : list UsageFact) :
  NoDup (map group_key (group_heads rows)).
Proof.
  induction rows as [|r rest IH]; simpl; [constructor|].
  constructor; [|now apply filter_keeps_distinct_keys].
  intros Hin. apply in_map_iff in Hin. destruct Hin as [x [Hk Hin]].
  apply filter_In in Hin. destruct Hin as [_ Hneg].
  assert (Hs : same_group r x = true) by (apply same_group_iff; congruence).
  rewrite Hs in Hneg. discriminate.
Qed.

Lemma NoDup_map_finer {A B C : Type} (f : A -> B) (g : A -> C) (l : list A) :
  (forall a b, f a = f b -> g a = g b) -> NoDup (map g l) -> NoDup (map f l).
Proof.
  intros Hfg. induction l as [|x l IH]; simpl; intros Hnd; [constructor|].
  inversion Hnd as [|? ? Hnotin Hnd']; subst.
  constructor; [|now apply IH].
  intros Hin. apply Hnotin. apply in_map_iff in Hin. destruct Hin as [y [Hy Hin]].
  apply in_map_iff. exists y. split; [|exact Hin]. now apply Hfg.
Qed.

Lemma list4_inj {A : Type} (a b c d a' b' c' d' : A) :
  [a; b; c; d] = [a'; b'; c'; d'] -> a = a' /\ b = b' /\ c = c' /\ d = d'.
Proof. intros H. injection H. auto. Qed.

Lemma fact_key_group_key (a b : UsageFact) :
  fact_key a = fact_key b <-> group_key a = group_key b.
Proof.
  unfold fact_key, group_key, group_by. cbn [map column_value].
  split; intros H; apply list4_inj in H; destruct H as (H1 & H2 & H3 & H4); congruence.
Qed.

Section Query.

Context {db : Database}.

(** The summary of a group depends on its head through the group's key only. *)
Lemma summarize_same_key (rows : list UsageFact) (a b : UsageFact) :
  group_key a = group_key b -> summarize rows a = summarize rows b.
Proof.
  intros Hk. unfold summarize.
  assert (Hf : filter (same_group a) rows = filter (same_group b) rows).
  { apply filter_ext. intros x. unfold same_group. now rewrite Hk. }
  rewrite Hf. unfold group_key, group_by in Hk. cbn [map column_value] in Hk.
  apply list4_inj in Hk. destruct Hk as (Hu & Hm & Hc & Hd).
  rewrite Hu, Hm, Hc, Hd. reflexivity.
Qed.

(** A summary carries the grouping columns of its group. *)
Lemma summarize_key (rows : list UsageFact) (h : UsageFact) (s : SummaryRow) :
  summarize rows h = Ok s -> order_key s = fact_key h.
Proof.
  unfold summarize.
  destruct (aggregate (sum_total_cost _)) as [cost|]; cbn [bind]; [|discriminate].
  destruct (aggregate (sum_integer _)) as [tokens_in|]; cbn [bind]; [|discriminate].
  destruct (aggregate (sum_integer _)) as [tokens_out|]; cbn [bind]; [|discriminate].
  intros [= <-]. reflexivity.
Qed.

(** [collect] succeeds exactly when every element does. *)
Lemma collect_map {A B : Type} (f : A -> result Exception B) (l : list A) (xs : list B) :
  collect (map f l) = Ok xs -> Forall2 (fun a x => f a = Ok x) l xs.
Proof.
  revert xs. induction l as [|a l IH]; intros xs; cbn [map collect].
  - intros [= <-]. constructor.
  - destruct (f a) as [x|] eqn:Hx; cbn [bind]; [|discriminate].
    destruct (collect (map f l)) as [others|]; cbn [bind]; [|discriminate].
    intros [= <-]. constructor; [exact Hx|now apply IH].
Qed.

Lemma Forall2_in_right {A B : Type} (R : A -> B -> Prop) (l : list A) (xs : list B) (x : B) :
  Forall2 R l xs -> In x xs -> exists a, In a l /\ R a x.
Proof.
  induction 1 as [|a y l xs Hay _ IH]; [intros []|].
  intros [<-|Hin]; [exists a; split; [now left|exact Hay]|].
  destruct (IH Hin) as [a' [Ha' HR]]. exists a'. split; [now right|exact HR].
Qed.

Lemma Forall2_in_left {A B : Type} (R : A -> B -> Prop) (l : list A) (xs : list B) (a : A) :
  Forall2 R l xs -> In a l -> exists x, In x xs /\ R a x.
Proof.
  induction 1 as [|a' y l xs Hay _ IH]; [intros []|].
  intros [<-|Hin]; [exists y; split; [now left|exact Hay]|].
  destruct (IH Hin) as [x [Hx HR]]. exists x. split; [now right|exact HR].
Qed.

(** The keys of the summaries are those of the group heads, in order. *)
Lemma summaries_keys (rows heads : list UsageFact) (summaries : list SummaryRow) :
  Forall2 (fun h s => summarize rows h = Ok s) heads summaries ->
  map order_key summaries = map fact_key heads.
Proof.
  induction 1 as [|h s heads summaries Hs _ IH]; [reflexivity|].
  cbn [map]. now rewrite IH, (summarize_key rows h s Hs).
Qed.

(** The rows of a result: the summaries of the groups of admitted rows. *)
Lemma run_query_in (q : Query) (rows : list UsageFact) (result : list SummaryRow)
    (s : SummaryRow) :
  run_query q rows = Ok result ->
  (In s result <->
   exists r, In r rows /\ admits q r = true /\
             summarize (filter (admits q) rows) r = Ok s).
Proof.
  unfold run_query.
  destruct (collect _) as [summaries|] eqn:Hc; cbn [bind]; [|discriminate].
  intros [= <-]. apply collect_map in Hc. rewrite sort_summaries_in. split.
  - intros Hin. destruct (Forall2_in_right _ _ _ _ Hc Hin) as [h [Hh Hs]].
    apply group_heads_in in Hh. apply filter_In in Hh. exists h. tauto.
  - intros [r [Hr [Ha Hs]]].
    destruct (group_heads_cover r (filter (admits q) rows)) as [h [Hh Hk]].
    { apply filter_In. tauto. }
    destruct (Forall2_in_left _ _ _ _ Hc Hh) as [x [Hx Hsx]].
    rewrite (summarize_same_key _ h r Hk), Hs in Hsx. injection Hsx as <-. exact Hx.
Qed.

(** A result is strictly increasing in the ORDER BY key. *)
Lemma run_query_sorted (q : Query) (rows : list UsageFact) (result : list SummaryRow) :
  run_query q rows = Ok result -> Sorted summary_lt result.
Proof.
  unfold run_query.
  destruct (collect _) as [summaries|] eqn:Hc; cbn [bind]; [|discriminate].
  intros [= <-]. apply collect_map in Hc. apply sort_summaries_strict.
  rewrite (summaries_keys _ _ _ Hc).
  apply NoDup_map_finer with (g := group_key); [|apply group_heads_distinct].
  intros a b. apply fact_key_group_key.
Qed.

(** The keys of a result: those of the admitted rows. *)
Lemma run_query_keys (q : Query) (rows : list UsageFact) (result : list SummaryRow)
    (key : list string) :
  run_query q rows = Ok result ->
  (In key (map order_key result) <->
   exists r, In r rows /\ admits q r = true /\ fact_key r = key).
Proof.
  intros Hrun. rewrite in_map_iff. split.
  - intros [s [<- Hs]]. apply (run_query_in q rows result s Hrun) in Hs.
    destruct Hs as [r [Hr [Ha Hs]]]. exists r. split; [exact Hr|]. split; [exact Ha|].
    symmetry. exact (summarize_key _ r s Hs).
  - intros [r [Hr [Ha <-]]]. revert Hrun. unfold run_query.
    destruct (collect _) as [summaries|] eqn:Hc; cbn [bind]; [|discriminate].
    intros [= <-]. apply collect_map in Hc.
    destruct (group_heads_cover r (filter (admits q) rows)) as [h [Hh Hk]].
    { apply filter_In. tauto. }
    destruct (Forall2_in_left _ _ _ _ Hc Hh) as [x [Hx Hsx]].
    exists x. split; [|now apply sort_summaries_in].
    rewrite (summarize_key _ h x Hsx). now apply fact_key_group_key.
Qed.

(** The sequence of keys of a result does not depend on the order of the
    table's rows. *)
Lemma run_query_keys_permutation (q : Query) (rows rows' : list UsageFact)
    (result result' : list SummaryRow) :
  Permutation rows rows' ->
  run_query q rows = Ok result -> run_query q rows' = Ok result' ->
  map order_key result' = map order_key result.
Proof.
  intros Hp Hrun Hrun'. apply sorted_keys_unique.
  - apply sorted_keys. exact (run_query_sorted q rows' result' Hrun').
  - apply sorted_keys. exact (run_query_sorted q rows result Hrun).
  - intros key. rewrite (run_query_keys q rows' result' key Hrun'),
      (run_query_keys q rows result key Hrun).
    split; intros [r [Hr H]]; exists r; (split; [|exact H]).
    + eapply Permutation_in; [symmetry; exact Hp|exact Hr].
    + eapply Permutation_in; [exact Hp|exact Hr].
Qed.

End Query.

End SummaryFacts.

Module DateFacts.
Import Dec Datetime SummarySpec OrderFacts.
Local Open Scope Z_scope.

Lemma compare_app (s1 s2 t1 t2 : string) :
  String.length s1 = String.length s2 ->
  String.compare (s1 ++ t1) (s2 ++ t2)
  = match String.compare s1 s2 with
    | Eq => String.compare t1 t2
    | c => c
    end.
Proof.
  revert s2. induction s1 as [|a s1 IH]; intros [|b s2]; simpl; try discriminate.
  - reflexivity.
  - intros [= Hlen]. destruct (Ascii.compare a b); auto.
Qed.

Lemma pad_digits_length (w : nat) (n : Z) : String.length (pad_digits w n) = w.
Proof.
  revert n. induction w as [|w IH]; intros n; simpl; [reflexivity|].
  assert (Happ : forall s t, String.length (s ++ t) = (String.length s + String.length t)%nat).
  { induction s; simpl; auto. }
  rewrite Happ, IH. simpl. lia.
Qed.

Lemma digit_char_compare (x y : Z) :
  0 <= x < 10 -> 0 <= y < 10 ->
  Ascii.compare (digit_char x) (digit_char y) = Z.compare x y.
Proof.
  intros Hx Hy.
  assert (Ex : x = 0 \/ x = 1 \/ x = 2 \/ x = 3 \/ x = 4 \/ x = 5 \/ x = 6 \/ x = 7
               \/ x = 8 \/ x = 9) by lia.
  assert (Ey : y = 0 \/ y = 1 \/ y = 2 \/ y = 3 \/ y = 4 \/ y = 5 \/ y = 6 \/ y = 7
               \/ y = 8 \/ y = 9) by lia.
  repeat (destruct Ex as [->|Ex]); try subst x;
    repeat (destruct Ey as [->|Ey]); try subst y; reflexivity.
Qed.

Lemma compare_by_digits (a b : Z) :
  0 <= a -> 0 <= b ->
  Z.compare a b
  = match Z.compare (a / 10) (b / 10) with
    | Eq => Z.compare (a mod 10) (b mod 10)
    | c => c
    end.
Proof.
  intros Ha Hb.
  pose proof (Z.div_mod a 10 ltac:(lia)). pose proof (Z.mod_pos_bound a 10 ltac:(lia)).
  pose proof (Z.div_mod b 10 ltac:(lia)). pose proof (Z.mod_pos_bound b 10 ltac:(lia)).
  destruct (Z.compare_spec (a / 10) (b / 10)) as [E|L|G].
  - destruct (Z.compare_spec (a mod 10) (b mod 10));
      [apply Z.compare_eq_iff|apply Z.compare_lt_iff|apply Z.compare_gt_iff]; lia.
  - apply Z.compare_lt_iff. lia.
  - apply Z.compare_gt_iff. lia.
Qed.

(** Zero-padded numbers of the same width sort as the numbers do. *)
Lemma pad_digits_compare (w : nat) (a b : Z) :
  0 <= a < 10 ^ Z.of_nat w -> 0 <= b < 10 ^ Z.of_nat w ->
  String.compare (pad_digits w a) (pad_digits w b) = Z.compare a b.
Proof.
  revert a b. induction w as [|w IH]; intros a b Ha Hb.
  - simpl in *. assert (a = 0) by lia. assert (b = 0) by lia. subst. reflexivity.
  - cbn [pad_digits]. rewrite compare_app by now rewrite !pad_digits_length.
    replace (Z.of_nat (S w)) with (Z.of_nat w + 1) in Ha, Hb by lia.
    rewrite Z.pow_add_r in Ha, Hb by lia. change (10 ^ 1) with 10 in Ha, Hb.
    rewrite IH.
    + rewrite (compare_by_digits a b) by lia.
      destruct (Z.compare (a / 10) (b / 10)); try reflexivity.
      cbn [String.compare].
      rewrite digit_char_compare by (apply Z.mod_pos_bound; lia).
      destruct (Z.compare (a mod 10) (b mod 10)); reflexivity.
    + split; [apply Z.div_pos; lia|apply Z.div_lt_upper_bound; lia].
    + split; [apply Z.div_pos; lia|apply Z.div_lt_upper_bound; lia].
Qed.

Lemma days_in_month_le_31 (y m : Z) : days_in_month y m <= 31.
Proof.
  unfold days_in_month. destruct (m =? 2); [destruct (is_leap y); lia|].
  destruct ((m =? 4) || (m =? 6) || (m =? 9) || (m =? 11)); lia.
Qed.

(** On valid dates the text [YYYY-MM-DD] sorts as the calendar does. *)
Lemma format_date_before (a b : datetime) :
  valid a -> valid b -> date_before a b -> str_lt (format_date a) (format_date b).
Proof.
  intros (Hya & Hma & Hda & _) (Hyb & Hmb & Hdb & _) Hbefore.
  pose proof (days_in_month_le_31 (year a) (month a)).
  pose proof (days_in_month_le_31 (year b) (month b)).
  unfold MAXYEAR in *. unfold str_lt, format_date.
  rewrite compare_app by now rewrite !pad_digits_length.
  rewrite pad_digits_compare by (simpl; lia).
  rewrite (compare_app "-" "-") by reflexivity. cbn [String.compare Ascii.compare].
  change (BinNat.N.compare (N_of_ascii "-") (N_of_ascii "-")) with Eq. cbn iota.
  rewrite compare_app by now rewrite !pad_digits_length.
  rewrite pad_digits_compare by (simpl; lia).
  rewrite (compare_app "-" "-") by reflexivity. cbn [String.compare Ascii.compare].
  change (BinNat.N.compare (N_of_ascii "-") (N_of_ascii "-")) with Eq. cbn iota.
  rewrite pad_digits_compare by (simpl; lia).
  destruct Hbefore as [Hy|[Hy [Hm|[Hm Hd]]]].
  - apply Z.compare_lt_iff in Hy. now rewrite Hy.
  - rewrite Hy, Z.compare_refl. apply Z.compare_lt_iff in Hm. now rewrite Hm.
  - rewrite Hy, Hm, !Z.compare_refl. now apply Z.compare_lt_iff.
Qed.

(** The day after a valid date other than 9999-12-31 exists, and every
    time on the date itself is before it. *)
Lemma add_one_day_defined (d : datetime) :
  valid d -> year d < 9999 \/ month d < 12 \/ day d < 31 ->
  exists next_day,
    add_one_day d = Ok next_day /\
    forall t : datetime,
      year t = year d -> month t = month d -> day t = day d ->
      Datetime.ltb t next_day = true.
Proof.
  intros (Hy & Hm & Hd & _) Hnot_last. unfold add_one_day, MAXYEAR in *.
  assert (Hlt : forall t y m dd h mi s us,
             year t < y \/ (year t = y /\ (month t < m \/ (month t = m /\ day t < dd))) ->
             Datetime.ltb t (mkDatetime y m dd h mi s us) = true).
  { intros t y m dd h mi s us Hc. unfold Datetime.ltb, fields. cbn [fields_ltb year month day].
    destruct Hc as [H|[E [H|[E' H]]]].
    - apply Z.ltb_lt in H. now rewrite H.
    - rewrite E, Z.ltb_irrefl, Z.eqb_refl. cbn [orb andb].
      apply Z.ltb_lt in H. now rewrite H.
    - rewrite E, E', !Z.ltb_irrefl, !Z.eqb_refl. cbn [orb andb].
      apply Z.ltb_lt in H. now rewrite H. }
  destruct (Z.ltb_spec (day d) (days_in_month (year d) (month d))) as [Hday|Hday].
  - eexists. split; [reflexivity|]. intros t Ey Em Ed. apply Hlt. lia.
  - destruct (Z.ltb_spec (month d) 12) as [Hmon|Hmon].
    + eexists. split; [reflexivity|]. intros t Ey Em Ed. apply Hlt. lia.
    + destruct (Z.ltb_spec (year d) 9999) as [Hyear|Hyear].
      * eexists. split; [reflexivity|]. intros t Ey Em Ed. apply Hlt. lia.
      * exfalso. assert (month d = 12) by lia.
        assert (days_in_month (year d) (month d) = 31).
        { unfold days_in_month. replace (month d) with 12 by lia. reflexivity. }
        lia.
Qed.

End DateFacts.

Module SummaryClaims.
Import PyStr Datetime UsagePersistenceManager.
Import SummarySpec Samples OrderFacts SummaryFacts DateFacts.
Local Open Scope list_scope.

Section Query.

Context {db : Database}.

Lemma summary_lt_before (a b : SummaryRow) : summary_lt a b -> summary_before a b.
Proof.
  unfold summary_lt, summary_leb, order_key, order_by, summary_before.
  cbn [map summary_column key_leb].
  destruct (text_compare (summary_user_email b) (summary_user_email a)) eqn:Hu;
    try discriminate.
  2:{ intros _. left. now apply text_compare_gt_lt. }
  apply text_compare_eq in Hu.
  destruct (text_compare (summary_date b) (summary_date a)) eqn:Hd; try discriminate.
  2:{ intros _. right. split; [congruence|]. left. now apply text_compare_gt_lt. }
  apply text_compare_eq in Hd.
  destruct (text_compare (summary_model b) (summary_model a)) eqn:Hm; try discriminate.
  2:{ intros _. right. split; [congruence|]. right. split; [congruence|].
      left. now apply text_compare_gt_lt. }
  apply text_compare_eq in Hm.
  destruct (text_compare (summary_currency b) (summary_currency a)) eqn:Hc;
    try discriminate.
  intros _. right. split; [congruence|]. right. split; [congruence|].
  right. split; [congruence|]. now apply text_compare_gt_lt.
Qed.

Lemma run_query_strongly_sorted (q : Query) (rows : list UsageFact)
    (result : list SummaryRow) :
  run_query q rows = Ok result -> StronglySorted summary_lt result.
Proof.
  intros Hrun. apply Sorted_StronglySorted; [|exact (run_query_sorted q rows result Hrun)].
  intros a b c. apply (@StrictOrder_Transitive _ _ summary_lt_strorder).
Qed.

Lemma strongly_sorted_weaken {A : Type} (R S : A -> A -> Prop) (l : list A) :
  (forall a b, R a b -> S a b) -> StronglySorted R l -> StronglySorted S l.
Proof.
  intros HRS. induction 1 as [|a l Hs IH Hall]; constructor; [exact IH|].
  eapply Forall_impl; [|exact Hall]. intros b. apply HRS.
Qed.

(** In a strictly sorted list the smaller of two members stands first. *)
Lemma sorted_members_in_order (l : list SummaryRow) (a b : SummaryRow) :
  StronglySorted summary_lt l -> In a l -> In b l -> summary_lt a b ->
  exists l1 l2 l3, l = l1 ++ a :: l2 ++ b :: l3.
Proof.
  intros Hs. induction Hs as [|h t Hs IH Hall]; intros Ha Hb Hlt; [destruct Ha|].
  rewrite Forall_forall in Hall.
  destruct Ha as [->|Ha].
  - destruct Hb as [->|Hb].
    + exfalso. exact (StrictOrder_Irreflexive _ Hlt).
    + apply in_split in Hb. destruct Hb as [l2 [l3 ->]]. now exists [], l2, l3.
  - destruct Hb as [->|Hb].
    + exfalso. apply (StrictOrder_Irreflexive a).
      etransitivity; [exact Hlt|]. now apply Hall.
    + destruct (IH Ha Hb Hlt) as (l1 & l2 & l3 & ->). now exists (h :: l1), l2, l3.
Qed.

End Query.

(** The WHERE clause built for the arguments. *)
Lemma build_query_conditions (user_email : option string)
    (start_date : option datetime) (end_date next_day : datetime) :
  add_one_day end_date = Ok next_day ->
  build_query user_email start_date (Some end_date)
  = Ok (mkQuery
          ((match user_email with
            | Some u => if truthy u then [UserEmailEq] else []
            | None => []
            end)
           ++ (match start_date with Some _ => [TimestampGe] | None => [] end)
           ++ [TimestampLt])
          (mkParams
             (match user_email with
              | Some u => if truthy u then Some u else None
              | None => None
              end)
             start_date (Some next_day))).
Proof.
  intros Hnext. unfold build_query. rewrite Hnext.
  destruct user_email as [u|]; [destruct (truthy u)|]; destruct start_date; reflexivity.
Qed.

Lemma admits_conditions (user_email : option string) (start_date : option datetime)
    (next_day : datetime) (row : UsageFact) :
  admits
    (mkQuery
       ((match user_email with
         | Some u => if truthy u then [UserEmailEq] else []
         | None => []
         end)
        ++ (match start_date with Some _ => [TimestampGe] | None => [] end)
        ++ [TimestampLt])
       (mkParams
          (match user_email with
           | Some u => if truthy u then Some u else None
           | None => None
           end)
          start_date (Some next_day))) row = true
  <->
  (forall u, user_email = Some u -> truthy u = true ->
             UsagePersistenceManager.user_email row = u) /\
  (forall s, start_date = Some s -> Datetime.geb (timestamp row) s = true) /\
  Datetime.ltb (timestamp row) next_day = true.
Proof.
  unfold admits. cbn [where_conditions params]. rewrite !forallb_app.
  rewrite !andb_true_iff. cbn [forallb eval_condition param_end_date].
  rewrite andb_true_r.
  assert (Hu : forallb
                 (eval_condition
                    (mkParams
                       (match user_email with
                        | Some u => if truthy u then Some u else None
                        | None => None
                        end) start_date (Some next_day)) row)
                 (match user_email with
                  | Some u => if truthy u then [UserEmailEq] else []
                  | None => []
                  end) = true
               <-> (forall u, user_email = Some u -> truthy u = true ->
                              UsagePersistenceManager.user_email row = u)).
  { destruct user_email as [u|]; [destruct (truthy u) eqn:Ht|];
      cbn [forallb eval_condition param_user_email].
    - rewrite andb_true_r, String.eqb_eq. split.
      + intros E u' [= <-] _. exact E.
      + intros H. now apply H.
    - split; [|reflexivity]. intros _ u' [= <-] Ht'. congruence.
    - split; [|reflexivity]. intros _ u' [=]. }
  assert (Hs : forallb
                 (eval_condition
                    (mkParams
                       (match user_email with
                        | Some u => if truthy u then Some u else None
                        | None => None
                        end) start_date (Some next_day)) row)
                 (match start_date with Some _ => [TimestampGe] | None => [] end) = true
               <-> (forall s, start_date = Some s ->
                              Datetime.geb (timestamp row) s = true)).
  { destruct start_date as [s|]; cbn [forallb eval_condition param_start_date].
    - rewrite andb_true_r. split.
      + intros E s' [= <-]. exact E.
      + intros H. now apply H.
    - split; [|reflexivity]. intros _ s' [=]. }
  rewrite Hu, Hs. reflexivity.
Qed.

(** The end-date filter away from the last representable day: for a valid
    end date other than 9999-12-31, the day after exists, the WHERE clause
    holds the condition [timestamp < end_date + 1 day], and a row is
    admitted exactly when it passes the user and start-date conditions
    asked for and its timestamp is strictly before that bound; every
    timestamp on the end date's calendar day is; a result holds exactly the
    summaries of the groups of admitted rows. *)
Lemma end_date_filter_inclusive {db : Database}
    (usage_costs : list UsageFact) (user_email : option string)
    (start_date : option datetime) (end_date : datetime) :
  valid end_date ->
  (year end_date < 9999 \/ month end_date < 12 \/ day end_date < 31)%Z ->
  exists next_day q,
    add_one_day end_date = Ok next_day /\
    build_query user_email start_date (Some end_date) = Ok q /\
    get_usage_stats usage_costs user_email start_date (Some end_date)
    = run_query q usage_costs /\
    In TimestampLt (where_conditions q) /\
    param_end_date (params q) = Some next_day /\
    (forall row,
        admits q row = true <->
        (forall u, user_email = Some u -> truthy u = true ->
                   UsagePersistenceManager.user_email row = u) /\
        (forall s, start_date = Some s -> Datetime.geb (timestamp row) s = true) /\
        Datetime.ltb (timestamp row) next_day = true) /\
    (forall t, year t = year end_date -> month t = month end_date ->
               day t = day end_date -> Datetime.ltb t next_day = true) /\
    (forall result s,
        run_query q usage_costs = Ok result ->
        (In s result <->
         exists row, In row usage_costs /\ admits q row = true /\
                     summarize (filter (admits q) usage_costs) row = Ok s)).
Proof.
  intros Hvalid Hnot_last.
  destruct (add_one_day_defined end_date Hvalid Hnot_last) as [next_day [Hnext Hday]].
  pose proof (build_query_conditions user_email start_date end_date next_day Hnext)
    as Hbuild.
  eexists next_day, _. split; [exact Hnext|]. split; [exact Hbuild|].
  split; [unfold get_usage_stats; rewrite Hbuild; reflexivity|].
  split; [cbn [where_conditions]; rewrite !in_app_iff; simpl; tauto|].
  split; [reflexivity|].
  split; [intros row; apply admits_conditions|].
  split; [exact Hday|]. intros result s. apply run_query_in.
Qed.

(** The row of 23:59 on the end date is in the result. *)
Example end_date_includes_last_minute :
  get_usage_stats [sample_fact "a@example.com" (mkDatetime 2024 1 5 23 59 0 0) 750000]
    None None (Some (mkDatetime 2024 1 5 0 0 0 0))
  = Ok [mkSummaryRow "a@example.com" "openai.gpt-4o" "USD" "2024-01-05" 750000%Z
          1000 500].
Proof. vm_compute. reflexivity. Qed.

(** C6.  The code misses the claim on the last day [datetime] can hold:
    on an end date of 9999-12-31, a valid date, [end_date +
    timedelta(days=1)] raises OverflowError before the WHERE clause is
    built, whatever the table, the user and the start date are; no query
    is run and no row of that day is returned. *)
Theorem end_date_on_last_day_raises :
  valid (mkDatetime 9999 12 31 0 0 0 0) /\
  forall {db : Database} (usage_costs : list UsageFact) (user_email : option string)
         (start_date : option datetime) (h mi s us : Z),
    get_usage_stats usage_costs user_email start_date
      (Some (mkDatetime 9999 12 31 h mi s us))
    = Raise OverflowError.
Proof.
  split.
  - unfold valid, MAXYEAR. cbn [year month day hour minute second microsecond].
    change (days_in_month 9999 12) with 31%Z. lia.
  - intros db usage_costs user_email start_date h mi s us.
    unfold get_usage_stats, build_query.
    destruct user_email as [u|]; [destruct (truthy u)|]; destruct start_date;
      reflexivity.
Qed.

(** The row the claim speaks of, on that day. *)
Example end_date_last_day_row_lost :
  get_usage_stats [sample_fact "a@example.com" (mkDatetime 9999 12 31 23 59 0 0) 750000]
    None None (Some (mkDatetime 9999 12 31 0 0 0 0))
  = Raise OverflowError.
Proof. vm_compute. reflexivity. Qed.

(** The query is run whenever the end date, if given, has a next day. *)
Lemma get_usage_stats_returns {db : Database}
    (usage_costs : list UsageFact) (user_email : option string)
    (start_date end_date : option datetime) :
  (forall e, end_date = Some e -> exists next_day, add_one_day e = Ok next_day) ->
  exists q,
    build_query user_email start_date end_date = Ok q /\
    get_usage_stats usage_costs user_email start_date end_date
    = run_query q usage_costs.
Proof.
  intros Hnext. unfold get_usage_stats.
  destruct end_date as [e|].
  - destruct (Hnext e eq_refl) as [next_day Hn].
    rewrite (build_query_conditions user_email start_date e next_day Hn).
    eexists. split; reflexivity.
  - unfold build_query.
    destruct user_email as [u|]; [destruct (truthy u)|]; destruct start_date;
      eexists; split; reflexivity.
Qed.

(** C7. The rows of a usage summary are in strictly increasing order of
    user email, then date, then model, then currency, texts being compared
    as the database does; the sequence of these keys is the same for every
    order of the table's rows; and of two admitted rows of one user on
    valid dates, the summary of the earlier date stands before the summary
    of the later one. *)
Theorem summary_ordered {db : Database}
    (usage_costs : list UsageFact) (user_email : option string)
    (start_date end_date : option datetime) (result : list SummaryRow) :
  get_usage_stats usage_costs user_email start_date end_date = Ok result ->
  StronglySorted summary_before result /\
  (forall usage_costs' result',
      Permutation usage_costs usage_costs' ->
      get_usage_stats usage_costs' user_email start_date end_date = Ok result' ->
      map order_key result' = map order_key result) /\
  (forall q f1 f2,
      build_query user_email start_date end_date = Ok q ->
      In f1 usage_costs -> In f2 usage_costs ->
      admits q f1 = true -> admits q f2 = true ->
      valid (timestamp f1) -> valid (timestamp f2) ->
      UsagePersistenceManager.user_email f1 = UsagePersistenceManager.user_email f2 ->
      date_before (timestamp f1) (timestamp f2) ->
      exists l1 s1 l2 s2 l3,
        result = l1 ++ s1 :: l2 ++ s2 :: l3 /\
        order_key s1 = fact_key f1 /\ order_key s2 = fact_key f2).
Proof.
  unfold get_usage_stats.
  destruct (build_query user_email start_date end_date) as [q|e] eqn:Hbuild;
    cbn [bind]; [|discriminate].
  intros Hrun. split; [|split].
  - apply strongly_sorted_weaken with (R := summary_lt);
      [apply summary_lt_before|exact (run_query_strongly_sorted q _ _ Hrun)].
  - intros usage_costs' result' Hp Hrun'.
    exact (run_query_keys_permutation q usage_costs usage_costs' result result'
             Hp Hrun Hrun').
  - intros q' f1 f2 [= <-] Hin1 Hin2 Ha1 Ha2 Hv1 Hv2 Huser Hdate.
    assert (Hk1 : In (fact_key f1) (map order_key result))
      by (apply (run_query_keys q usage_costs result _ Hrun); now exists f1).
    assert (Hk2 : In (fact_key f2) (map order_key result))
      by (apply (run_query_keys q usage_costs result _ Hrun); now exists f2).
    apply in_map_iff in Hk1, Hk2.
    destruct Hk1 as [s1 [Hs1 Hin_s1]]. destruct Hk2 as [s2 [Hs2 Hin_s2]].
    destruct (sorted_members_in_order result s1 s2) as (l1 & l2 & l3 & ->).
    + exact (run_query_strongly_sorted q _ _ Hrun).
    + exact Hin_s1.
    + exact Hin_s2.
    + pose proof (format_date_before _ _ Hv1 Hv2 Hdate) as Hlt.
      unfold str_lt in Hlt. rewrite <- text_compare_dates in Hlt.
      unfold summary_lt, summary_leb. rewrite Hs1, Hs2. unfold fact_key.
      cbn [key_leb]. rewrite Huser, text_compare_refl.
      rewrite (text_compare_antisym (format_date (timestamp f1))
                 (format_date (timestamp f2))), Hlt.
      reflexivity.
    + exists l1, s1, l2, s2, l3. auto.
Qed.

Lemma summary_ordered_witness :
  get_usage_stats
    [sample_fact "b@example.com" (mkDatetime 2024 1 6 9 0 0 0) 300000;
     sample_fact "a@example.com" (mkDatetime 2024 1 6 10 30 0 0) 200000;
     sample_fact "a@example.com" (mkDatetime 2024 1 5 23 59 0 0) 750000;
     sample_fact "a@example.com" (mkDatetime 2024 1 6 8 15 0 0) 100000]
    None None None
  = Ok [mkSummaryRow "a@example.com" "openai.gpt-4o" "USD" "2024-01-05" 750000%Z
          1000 500;
        mkSummaryRow "a@example.com" "openai.gpt-4o" "USD" "2024-01-06" 300000%Z
          2000 1000;
        mkSummaryRow "b@example.com" "openai.gpt-4o" "USD" "2024-01-06" 300000%Z
          1000 500] /\
  StronglySorted summary_before
    [mkSummaryRow "a@example.com" "openai.gpt-4o" "USD" "2024-01-05" 750000%Z 1000 500;
     mkSummaryRow "a@example.com" "openai.gpt-4o" "USD" "2024-01-06" 300000%Z 2000 1000;
     mkSummaryRow "b@example.com" "openai.gpt-4o" "USD" "2024-01-06" 300000%Z 1000 500].
Proof.
  assert (H : get_usage_stats
    [sample_fact "b@example.com" (mkDatetime 2024 1 6 9 0 0 0) 300000;
     sample_fact "a@example.com" (mkDatetime 2024 1 6 10 30 0 0) 200000;
     sample_fact "a@example.com" (mkDatetime 2024 1 5 23 59 0 0) 750000;
     sample_fact "a@example.com" (mkDatetime 2024 1 6 8 15 0 0) 100000]
    None None None
  = Ok [mkSummaryRow "a@example.com" "openai.gpt-4o" "USD" "2024-01-05" 750000%Z
          1000 500;
        mkSummaryRow "a@example.com" "openai.gpt-4o" "USD" "2024-01-06" 300000%Z
          2000 1000;
        mkSummaryRow "b@example.com" "openai.gpt-4o" "USD" "2024-01-06" 300000%Z
          1000 500])
    by (vm_compute; reflexivity).
  split; [exact H|].
  exact (proj1 (summary_ordered _ None None None _ H)).
Defined.

End SummaryClaims.

(** * Further properties of the pricing resolver *)

Module ResolverExtras.
Import PyStr ModelCostManager ResolverSpec Samples ResolverFacts MoreSpec.
Local Open Scope string_scope.
Local Open Scope list_scope.

(** The two shapes of what [get_model_data] returns. *)
Lemma get_model_data_cases {str : StrMethods}
    (table : PricingTable) (model : string) :
  (get_model_data table model = ("unknown", None)) \/
  (exists record,
      get_model_data table model = (fst (get_model_data table model), Some record) /\
      In (fst (get_model_data table model), record) table /\
      get table (fst (get_model_data table model)) = Some record).
Proof.
  unfold get_model_data.
  destruct (get table (strip (lower model))) as [record|] eqn:G.
  - right. unfold get_model_data_log. rewrite G. cbn [fst]. exists record.
    split; [reflexivity|]. split; [now apply get_some_in|exact G].
  - rewrite get_model_data_log_search by exact G.
    destruct (_find_best_match table (strip (lower model)) false) as [key|] eqn:F1.
    + right. cbn [fst].
      destruct (get_in_keys table key (find_best_match_in_keys _ _ _ _ F1)) as [r Hr].
      exists r. rewrite Hr. split; [reflexivity|]. split; [now apply get_some_in|reflexivity].
    + destruct (_find_best_match table (strip (lower model)) true) as [key|] eqn:F2.
      * right. cbn [fst].
        destruct (get_in_keys table key (find_best_match_in_keys _ _ _ _ F2)) as [r Hr].
        exists r. rewrite Hr. split; [reflexivity|].
        split; [now apply get_some_in|reflexivity].
      * left. reflexivity.
Qed.

(** X2. What resolution returns is consistent with what it prints: either
    the key ["unknown"] with the empty record, the last line printed being
    the not-found line; or a key together with the record the table holds
    for it, the last line printed naming that key as the exact or the best
    match.  A key is never returned with the empty record. *)
Theorem resolution_returns_table_record {str : StrMethods}
    (table : PricingTable) (model : string) :
  (get_model_data_log table model
   = (("unknown", None),
      [SearchingBestMatch (strip (lower model));
       TryingWithoutPrefix (_normalize_model_name (strip (lower model)) true);
       NotFound (strip (lower model))])) \/
  (exists key record,
      get_model_data table model = (key, Some record) /\
      In (key, record) table /\
      get table key = Some record /\
      (last (snd (get_model_data_log table model)) (NotFound EmptyString)
       = UsingExactMatch key \/
       last (snd (get_model_data_log table model)) (NotFound EmptyString)
       = UsingBestMatch key)).
Proof.
  unfold get_model_data.
  destruct (get table (strip (lower model))) as [record|] eqn:G.
  - right. unfold get_model_data_log. rewrite G. cbn [fst snd last].
    exists (strip (lower model)), record.
    split; [reflexivity|]. split; [now apply get_some_in|]. split; [exact G|now left].
  - rewrite get_model_data_log_search by exact G.
    destruct (_find_best_match table (strip (lower model)) false) as [key|] eqn:F1.
    + right. cbn [fst snd last].
      destruct (get_in_keys table key
                  (find_best_match_in_keys _ _ _ _ F1))
        as [r Hr].
      exists key, r. rewrite Hr. split; [reflexivity|].
      split; [now apply get_some_in|]. split; [reflexivity|now right].
    + destruct (_find_best_match table (strip (lower model)) true) as [key|] eqn:F2.
      * right. cbn [fst snd last].
        destruct (get_in_keys table key
                    (find_best_match_in_keys _ _ _ _ F2))
          as [r Hr].
        exists key, r. rewrite Hr. split; [reflexivity|].
        split; [now apply get_some_in|]. split; [reflexivity|now right].
      * left. reflexivity.
Qed.
Lemma prefix_of_empty (p : string) : String.prefix p EmptyString = true -> p = EmptyString.
Proof. destruct p; [reflexivity|discriminate]. Qed.

(** X3. A requested name that lowercases and trims to the empty text, as
    an empty or all-white-space name does, resolves to ["unknown"] with the
    empty record, after both searches, in any table that has no empty
    key. *)
Theorem blank_name_is_unknown {str : StrMethods}
    (table : PricingTable) (model : string) :
  lower EmptyString = EmptyString ->
  strip (lower model) = EmptyString ->
  ~ In EmptyString (keys table) ->
  get_model_data_log table model
  = (("unknown", None),
     [SearchingBestMatch EmptyString; TryingWithoutPrefix EmptyString;
      NotFound EmptyString]).
Proof.
  intros Hlower Hq Hne.
  assert (Hnorm : forall b, _normalize_model_name EmptyString b = EmptyString).
  { intros b. unfold _normalize_model_name. rewrite Hlower. now destruct b. }
  rewrite get_model_data_log_search; rewrite Hq.
  - rewrite !find_best_match_none, Hnorm; [reflexivity| |];
      intros k _ Hc; unfold candidate, startswith in Hc; rewrite Hnorm in Hc;
      apply prefix_of_empty in Hc; unfold key_length; now rewrite Hc.
  - now apply get_none_iff.
Qed.

Lemma blank_name_is_unknown_witness :
  lower EmptyString = EmptyString /\
  strip (lower "   ") = EmptyString /\
  ~ In EmptyString (keys pricing_data) /\
  get_model_data pricing_data "   " = ("unknown", None).
Proof.
  assert (H : ~ In EmptyString (keys pricing_data))
    by (apply not_in_by_eqb; vm_compute; reflexivity).
  assert (Hlower : lower EmptyString = EmptyString) by reflexivity.
  assert (Hname : strip (lower "   ") = EmptyString) by reflexivity.
  split; [exact Hlower|]. split; [exact Hname|]. split; [exact H|].
  unfold get_model_data.
  now rewrite (blank_name_is_unknown pricing_data "   " Hlower Hname H).
Defined.

(** X5. The key a resolution returns resolves to itself: in a table whose
    keys are lowercase and free of surrounding white space, resolving the
    returned key again gives the same key and record, by an exact match. *)
Theorem resolved_key_is_stable {str : StrMethods}
    (table : PricingTable) (model key : string) (record : PricingRecord) :
  (forall k, In k (keys table) -> strip (lower k) = k) ->
  get_model_data table model = (key, Some record) ->
  get_model_data_log table key = ((key, Some record), [UsingExactMatch key]).
Proof.
  intros Hkeys Hres.
  destruct (get_model_data_cases table model) as [Hunknown|[r (Hr & Hin & Hget)]].
  - congruence.
  - rewrite Hres in Hr, Hin, Hget. cbn [fst] in Hr, Hin, Hget.
    injection Hr as <-.
    assert (Hk : strip (lower key) = key).
    { apply Hkeys. unfold keys. apply in_map_iff. now exists (key, record). }
    unfold get_model_data_log. rewrite Hk, Hget. reflexivity.
Qed.

Lemma pricing_data_keys_normal (k : string) :
  In k (keys pricing_data) -> strip (lower k) = k.
Proof.
  unfold keys, pricing_data. cbn [map fst]. intros H.
  repeat (destruct H as [<-|H]; [vm_compute; reflexivity|]). destruct H.
Qed.

Lemma resolved_key_is_stable_witness :
  get_model_data pricing_data "OpenAI.GPT-4o-2024-05-13-preview"
  = ("openai.gpt-4o-2024-05-13", Some (mkPricing (price 5 (-3)) (price 15 (-3)) "USD")) /\
  get_model_data pricing_data "openai.gpt-4o-2024-05-13"
  = ("openai.gpt-4o-2024-05-13", Some (mkPricing (price 5 (-3)) (price 15 (-3)) "USD")).
Proof.
  assert (H : get_model_data pricing_data "OpenAI.GPT-4o-2024-05-13-preview"
              = ("openai.gpt-4o-2024-05-13",
                 Some (mkPricing (price 5 (-3)) (price 15 (-3)) "USD")))
    by (vm_compute; reflexivity).
  split; [exact H|]. unfold get_model_data at 1.
  now rewrite (resolved_key_is_stable pricing_data _ _ _ pricing_data_keys_normal H).
Defined.

End ResolverExtras.

Module ResolverOrder.
Import PyStr ModelCostManager ResolverSpec Samples ResolverFacts MoreSpec.
Local Open Scope string_scope.
Local Open Scope list_scope.

(** Two prefixes of one text that have the same length are equal. *)
Lemma prefix_same_length (p p' q : string) :
  String.prefix p q = true -> String.prefix p' q = true ->
  String.length p = String.length p' -> p = p'.
Proof.
  revert p p'. induction q as [|c q IH]; intros [|a p] [|a' p']; simpl;
    try discriminate; try reflexivity.
  destruct (ascii_dec a c) as [->|]; [|discriminate].
  destruct (ascii_dec a' c) as [->|]; [|discriminate].
  intros Hp Hp' [= Hlen]. f_equal. now apply IH.
Qed.

Lemma in_map_injective {A B : Type} (f : A -> B) (l : list A) (a b : A) :
  NoDup (map f l) -> In a l -> In b l -> f a = f b -> a = b.
Proof.
  induction l as [|x l IH]; simpl; [tauto|].
  intros Hnd. apply NoDup_cons_iff in Hnd. destruct Hnd as [Hfresh Hrest].
  intros [->|Ha] [->|Hb] E; auto.
  - exfalso. apply Hfresh. rewrite E. now apply in_map.
  - exfalso. apply Hfresh. rewrite <- E. now apply in_map.
Qed.

(** What [_find_best_match] returns, in either case. *)
Lemma find_best_match_cases {str : StrMethods}
    (table : PricingTable) (strip_prefix : bool) (query : string) :
  (_find_best_match table query strip_prefix = None /\
   forall k, In k (keys table) -> candidate strip_prefix query k ->
             key_length strip_prefix k = O)
  \/
  (exists best,
      _find_best_match table query strip_prefix = Some best /\
      In best (keys table) /\ candidate strip_prefix query best /\
      (0 < key_length strip_prefix best)%nat /\
      forall k, In k (keys table) -> candidate strip_prefix query k ->
                (key_length strip_prefix k <= key_length strip_prefix best)%nat).
Proof.
  unfold _find_best_match.
  destruct (best_match_loop strip_prefix query (keys table) None O)
    as [[Hfin Hall]|(l1 & best & l2 & Hks & Hfin & Hc & Hpos & H1 & H2)]; rewrite Hfin.
  - left. split; [reflexivity|]. intros k Hk Hck. specialize (Hall k Hk Hck). lia.
  - right. exists best. split; [reflexivity|].
    split; [rewrite Hks; apply in_elt|]. split; [exact Hc|]. split; [exact Hpos|].
    intros k Hk Hck. rewrite Hks in Hk. apply in_app_or in Hk.
    destruct Hk as [Hk|[<-|Hk]]; [specialize (H1 k Hk Hck); lia|lia|now apply H2].
Qed.

(** With distinct normalized keys the search does not depend on the order
    of the table. *)
Lemma find_best_match_order {str : StrMethods}
    (table table' : PricingTable) (strip_prefix : bool) (query : string) :
  Permutation (keys table) (keys table') ->
  NoDup (map (fun k => _normalize_model_name k strip_prefix) (keys table)) ->
  _find_best_match table query strip_prefix = _find_best_match table' query strip_prefix.
Proof.
  intros Hp Hnd.
  assert (Hin : forall k, In k (keys table) <-> In k (keys table')).
  { intros k. split; apply Permutation_in; [exact Hp|now symmetry]. }
  destruct (find_best_match_cases table strip_prefix query)
    as [[H1 Hnone]|(best & H1 & Hb & Hc & Hpos & Hmax)];
    destruct (find_best_match_cases table' strip_prefix query)
    as [[H2 Hnone']|(best' & H2 & Hb' & Hc' & Hpos' & Hmax')]; rewrite H1, H2.
  - reflexivity.
  - exfalso. apply Hin in Hb'. specialize (Hnone best' Hb' Hc'). lia.
  - exfalso. apply Hin in Hb. specialize (Hnone' best Hb Hc). lia.
  - f_equal.
    apply (in_map_injective (fun k => _normalize_model_name k strip_prefix) (keys table));
      [exact Hnd|exact Hb|now apply Hin|].
    apply prefix_same_length with (q := _normalize_model_name query strip_prefix);
      [exact Hc|exact Hc'|].
    apply Nat.le_antisymm.
    + apply Hmax'; [now apply Hin|exact Hc].
    + apply Hmax; [now apply Hin|exact Hc'].
Qed.

Lemma NoDup_map_fst_unique (table : PricingTable) (k : string) (r r' : PricingRecord) :
  NoDup (keys table) -> In (k, r) table -> In (k, r') table -> r = r'.
Proof.
  unfold keys. induction table as [|[k0 r0] table IH]; simpl; [tauto|].
  intros Hnd. apply NoDup_cons_iff in Hnd. destruct Hnd as [Hfresh Hrest].
  intros [E|H1] [E'|H2].
  - congruence.
  - exfalso. apply Hfresh. apply in_map_iff. exists (k, r').
    split; [simpl; congruence|exact H2].
  - exfalso. apply Hfresh. apply in_map_iff. exists (k, r).
    split; [simpl; congruence|exact H1].
  - now apply IH.
Qed.

Lemma get_order (table table' : PricingTable) (k : string) :
  Permutation table table' -> NoDup (keys table) -> get table k = get table' k.
Proof.
  intros Hp Hnd.
  assert (Hnd' : NoDup (keys table')).
  { unfold keys in *. eapply Permutation_NoDup; [|exact Hnd]. now apply Permutation_map. }
  destruct (get table k) as [r|] eqn:G; destruct (get table' k) as [r'|] eqn:G';
    try reflexivity.
  - f_equal. apply get_some_in in G, G'.
    apply (NoDup_map_fst_unique table' k r r' Hnd'); [|exact G'].
    eapply Permutation_in; eauto.
  - exfalso. apply get_none_iff in G'. apply G'. apply get_some_in in G.
    unfold keys. apply in_map_iff. exists (k, r). split; [reflexivity|].
    eapply Permutation_in; eauto.
  - exfalso. apply get_none_iff in G. apply G. apply get_some_in in G'.
    unfold keys. apply in_map_iff. exists (k, r'). split; [reflexivity|].
    eapply Permutation_in; [symmetry|]; eauto.
Qed.

(** X4. Iteration order only breaks ties: when the keys of the table are
    distinct and so are their normalized forms, with and without the
    provider prefix, resolution gives the same result for every order of
    the table's entries. *)
Theorem resolution_independent_of_order {str : StrMethods}
    (table table' : PricingTable) (model : string) :
  Permutation table table' ->
  NoDup (keys table) ->
  NoDup (map (fun k => _normalize_model_name k false) (keys table)) ->
  NoDup (map (fun k => _normalize_model_name k true) (keys table)) ->
  get_model_data_log table' model = get_model_data_log table model.
Proof.
  intros Hp Hnd Hfull Hstripped.
  assert (Hk : Permutation (keys table) (keys table'))
    by (unfold keys; now apply Permutation_map).
  unfold get_model_data_log.
  rewrite <- (get_order table table' _ Hp Hnd).
  rewrite <- !(find_best_match_order table table' _ _ Hk) by assumption.
  destruct (get table (strip (lower model))); [reflexivity|].
  destruct (_find_best_match table (strip (lower model)) false) as [key|].
  - now rewrite <- (get_order table table' key Hp Hnd).
  - destruct (_find_best_match table (strip (lower model)) true) as [key|];
      [|reflexivity].
    now rewrite <- (get_order table table' key Hp Hnd).
Qed.

Lemma NoDup_by_nodup (l : list string) :
  nodup string_dec l = l -> NoDup l.
Proof. intros H. rewrite <- H. apply NoDup_nodup. Qed.

Lemma resolution_independent_of_order_witness :
  get_model_data_log (rev pricing_data) "customprovider.claude-3-opus"
  = get_model_data_log pricing_data "customprovider.claude-3-opus".
Proof.
  apply (resolution_independent_of_order pricing_data (rev pricing_data)).
  - apply Permutation_rev.
  - apply NoDup_by_nodup. vm_compute. reflexivity.
  - apply NoDup_by_nodup. vm_compute. reflexivity.
  - apply NoDup_by_nodup. vm_compute. reflexivity.
Defined.

(** Where normalized forms coincide the order decides. *)
Example resolution_order_breaks_ties :
  let record := mkPricing (price 1 0) (price 1 0) "USD" in
  fst (get_model_data [("openai.x", record); ("anthropic.x", record)] "other.x-1")
  = "openai.x" /\
  fst (get_model_data [("anthropic.x", record); ("openai.x", record)] "other.x-1")
  = "anthropic.x".
Proof. vm_compute. split; reflexivity. Qed.

End ResolverOrder.

(** * Further properties of the cost computation *)

Module CostExtras.
Import Dec ModelCostManager CostCalculationManager DecFacts CostSpec CostFacts.
Import Samples.
Local Open Scope Z_scope.

(** X6. Whenever [calculate_costs] returns, the cost has exactly eight
    fractional digits and fewer than 28 digits in all (it is below 1e20 in
    magnitude), the currency is the record's (empty without a record) and
    the key is the resolved one; this for any token counts and any
    record. *)
Theorem returned_cost_is_quantized
    (self : CostCalculationManager) (input_tokens output_tokens : Z)
    (cost : Decimal) (currency used : string) :
  calculate_costs self input_tokens output_tokens = Ok (cost, currency, used) ->
  exponent cost = -8 /\
  coefficient cost < 10 ^ 28 /\
  currency = match model_pricing_data self with
             | Some record => cost_currency record
             | None => EmptyString
             end /\
  used = model_used_by_cost_calculation self.
Proof.
  intros H.
  destruct (calculate_costs_quantized self input_tokens output_tokens cost currency
              used H) as [He Hc].
  split; [exact He|]. split; [exact Hc|].
  revert H. unfold calculate_costs.
  repeat match goal with
         | |- bind ?r _ = _ -> _ => destruct r eqn:?; cbn [bind]; [|discriminate]
         end.
  intros [= _ <- <-]. split; reflexivity.
Qed.

Lemma returned_cost_is_quantized_witness :
  calculate_costs (init pricing_data "anthropic.claude-3-sonnet") 1000 500
  = Ok (mkDecimal false 1050000000 (-8), "USD"%string,
        "anthropic.claude-3-sonnet"%string) /\
  exponent (mkDecimal false 1050000000 (-8)) = -8 /\
  coefficient (mkDecimal false 1050000000 (-8)) < 10 ^ 28.
Proof.
  assert (H : calculate_costs (init pricing_data "anthropic.claude-3-sonnet") 1000 500
              = Ok (mkDecimal false 1050000000 (-8), "USD"%string,
                    "anthropic.claude-3-sonnet"%string))
    by (vm_compute; reflexivity).
  split; [exact H|].
  destruct (returned_cost_is_quantized _ _ _ _ _ _ H) as (He & Hc & _).
  split; [exact He|exact Hc].
Defined.

End CostExtras.

Module CostBounds.
Import Dec ModelCostManager CostCalculationManager DecFacts CostSpec CostFacts.
Import Samples CostClaims CostExtras.
Local Open Scope Z_scope.

Lemma plain_price_value (d : Decimal) :
  plain_price d ->
  (to_Q d == coefficient d # Z.to_pos (10 ^ (- exponent d)))%Q /\ (0 <= to_Q d)%Q.
Proof.
  destruct d as [s c e]. unfold plain_price. cbn [sign coefficient exponent].
  intros (-> & Hc & He). split; [apply to_Q_fraction; lia|].
  rewrite to_Q_fraction by lia. unfold Qle. cbn [Qnum Qden]. lia.
Qed.

Lemma exact_total_nonneg (r : PricingRecord) (input_tokens output_tokens : Z) :
  0 <= input_tokens -> 0 <= output_tokens ->
  plain_price (input_cost_per_token r) -> plain_price (output_cost_per_token r) ->
  (0 <= exact_total r input_tokens output_tokens)%Q.
Proof.
  intros Hi Ho Hpi Hpo. unfold exact_total.
  apply plain_price_value in Hpi, Hpo. destruct Hpi as [_ Hpi]. destruct Hpo as [_ Hpo].
  assert (Hqi : (0 <= inject_Z input_tokens)%Q) by (unfold Qle; simpl; lia).
  assert (Hqo : (0 <= inject_Z output_tokens)%Q) by (unfold Qle; simpl; lia).
  pose proof (Qmult_le_0_compat _ _ Hqi Hpi).
  pose proof (Qmult_le_0_compat _ _ Hqo Hpo).
  replace 0%Q with (0 + 0)%Q by reflexivity. now apply Qplus_le_compat.
Qed.

(** More tokens, a total at least as large. *)
Lemma exact_total_monotone (r : PricingRecord) (i i' o o' : Z) :
  i <= i' -> o <= o' ->
  plain_price (input_cost_per_token r) -> plain_price (output_cost_per_token r) ->
  (exact_total r i o <= exact_total r i' o')%Q.
Proof.
  intros Hi Ho Hpi Hpo. unfold exact_total.
  apply plain_price_value in Hpi, Hpo. destruct Hpi as [_ Hpi]. destruct Hpo as [_ Hpo].
  apply Qplus_le_compat; apply Qmult_le_compat_r; try assumption;
    unfold Qle; simpl; lia.
Qed.

Lemma scaled_bound_monotone (x y : Q) (k : Z) :
  0 <= k -> (x <= y)%Q ->
  (y * inject_Z (10 ^ k) < inject_Z (10 ^ 28))%Q ->
  (x * inject_Z (10 ^ k) < inject_Z (10 ^ 28))%Q.
Proof.
  intros Hk Hxy Hy. eapply Qle_lt_trans; [|exact Hy].
  apply Qmult_le_compat_r; [exact Hxy|].
  pose proof (pow10_pos k Hk). unfold Qle. simpl. lia.
Qed.

(** X8. More tokens never cost less: for a record of plain prices, if the
    total of the larger counts fits the context, both costs are returned
    and the cost of the smaller counts is at most that of the larger. *)
Theorem cost_monotone_in_tokens
    (self : CostCalculationManager) (r : PricingRecord) (i i' o o' : Z) :
  model_pricing_data self = Some r ->
  0 <= i <= i' -> 0 <= o <= o' ->
  plain_price (input_cost_per_token r) ->
  plain_price (output_cost_per_token r) ->
  (exact_total r i' o' * inject_Z (10 ^ 8) < inject_Z (10 ^ 28))%Q ->
  (exact_total r i' o' * inject_Z (10 ^ finest_scale r) < inject_Z (10 ^ 28))%Q ->
  exists c c',
    calculate_costs self i o
    = Ok (mkDecimal false c (-8), cost_currency r, model_used_by_cost_calculation self) /\
    calculate_costs self i' o'
    = Ok (mkDecimal false c' (-8), cost_currency r, model_used_by_cost_calculation self) /\
    0 <= c <= c'.
Proof.
  intros Hdata Hi Ho Hpi Hpo H20 H28.
  pose proof (exact_total_monotone r i i' o o' ltac:(lia) ltac:(lia) Hpi Hpo) as Hmono.
  pose proof (exact_total_nonneg r i o ltac:(lia) ltac:(lia) Hpi Hpo) as Hnonneg.
  assert (Hscale : 0 <= finest_scale r).
  { unfold finest_scale. destruct Hpi as (_ & _ & Hei). lia. }
  pose proof (calculate_costs_within_context self r i o Hdata ltac:(lia) ltac:(lia)
                Hpi Hpo
                (scaled_bound_monotone _ _ 8 ltac:(lia) Hmono H20)
                (scaled_bound_monotone _ _ _ Hscale Hmono H28)) as Hsmall.
  pose proof (calculate_costs_within_context self r i' o' Hdata ltac:(lia) ltac:(lia)
                Hpi Hpo H20 H28) as Hlarge.
  unfold round_half_up in Hsmall, Hlarge. change (- 8) with (-8) in Hsmall, Hlarge.
  eexists _, _. split; [exact Hsmall|]. split; [exact Hlarge|].
  split.
    + rewrite <- (Qfloor_Z 0). apply Qfloor_resp_le.
      replace (inject_Z 0) with (0 * inject_Z (10 ^ 8) + 0)%Q by reflexivity.
      apply Qplus_le_compat; [|unfold Qle; simpl; lia].
      apply Qmult_le_compat_r; [exact Hnonneg|].
      pose proof (pow10_pos 8 ltac:(lia)). unfold Qle. cbn [inject_Z Qnum Qden]. lia.
    + apply Qfloor_resp_le. apply Qplus_le_compat; [|apply Qle_refl].
      apply Qmult_le_compat_r; [exact Hmono|].
      pose proof (pow10_pos 8 ltac:(lia)). unfold Qle. cbn [inject_Z Qnum Qden]. lia.
Qed.

Lemma cost_monotone_in_tokens_witness :
  exists c c',
    calculate_costs (init pricing_data "openai.gpt-4o-mini") 1001 500
    = Ok (mkDecimal false c (-8), "USD"%string, "openai.gpt-4o-mini"%string) /\
    calculate_costs (init pricing_data "openai.gpt-4o-mini") 1002 501
    = Ok (mkDecimal false c' (-8), "USD"%string, "openai.gpt-4o-mini"%string) /\
    0 <= c <= c'.
Proof.
  assert (Hdata : model_pricing_data (init pricing_data "openai.gpt-4o-mini")
                  = Some (mkPricing (price 15 (-5)) (price 6 (-4)) "USD"))
    by (vm_compute; reflexivity).
  assert (Hin : plain_price (price 15 (-5)))
    by (unfold plain_price; vm_compute; intuition discriminate).
  assert (Hout : plain_price (price 6 (-4)))
    by (unfold plain_price; vm_compute; intuition discriminate).
  exact (cost_monotone_in_tokens (init pricing_data "openai.gpt-4o-mini")
           (mkPricing (price 15 (-5)) (price 6 (-4)) "USD") 1001 1002 500 501
           Hdata ltac:(lia) ltac:(lia) Hin Hout
           ltac:(vm_compute; reflexivity) ltac:(vm_compute; reflexivity)).
Defined.

End CostBounds.

Module CostExact.
Import PyStr Dec ModelCostManager CostCalculationManager DecFacts CostSpec CostFacts.
Import Samples ResolverFacts CostClaims CostExtras CostBounds MoreSpec.
Local Open Scope Z_scope.

(** The exact total as one fraction, at the finer of the two scales. *)
Lemma exact_total_fraction (ci ei co eo i o : Z) (currency : string) :
  ei <= 0 -> eo <= 0 ->
  (exact_total (mkPricing (mkDecimal false ci ei) (mkDecimal false co eo) currency) i o
   == to_Q (mkDecimal false
              (ci * i * 10 ^ (ei - Z.min ei eo) + co * o * 10 ^ (eo - Z.min ei eo))
              (Z.min ei eo)))%Q.
Proof.
  intros Hei Heo. unfold exact_total.
  cbn [input_cost_per_token output_cost_per_token].
  rewrite to_Q_sum, !to_Q_scale by lia. reflexivity.
Qed.

(** Prices of at most eight fractional digits lose nothing in the rounding. *)
Lemma cost_exact_for_record
    (self : CostCalculationManager) (r : PricingRecord) (i o : Z) :
  model_pricing_data self = Some r ->
  0 <= i -> 0 <= o ->
  price_of_eight_digits (input_cost_per_token r) ->
  price_of_eight_digits (output_cost_per_token r) ->
  (exact_total r i o * inject_Z (10 ^ 8) < inject_Z (10 ^ 28))%Q ->
  exists cost,
    calculate_costs self i o
    = Ok (cost, cost_currency r, model_used_by_cost_calculation self) /\
    (to_Q cost == exact_total r i o)%Q.
Proof.
  intros Hdata Hi Ho [Hpi Hei8] [Hpo Heo8] H20.
  pose proof (exact_total_nonneg r i o Hi Ho Hpi Hpo) as Hnonneg.
  assert (H28 : (exact_total r i o * inject_Z (10 ^ finest_scale r) < inject_Z (10 ^ 28))%Q).
  { eapply Qle_lt_trans; [|exact H20].
    rewrite !(Qmult_comm (exact_total r i o)).
    apply Qmult_le_compat_r; [|exact Hnonneg].
    assert (Hs : 0 <= finest_scale r <= 8).
    { unfold finest_scale. destruct Hpi as (_ & _ & ?). lia. }
    unfold Qle. cbn [inject_Z Qnum Qden]. rewrite !Z.mul_1_r.
    apply Z.pow_le_mono_r; lia. }
  exists (round_half_up (exact_total r i o) 8).
  split; [now apply calculate_costs_within_context|].
  destruct r as [[si ci ei] [so co eo] currency].
  unfold plain_price in Hpi, Hpo.
  cbn [input_cost_per_token output_cost_per_token sign coefficient exponent] in *.
  destruct Hpi as (-> & Hci & Hei). destruct Hpo as (-> & Hco & Heo).
  set (m := Z.min ei eo).
  set (S := ci * i * 10 ^ (ei - m) + co * o * 10 ^ (eo - m)).
  pose proof (exact_total_fraction ci ei co eo i o currency ltac:(lia) ltac:(lia)) as HT.
  fold m in HT. fold S in HT.
  pose proof (pow10_pos (ei - m) ltac:(unfold m; lia)).
  pose proof (pow10_pos (eo - m) ltac:(unfold m; lia)).
  assert (HS : 0 <= S) by (unfold S; nia).
  rewrite (round_half_up_fraction _ S m HS ltac:(unfold m; lia) HT).
  rewrite HT.
  assert (Hm : -8 <= m <= 0) by (unfold m; lia).
  pose proof (pow10_pos (- m) ltac:(lia)) as HD.
  assert (H8 : 10 ^ 8 = 10 ^ (m + 8) * 10 ^ (- m)).
  { rewrite <- Z.pow_add_r by lia. f_equal. lia. }
  assert (HR : (2 * S * 10 ^ 8 + 10 ^ (- m)) / (2 * 10 ^ (- m)) = S * 10 ^ (m + 8)).
  { symmetry. apply Z.div_unique with (r := 10 ^ (- m)); [lia|]. rewrite H8. ring. }
  rewrite HR, !to_Q_fraction by lia.
  unfold Qeq. cbn [Qnum Qden]. rewrite !pos_pow10 by lia.
  change (- -8) with 8. rewrite H8. ring.
Qed.

(** X7. In a table whose prices are plain with at most eight fractional
    digits, for every model name and non-negative token counts whose exact
    total (at the record the name resolves to) is below 1e20, the cost
    returned is worth exactly that total: nothing is rounded away, and an
    unresolved name costs exactly zero. *)
Theorem resolved_cost_is_exact {str : StrMethods}
    (table : PricingTable) (model : string) (i o : Z) :
  (forall k r, In (k, r) table ->
               price_of_eight_digits (input_cost_per_token r) /\
               price_of_eight_digits (output_cost_per_token r)) ->
  0 <= i -> 0 <= o ->
  (resolved_total table model i o * inject_Z (10 ^ 8) < inject_Z (10 ^ 28))%Q ->
  exists cost currency,
    calculate_costs (init table model) i o
    = Ok (cost, currency, fst (get_model_data table model)) /\
    (to_Q cost == resolved_total table model i o)%Q.
Proof.
  intros Htable Hi Ho H20. unfold resolved_total in *. unfold init.
  destruct (ResolverExtras.get_model_data_cases table model)
    as [Hunknown|(record & Hres & Hin & _)].
  - rewrite Hunknown in *. cbn [fst snd] in *.
    destruct (UnknownModelClaims.calculate_costs_no_record model "unknown" i o)
      as (zero & Hcalc & _ & _ & Hzero).
    exists zero, EmptyString. split; [exact Hcalc|].
    rewrite (Hzero Hi Ho). reflexivity.
  - rewrite Hres in *. cbn [fst snd] in *.
    destruct (Htable _ _ Hin) as [Hpi Hpo].
    destruct (cost_exact_for_record
                (mkManager model (fst (get_model_data table model)) (Some record))
                record i o eq_refl Hi Ho Hpi Hpo H20) as (cost & Hcalc & Hval).
    exists cost, (cost_currency record). split; [exact Hcalc|exact Hval].
Qed.

(** The prices of the program's table have at most five fractional digits. *)
Lemma pricing_data_prices (k : string) (r : PricingRecord) :
  In (k, r) pricing_data ->
  price_of_eight_digits (input_cost_per_token r) /\
  price_of_eight_digits (output_cost_per_token r).
Proof.
  intros Hin. unfold pricing_data in Hin. simpl in Hin.
  repeat (destruct Hin as [[= <- <-]|Hin];
          [unfold price_of_eight_digits, plain_price; vm_compute;
           intuition discriminate|]).
  destruct Hin.
Qed.

Lemma resolved_cost_is_exact_witness :
  exists cost currency,
    calculate_costs (init pricing_data "openai.gpt-4o-mini-2024-07-18") 1234567 7654321
    = Ok (cost, currency,
          fst (get_model_data pricing_data "openai.gpt-4o-mini-2024-07-18")) /\
    (to_Q cost
     == resolved_total pricing_data "openai.gpt-4o-mini-2024-07-18" 1234567 7654321)%Q.
Proof.
  apply (resolved_cost_is_exact pricing_data "openai.gpt-4o-mini-2024-07-18"
           1234567 7654321 pricing_data_prices).
  - lia.
  - lia.
  - vm_compute. reflexivity.
Defined.

End CostExact.

(** * Further properties of the encoder selection *)

Module EncodingExtras.
Import PyStr CostCalculationManager MoreSpec Samples EncodingClaims.
Local Open Scope string_scope.

Section Tiktoken.

Variable Encoding : Type.
Variable encoding_for_model tiktoken_get_encoding : string -> result TiktokenError Encoding.

(** X9. Encoder selection fails in two cases only, with the error of
    tiktoken unchanged: the model lookup raises an error other than
    KeyError, or it raises KeyError and loading ["cl100k_base"] fails.  An
    encoder found by the lookup is returned as it is. *)
Theorem encoder_selection_failures (model : string) :
  (forall e,
      get_encoding encoding_for_model tiktoken_get_encoding model = Raise e <->
      (encoding_for_model (strip_provider model) = Raise e /\ e <> KeyError) \/
      (encoding_for_model (strip_provider model) = Raise KeyError /\
       tiktoken_get_encoding "cl100k_base" = Raise e)) /\
  (forall enc,
      encoding_for_model (strip_provider model) = Ok enc ->
      get_encoding encoding_for_model tiktoken_get_encoding model = Ok enc).
Proof.
  unfold get_encoding. split.
  - intros e. destruct (encoding_for_model (strip_provider model)) as [enc|e0].
    + split; [discriminate|]. intros [[H _]|[H _]]; discriminate.
    + destruct e0 as [|name].
      * split.
        -- intros H. right. split; [reflexivity|exact H].
        -- intros [[[= <-] Hne]|[_ H]]; [contradiction|exact H].
      * split.
        -- intros [= <-]. left. split; [reflexivity|discriminate].
        -- intros [[H _]|[H _]]; [exact H|discriminate].
  - intros enc ->. reflexivity.
Qed.

(** X10. Only the text up to the first ['.'] is taken for the provider: for
    a provider without a dot, the name looked up for ["provider.name"] is
    [name] whatever follows, a name without a dot is looked up as it is,
    and so the provider does not influence the selection. *)
Theorem provider_prefix_is_first_segment (provider name : string) :
  dotless provider = true ->
  strip_provider (provider ++ "." ++ name) = name /\
  (dotless name = true ->
   strip_provider name = name /\
   get_encoding encoding_for_model tiktoken_get_encoding (provider ++ "." ++ name)
   = get_encoding encoding_for_model tiktoken_get_encoding name).
Proof.
  intros Hp. split; [now apply strip_provider_prefixed|].
  intros Hn. split; [now apply strip_provider_dotless|].
  unfold get_encoding. now rewrite strip_provider_prefixed, strip_provider_dotless.
Qed.

End Tiktoken.

Lemma provider_prefix_is_first_segment_witness :
  strip_provider ("azure" ++ "." ++ "gpt-3.5-turbo") = "gpt-3.5-turbo" /\
  get_encoding sample_encoding_for_model sample_get_encoding ("azure" ++ "." ++ "gpt-4o")
  = get_encoding sample_encoding_for_model sample_get_encoding "gpt-4o".
Proof.
  split.
  - exact (proj1 (provider_prefix_is_first_segment string sample_encoding_for_model
                    sample_get_encoding "azure" "gpt-3.5-turbo" eq_refl)).
  - exact (proj2 (proj2 (provider_prefix_is_first_segment string
                           sample_encoding_for_model sample_get_encoding "azure"
                           "gpt-4o" eq_refl) eq_refl)).
Defined.

(** A name with a dot but no provider loses its first segment. *)
Example unprefixed_name_with_dot :
  strip_provider "gpt-3.5-turbo" = "5-turbo".
Proof. reflexivity. Qed.

End EncodingExtras.

(** * Further properties of the usage summary *)

Module FilterExtras.
Import PyStr Datetime UsagePersistenceManager.
Import SummarySpec MoreSpec Samples OrderFacts SummaryFacts DateFacts.
Local Open Scope list_scope.
Local Open Scope Z_scope.

Lemma truthy_nonempty (s : string) : s <> EmptyString -> truthy s = true.
Proof. destruct s; [congruence|reflexivity]. Qed.

Lemma filter_filter {A : Type} (p q : A -> bool) (l : list A) :
  filter p (filter q l) = filter (fun x => q x && p x) l.
Proof.
  induction l as [|x l IH]; simpl; [reflexivity|].
  destruct (q x); simpl; [destruct (p x)|]; now rewrite IH.
Qed.

(** The result depends on the query through the admitted rows only. *)
Lemma run_query_by_rows {db : Database} (q q' : Query) (rows rows' : list UsageFact) :
  filter (admits q) rows = filter (admits q') rows' ->
  run_query q rows = run_query q' rows'.
Proof. intros H. unfold run_query. now rewrite H. Qed.

(** The user condition as a filter of the table. *)
Lemma user_condition_as_filter (u : string) (conditions : list Condition)
    (s e : option datetime) (rows : list UsageFact) :
  ~ In UserEmailEq conditions ->
  filter (admits (mkQuery (UserEmailEq :: conditions) (mkParams (Some u) s e))) rows
  = filter (admits (mkQuery conditions (mkParams None s e)))
      (filter (fun r => String.eqb (user_email r) u) rows).
Proof.
  intros Hnot. rewrite filter_filter. apply filter_ext. intros r.
  unfold admits. cbn [where_conditions params forallb eval_condition param_user_email].
  f_equal.
  induction conditions as [|c cs IH]; [reflexivity|].
  cbn [forallb]. rewrite IH by (intros H; apply Hnot; now right).
  f_equal. destruct c; [exfalso; apply Hnot; now left| |]; reflexivity.
Qed.

(** X12. The user filter of a usage summary: with a non-empty user email
    the result is the summary of that user's rows alone, so every row of it
    carries that email; with the empty string as email nothing is filtered,
    as without an email. *)
Theorem user_filter_selects_rows {db : Database}
    (usage_costs : list UsageFact) (u : string) (start_date end_date : option datetime) :
  u <> EmptyString ->
  get_usage_stats usage_costs (Some u) start_date end_date
  = get_usage_stats (filter (fun r => String.eqb (user_email r) u) usage_costs)
      None start_date end_date /\
  (forall result s,
      get_usage_stats usage_costs (Some u) start_date end_date = Ok result ->
      In s result -> summary_user_email s = u) /\
  get_usage_stats usage_costs (Some EmptyString) start_date end_date
  = get_usage_stats usage_costs None start_date end_date.
Proof.
  intros Hu. apply truthy_nonempty in Hu.
  assert (Hsame : get_usage_stats usage_costs (Some u) start_date end_date
                  = get_usage_stats
                      (filter (fun r => String.eqb (user_email r) u) usage_costs)
                      None start_date end_date).
  { unfold get_usage_stats, build_query. rewrite Hu.
    destruct start_date as [s|]; destruct end_date as [e|];
      try (destruct (add_one_day e) as [next_day|err]; [|reflexivity]);
      cbn [bind app param_user_email param_start_date param_end_date];
      apply run_query_by_rows; apply user_condition_as_filter;
      simpl; intuition discriminate. }
  split; [exact Hsame|]. split; [|reflexivity].
  intros result s. rewrite Hsame. unfold get_usage_stats.
  destruct (build_query None start_date end_date) as [q|err]; cbn [bind]; [|discriminate].
  intros Hrun Hin. apply (run_query_in q _ result s Hrun) in Hin.
  destruct Hin as [r [Hr [_ Hs]]]. apply filter_In in Hr. destruct Hr as [_ Hr].
  apply summarize_key in Hs. unfold order_key, order_by, fact_key in Hs.
  cbn [map summary_column] in Hs. injection Hs as -> _ _ _.
  now apply String.eqb_eq.
Qed.

Lemma user_filter_selects_rows_witness :
  get_usage_stats
    [sample_fact "b@example.com" (mkDatetime 2024 1 6 9 0 0 0) 300000;
     sample_fact "a@example.com" (mkDatetime 2024 1 5 23 59 0 0) 750000]
    (Some "a@example.com"%string) None None
  = Ok [mkSummaryRow "a@example.com" "openai.gpt-4o" "USD" "2024-01-05" 750000%Z
          1000 500].
Proof.
  rewrite (proj1 (user_filter_selects_rows
                    [sample_fact "b@example.com" (mkDatetime 2024 1 6 9 0 0 0) 300000;
                     sample_fact "a@example.com" (mkDatetime 2024 1 5 23 59 0 0) 750000]
                    "a@example.com" None None ltac:(discriminate))).
  vm_compute. reflexivity.
Defined.

End FilterExtras.

Module DateExtras.
Import PyStr Datetime UsagePersistenceManager.
Import SummarySpec MoreSpec Samples OrderFacts SummaryFacts DateFacts.
Local Open Scope list_scope.
Local Open Scope Z_scope.

Lemma fields_ltb_cons (x y : Z) (a b : list Z) :
  fields_ltb (x :: a) (y :: b) = true <-> x < y \/ (x = y /\ fields_ltb a b = true).
Proof.
  cbn [fields_ltb]. rewrite orb_true_iff, andb_true_iff, Z.ltb_lt, Z.eqb_eq. reflexivity.
Qed.

(** No time of day is before midnight. *)
Lemma time_not_before_midnight (h mi s us : Z) :
  0 <= h -> 0 <= mi -> 0 <= s -> 0 <= us ->
  fields_ltb [h; mi; s; us] [0; 0; 0; 0] = false.
Proof.
  intros Hh Hmi Hs Hus. apply not_true_is_false. intros H.
  repeat (apply fields_ltb_cons in H; destruct H as [H|[_ H]]; [lia|]).
  discriminate.
Qed.

(** Against a midnight the comparison is that of the calendar dates. *)
Lemma before_midnight_iff (t d : datetime) :
  valid t -> midnight d ->
  Datetime.ltb t d = true <-> date_before t d.
Proof.
  intros (_ & _ & _ & Hh & Hmi & Hs & Hus) (Eh & Emi & Es & Eus).
  unfold Datetime.ltb, fields, date_before. rewrite Eh, Emi, Es, Eus.
  do 3 rewrite fields_ltb_cons.
  rewrite (time_not_before_midnight (hour t) (minute t) (second t) (microsecond t))
    by lia.
  intuition (try lia; try discriminate).
Qed.

Lemma add_one_day_midnight (d next_day : datetime) :
  midnight d -> add_one_day d = Ok next_day -> midnight next_day.
Proof.
  intros (Eh & Emi & Es & Eus). unfold add_one_day, midnight.
  destruct (day d <? days_in_month (year d) (month d));
    [|destruct (month d <? 12); [|destruct (year d <? MAXYEAR); [|discriminate]]];
    intros [= <-]; cbn [hour minute second microsecond]; auto.
Qed.

(** Between a date and the day after it there is no other valid date. *)
Lemma next_day_is_adjacent (t d next_day : datetime) :
  valid t -> valid d -> add_one_day d = Ok next_day ->
  (~ date_before t d /\ date_before t next_day) <-> same_date t d.
Proof.
  intros (_ & Hmt & Hdt & _) (_ & Hmd & Hdd & _). unfold add_one_day, date_before, same_date.
  destruct (Z.ltb_spec (day d) (days_in_month (year d) (month d))) as [Hday|Hday];
    [|destruct (Z.ltb_spec (month d) 12) as [Hmon|Hmon];
      [|destruct (Z.ltb_spec (year d) MAXYEAR) as [Hyear|Hyear]; [|discriminate]]];
    intros [= <-]; cbn [year month day].
  - lia.
  - split.
    + intros [Hge Hlt].
      assert (Ey : year t = year d) by lia.
      assert (Em : month t = month d) by lia.
      rewrite Ey, Em in Hdt. lia.
    + lia.
  - split.
    + intros [Hge Hlt].
      assert (Ey : year t = year d) by lia.
      assert (Em : month t = month d) by lia.
      rewrite Ey, Em in Hdt. lia.
    + lia.
Qed.

Lemma same_date_format (a b : datetime) :
  same_date a b -> format_date a = format_date b.
Proof. intros (Ey & Em & Ed). unfold format_date. now rewrite Ey, Em, Ed. Qed.

(** X14. A summary asked for a single day: with the midnight of a valid
    day other than 9999-12-31 as both start and end date, a stored row with
    a valid timestamp is admitted exactly when it is of that calendar day,
    whatever its time; so every row of the result carries that date. *)
Theorem single_day_query {db : Database} (usage_costs : list UsageFact) (d : datetime) :
  valid d -> midnight d ->
  (year d < 9999 \/ month d < 12 \/ day d < 31) ->
  exists q,
    build_query None (Some d) (Some d) = Ok q /\
    get_usage_stats usage_costs None (Some d) (Some d) = run_query q usage_costs /\
    (forall row, valid (timestamp row) ->
                 (admits q row = true <-> same_date (timestamp row) d)) /\
    ((forall row, In row usage_costs -> valid (timestamp row)) ->
     forall result s,
       run_query q usage_costs = Ok result ->
       In s result -> summary_date s = format_date d).
Proof.
  intros Hv Hm Hnot_last.
  destruct (add_one_day_defined d Hv Hnot_last) as [next_day [Hnext _]].
  pose proof (add_one_day_midnight d next_day Hm Hnext) as Hmn.
  assert (Hadmits : forall row, valid (timestamp row) ->
            (admits (mkQuery [TimestampGe; TimestampLt]
                       (mkParams None (Some d) (Some next_day))) row = true
             <-> same_date (timestamp row) d)).
  { intros row Hvt. unfold admits.
    cbn [where_conditions params forallb eval_condition param_start_date param_end_date].
    rewrite andb_true_r, andb_true_iff. unfold geb. rewrite negb_true_iff.
    rewrite <- (next_day_is_adjacent (timestamp row) d next_day Hvt Hv Hnext).
    rewrite <- (before_midnight_iff (timestamp row) d Hvt Hm).
    rewrite <- (before_midnight_iff (timestamp row) next_day Hvt Hmn).
    rewrite not_true_iff_false. reflexivity. }
  exists (mkQuery [TimestampGe; TimestampLt] (mkParams None (Some d) (Some next_day))).
  assert (Hbuild : build_query None (Some d) (Some d)
                   = Ok (mkQuery [TimestampGe; TimestampLt]
                           (mkParams None (Some d) (Some next_day)))).
  { unfold build_query. rewrite Hnext. reflexivity. }
  split; [exact Hbuild|]. split; [unfold get_usage_stats; now rewrite Hbuild|].
  split; [exact Hadmits|].
  intros Hvalid result s Hrun Hin. apply (run_query_in _ _ result s Hrun) in Hin.
  destruct Hin as [r [Hr [Ha Hs]]].
  apply summarize_key in Hs. unfold order_key, order_by, fact_key in Hs.
  cbn [map summary_column] in Hs. injection Hs as _ -> _ _.
  apply same_date_format. apply Hadmits; [now apply Hvalid|exact Ha].
Qed.

Lemma single_day_query_witness :
  get_usage_stats
    [sample_fact "a@example.com" (mkDatetime 2024 2 28 23 59 59 0) 100000;
     sample_fact "a@example.com" (mkDatetime 2024 2 29 0 0 0 0) 200000;
     sample_fact "a@example.com" (mkDatetime 2024 2 29 23 59 59 999999) 300000;
     sample_fact "a@example.com" (mkDatetime 2024 3 1 0 0 0 0) 400000]
    None (Some (mkDatetime 2024 2 29 0 0 0 0)) (Some (mkDatetime 2024 2 29 0 0 0 0))
  = Ok [mkSummaryRow "a@example.com" "openai.gpt-4o" "USD" "2024-02-29" 500000%Z
          2000 1000].
Proof.
  assert (Hv : valid (mkDatetime 2024 2 29 0 0 0 0)).
  { unfold valid, MAXYEAR. cbn [year month day hour minute second microsecond].
    change (days_in_month 2024 2) with 29. lia. }
  destruct (single_day_query
              [sample_fact "a@example.com" (mkDatetime 2024 2 28 23 59 59 0) 100000;
               sample_fact "a@example.com" (mkDatetime 2024 2 29 0 0 0 0) 200000;
               sample_fact "a@example.com" (mkDatetime 2024 2 29 23 59 59 999999) 300000;
               sample_fact "a@example.com" (mkDatetime 2024 3 1 0 0 0 0) 400000]
              (mkDatetime 2024 2 29 0 0 0 0) Hv)
    as (q & Hq & Hstats & _).
  { unfold midnight. cbn [hour minute second microsecond]. auto. }
  { left. cbn [year]. lia. }
  rewrite Hstats. injection Hq as <-. vm_compute. reflexivity.
Defined.

(** X15. Every condition of the WHERE clause built refers to a parameter
    that is bound, every bound parameter has its condition, and no
    condition is repeated: the conditions are the user, start and end
    conditions, in this order, for the arguments given. *)
Theorem where_clause_parameters_bound
    (user_email : option string) (start_date end_date : option datetime) (q : Query) :
  build_query user_email start_date end_date = Ok q ->
  forallb (param_bound (params q)) (where_conditions q) = true /\
  (forall c, param_bound (params q) c = true -> In c (where_conditions q)) /\
  NoDup (where_conditions q) /\
  (In UserEmailEq (where_conditions q) <->
   exists u, user_email = Some u /\ u <> EmptyString) /\
  (In TimestampGe (where_conditions q) <-> start_date <> None) /\
  (In TimestampLt (where_conditions q) <-> end_date <> None).
Proof.
  unfold build_query.
  assert (Hu : forall u, truthy u = true -> u <> EmptyString).
  { intros u H ->. discriminate. }
  assert (Hu' : forall u, truthy u = false -> u = EmptyString).
  { intros [|c u]; [reflexivity|discriminate]. }
  destruct user_email as [u|]; [destruct (truthy u) eqn:Ht|];
    destruct start_date as [s|]; destruct end_date as [e|];
    try (destruct (add_one_day e) as [next_day|err]; [|discriminate]);
    cbn [bind app param_user_email param_start_date param_end_date];
    intros [= <-]; cbn [where_conditions params];
    (split; [reflexivity|]);
    (split; [intros [| |]; cbn; intros; try discriminate; tauto|]);
    (split; [repeat constructor; cbn; intuition discriminate|]);
    (split; [split; [cbn; intros H; try (exists u; split; [reflexivity|now apply Hu]);
                     intuition discriminate
                    |intros [u' [E Hne]]; try discriminate; cbn; try tauto;
                     injection E as <-; apply Hu' in Ht; contradiction]|]);
    split; cbn; split; intros; try discriminate; try tauto; try congruence;
    intuition discriminate.
Qed.

Lemma where_clause_parameters_bound_witness :
  forallb (param_bound (mkParams (Some "a@example.com"%string) None
                          (Some (mkDatetime 2024 1 6 0 0 0 0))))
    [UserEmailEq; TimestampLt] = true.
Proof.
  exact (proj1 (where_clause_parameters_bound (Some "a@example.com"%string) None
                  (Some (mkDatetime 2024 1 5 0 0 0 0))
                  (mkQuery [UserEmailEq; TimestampLt]
                     (mkParams (Some "a@example.com"%string) None
                        (Some (mkDatetime 2024 1 6 0 0 0 0))))
                  eq_refl)).
Defined.

End DateExtras.

(** * Further properties of the status message *)

Module FlowExtras.
Import PyStr Dec ModelCostManager CostCalculationManager.
Import Datetime UsagePersistenceManager CostTrackingManager.
Import FilterExtras.
Local Open Scope string_scope.
Local Open Scope list_scope.

Section Clock.

Variable Time : Type.
Variable time_truthy : Time -> bool.
Variable format_elapsed : Time -> Time -> string.

(** X17. Edges of the status message.  A reasoning-token count of zero is
    left out as an absent one is; a status label containing ["Requested"]
    hides the cost, so that the event does not depend on cost and currency;
    and a non-empty status label is the last segment of the description. *)
Theorem status_message_edges
    (current_time : Time) (input_tokens generated_tokens : option Z)
    (start_time : Time) (has_event_emitter : bool)
    (current_cost : option Decimal) (cost_currency : option string) (status : string) :
  update_status_message time_truthy format_elapsed current_time input_tokens
    generated_tokens (Some 0%Z) start_time has_event_emitter current_cost cost_currency
    status
  = update_status_message time_truthy format_elapsed current_time input_tokens
      generated_tokens None start_time has_event_emitter current_cost cost_currency
      status /\
  (contains "Requested" status = true ->
   forall reasoning_tokens,
     update_status_message time_truthy format_elapsed current_time input_tokens
       generated_tokens reasoning_tokens start_time has_event_emitter current_cost
       cost_currency status
     = update_status_message time_truthy format_elapsed current_time input_tokens
         generated_tokens reasoning_tokens start_time has_event_emitter None None
         status) /\
  (status <> EmptyString ->
   forall reasoning_tokens,
   exists event before,
     update_status_message time_truthy format_elapsed current_time input_tokens
       generated_tokens reasoning_tokens start_time true current_cost cost_currency
       status
     = Some event /\
     description event = join " | " (before ++ [status]) /\
     Forall (fun segment => segment <> EmptyString) (before ++ [status])).
Proof.
  split; [reflexivity|]. split.
  - intros Hreq reasoning_tokens. unfold update_status_message, status_parts.
    rewrite Hreq. cbn [negb]. rewrite !andb_false_r. reflexivity.
  - intros Hne reasoning_tokens. apply truthy_nonempty in Hne.
    unfold update_status_message, status_parts. cbn [negb]. rewrite Hne.
    eexists. eexists (filter truthy [_; _; _; _; _]).
    split; [reflexivity|]. cbn [description].
    match goal with
    | |- context [filter truthy [?a; ?b; ?c; ?d; ?e; ?f]] =>
        change [a; b; c; d; e; f] with ([a; b; c; d; e] ++ [f])
    end.
    rewrite filter_app.
    change (filter truthy [status]) with (if truthy status then [status] else []).
    rewrite Hne. split; [reflexivity|].
    apply Forall_app. split.
    + apply Forall_forall. intros x Hx. apply filter_In in Hx.
      destruct Hx as [_ Hx]. intros ->. discriminate.
    + constructor; [|constructor]. intros ->. discriminate.
Qed.

End Clock.

End FlowExtras.

